(** * LiquidIO VF poll-mode driver: lio_ethdev.c

    A shallow embedding of drivers/net/liquidio/lio_ethdev.c: the population
    count used to size the queues, the link-status publication, the queue
    set-up entry points, the link-status poll and the interface
    configuration.  Calls that leave the file are recorded in a trace and
    answered by an [externals] record; device state is passed explicitly. *)

From Stdlib Require Import ZArith Lia List Bool.
From stdpp Require Import base numbers list.
Local Open Scope Z_scope.

(** * Population count *)
Definition wrap64 (x : Z) : Z := x mod 2 ^ 64.

Definition lio_hweight64 (w : Z) : Z :=
  let res := wrap64 (w - Z.land (Z.shiftr w 1) 0x5555555555555555) in
  let res := wrap64 (Z.land res 0x3333333333333333
                     + Z.land (Z.shiftr res 2) 0x3333333333333333) in
  let res := Z.land (wrap64 (res + Z.shiftr res 4)) 0x0F0F0F0F0F0F0F0F in
  let res := wrap64 (res + Z.shiftr res 8) in
  let res := wrap64 (res + Z.shiftr res 16) in
  Z.land (wrap64 (res + Z.shiftr res 32)) 0x00000000000000FF.

(** Number of set bits among the low [n] bits of [w]. *)
Fixpoint bitcount (n : nat) (w : Z) : Z :=
  match n with
  | O => 0
  | S n' => Z.b2z (Z.testbit w (Z.of_nat n')) + bitcount n' w
  end.


(** The three masked steps of [lio_hweight64] with the mask as a parameter,
    and words seen as sequences of bytes. *)
Module Swar.


Definition s1 (m w : Z) : Z := w - Z.land (Z.shiftr w 1) m.
Definition s2 (m r : Z) : Z := Z.land r m + Z.land (Z.shiftr r 2) m.
Definition s3 (m r : Z) : Z := Z.land (r + Z.shiftr r 4) m.

Fixpoint rep8 (n : nat) (m : Z) : Z :=
  match n with O => 0 | S n' => 256 * rep8 n' m + m end.

Fixpoint bmap (f : Z -> Z) (n : nat) (w : Z) : Z :=
  match n with
  | O => 0
  | S n' => 256 * bmap f n' (w / 256) + f (w mod 256)
  end.

Fixpoint bsum (f : Z -> Z) (n : nat) (w : Z) : Z :=
  match n with
  | O => 0
  | S n' => f (w mod 256) + bsum f n' (w / 256)
  end.

Definition pair_counts (b : Z) : Z := s2 0x33 (s1 0x55 b).
Definition hw8 (b : Z) : Z := s3 0x0F (pair_counts b).

Definition byte_facts (b : Z) : bool :=
  (hw8 b =? bitcount 8 b) && (0 <=? s1 0x55 b) && (s1 0x55 b <? 256)
  && (0 <=? pair_counts b) && (pair_counts b <=? 68)
  && (pair_counts b mod 16 <=? 4) && (0 <=? hw8 b) && (hw8 b <=? 8).

End Swar.

(** * Constants taken from headers that are not part of this file *)

(** <errno.h> (Linux numbering). *)
Definition EINVAL : Z := 22.
Definition ENOMEM : Z := 12.
Definition ENODEV : Z := 19.
Definition ENOTSUP : Z := 95.

(** rte_ethdev.h *)
Definition ETH_LINK_DOWN : Z := 0.
Definition ETH_LINK_UP : Z := 1.
Definition ETH_LINK_HALF_DUPLEX : Z := 0.
Definition ETH_LINK_FULL_DUPLEX : Z := 1.
Definition ETH_SPEED_NUM_NONE : Z := 0.
Definition ETH_SPEED_NUM_10G : Z := 10000.
Definition ETHER_ADDR_LEN : nat := 6.

(** Modelled from the spec: LIO_LINK_SPEED_10000 (lio_struct.h) is the device
    speed code that the lookup maps to 10 Gbps, "device code 10000". *)
Definition LIO_LINK_SPEED_10000 : Z := 10000.

(** lio_struct.h / lio_rxtx.h *)
Definition LIO_COMPLETION_WORD_INIT : Z := 0xFFFFFFFFFFFFFFFF.
Definition LIO_IQ_SEND_FAILED : Z := -1.

(** Sub-opcodes of LIO_OPCODE and control commands, kept symbolic. *)
Inductive subcode := LIO_OPCODE_IF_CFG | LIO_OPCODE_INFO.
Inductive ctrl_cmd := LIO_CMD_RX_CTL.

(** What the build fixes and this file only uses: the command time-out, the
    byte order of the host, the bit-field views of the 64-bit unions declared
    in lio_struct.h, and the mbuf headroom. *)
Record platform := {
  LIO_MAX_CMD_TIMEOUT : Z;
  host_big_endian : bool;
  link_up_of : Z -> Z;      (* union octeon_link_status, .s.link_up *)
  speed_of : Z -> Z;        (* union octeon_link_status, .s.speed   *)
  q_no_of : Z -> Z;         (* union octeon_rxpciq / octeon_txpciq, .s.q_no *)
  gmxport_of : Z -> Z;      (* struct octeon_link_info, gmxport bit-field *)
  RTE_PKTMBUF_HEADROOM : Z
}.

(** * Machine integers *)

Definition to_uint16 (x : Z) : Z := x mod 2 ^ 16.

(** Conversion of a 64-bit value to [int]. *)
Definition to_int (x : Z) : Z := (x + 2 ^ 31) mod 2 ^ 32 - 2 ^ 31.

Definition byte_at (v j : Z) : Z := Z.land (Z.shiftr v (8 * j)) 0xFF.

Definition bswap64 (v : Z) : Z :=
  Z.lor (Z.shiftl (byte_at v 0) 56)
 (Z.lor (Z.shiftl (byte_at v 1) 48)
 (Z.lor (Z.shiftl (byte_at v 2) 40)
 (Z.lor (Z.shiftl (byte_at v 3) 32)
 (Z.lor (Z.shiftl (byte_at v 4) 24)
 (Z.lor (Z.shiftl (byte_at v 5) 16)
 (Z.lor (Z.shiftl (byte_at v 6) 8) (byte_at v 7))))))).

(** * Data *)

(** struct rte_eth_link: the members this file assigns. *)
Record rte_eth_link := {
  link_speed : Z;
  link_duplex : Z;
  link_status : Z
}.

Definition rte_eth_link_eqb (a b : rte_eth_link) : bool :=
  (link_speed a =? link_speed b) && (link_duplex a =? link_duplex b)
  && (link_status a =? link_status b).

Record lio_droq := { droq_max_count : Z }.
Record lio_instr_queue := { iq_max_count : Z }.

(** struct octeon_link_info; [link] is linfo.link.link_status64. *)
Record octeon_link_info := {
  link : Z;
  hw_addr : Z;
  gmxport : Z;
  num_rxpciq : Z;
  num_txpciq : Z;
  rxpciq : list Z;
  txpciq : list Z
}.

(** struct lio_device. A pointer to an array obtained from rte_zmalloc is
    [None] for NULL and [Some n] for an array of [n] elements. *)
Record lio_device := {
  port_configured : Z;
  intf_open : Z;
  nb_rx_queues : Z;
  nb_tx_queues : Z;
  pf_num : Z;
  linfo : octeon_link_info;
  glist_lock : option Z;
  glist_head : option Z;
  droq : list (option lio_droq);
  instr_queue : list (option lio_instr_queue)
}.

(** eth_dev->data *)
Record rte_eth_dev_data := {
  data_nb_rx_queues : Z;
  data_nb_tx_queues : Z;
  dev_link : rte_eth_link;
  mac_addrs : list Z;
  rx_queues : list (option lio_droq);
  tx_queues : list (option lio_instr_queue)
}.

(** union lio_if_cfg as filled in by lio_dev_configure. *)
Record lio_if_cfg := {
  cfg_num_iqueues : Z;
  cfg_num_oqueues : Z;
  cfg_base_queue : Z;
  cfg_gmx_port_id : Z
}.

(** Calls into the rest of the driver and into the EAL, in program order. *)
Inductive event :=
  | Ev_flush_iq (iq_no : Z)
  | Ev_delay_ms (ms : Z)
  | Ev_alloc_soft_command (ok : bool)
  | Ev_prepare_soft_command (sub : subcode) (ossp0 : option lio_if_cfg)
  | Ev_send_soft_command (wait_time : Z)
  | Ev_process_ordered_list
  | Ev_free_soft_command
  | Ev_free_instr_queue0
  | Ev_zmalloc (nelem : Z) (ok : bool)
  | Ev_free
  | Ev_disable_io_queues
  | Ev_setup_device_regs
  | Ev_send_ctrl_pkt (cmd : ctrl_cmd) (param1 : Z)
  | Ev_setup_droq (oq_no num_descs buf_size : Z)
  | Ev_setup_iq (q_no num_descs : Z)
  | Ev_setup_sglists (q_no fw_mapped_iq num_descs : Z)
  | Ev_delete_instruction_queue (iq_no : Z)
  | Ev_alarm_set.

Definition event_is_free_sc (ev : event) : bool :=
  match ev with Ev_free_soft_command => true | _ => false end.
Definition event_is_alloc_sc (ev : event) : bool :=
  match ev with Ev_alloc_soft_command true => true | _ => false end.
Definition event_is_send_ctrl (ev : event) : bool :=
  match ev with Ev_send_ctrl_pkt _ _ => true | _ => false end.
Definition event_is_flush (ev : event) : bool :=
  match ev with Ev_flush_iq _ => true | _ => false end.
Definition event_is_zmalloc_ok (ev : event) : bool :=
  match ev with Ev_zmalloc _ true => true | _ => false end.
Definition event_is_free (ev : event) : bool :=
  match ev with Ev_free => true | _ => false end.
Definition event_is_free_iq0 (ev : event) : bool :=
  match ev with Ev_free_instr_queue0 => true | _ => false end.

Definition count_events (p : event -> bool) (tr : list event) : nat :=
  length (List.filter p tr).

(** Soft commands allocated and not freed along a trace. *)
Definition outstanding_sc (tr : list event) : Z :=
  Z.of_nat (count_events event_is_alloc_sc tr)
  - Z.of_nat (count_events event_is_free_sc tr).

(** Arrays from rte_zmalloc not given back along a trace. *)
Definition outstanding_arrays (tr : list event) : Z :=
  Z.of_nat (count_events event_is_zmalloc_ok tr)
  - Z.of_nat (count_events event_is_free tr).

Record state := {
  dev : lio_device;
  data : rte_eth_dev_data;
  trace : list event
}.

(** The response area of a soft command and the word [sc->status_word]
    points at, as the source reads them. *)
Record lio_if_cfg_resp := {
  cfg_iqmask : Z;
  cfg_oqmask : Z;
  cfg_link : Z;
  cfg_hw_addr : Z;
  cfg_gmx_word : Z;
  cfg_txpciq : list Z;
  cfg_rxpciq : list Z;
  cfg_status : Z
}.

Record lio_link_status_resp := {
  ls_link : Z;
  ls_status : Z
}.

Record soft_command (R : Type) := {
  status_word : Z;
  virtrptr : R
}.
Arguments status_word {R} _.
Arguments virtrptr {R} _.

(** Everything the rest of the driver, the allocator and the device answer.
    [if_cfg_sc k] and [link_status_sc k] give the memory of the soft command
    after the instruction queue has been flushed [k] times. *)
Record externals := {
  alloc_soft_command_ok : bool;
  sc_iq_no : Z;
  send_soft_command_ret : Z;
  if_cfg_sc : nat -> soft_command lio_if_cfg_resp;
  link_status_sc : nat -> soft_command lio_link_status_resp;
  zmalloc_lock_ok : bool;
  zmalloc_head_ok : bool;
  (* a store to dev_link by another thread that lands between the read of
     the expected value and the compare-and-set *)
  dev_link_race : option rte_eth_link;
  send_ctrl_pkt_ret : Z;
  ctrl_cmd_cond : nat -> Z;
  setup_droq : list (option lio_droq) -> Z -> Z -> Z -> Z * list (option lio_droq);
  setup_iq : list (option lio_instr_queue) -> Z -> Z -> Z
             -> Z * list (option lio_instr_queue);
  setup_sglists_ret : Z;
  delete_instruction_queue : list (option lio_instr_queue) -> Z
                             -> list (option lio_instr_queue);
  (* what a read past the end of an array returns *)
  stray_word : Z
}.

(** * The driver *)

Section Driver.

Context (P : platform) (X : externals).

Definition log (evs : list event) (st : state) : state :=
  {| dev := dev st; data := data st; trace := trace st ++ evs |}.

Definition with_dev (d : lio_device) (st : state) : state :=
  {| dev := d; data := data st; trace := trace st |}.

Definition with_data (dt : rte_eth_dev_data) (st : state) : state :=
  {| dev := dev st; data := dt; trace := trace st |}.

Definition set_dev_link (l : rte_eth_link) (dt : rte_eth_dev_data) :=
  {| data_nb_rx_queues := data_nb_rx_queues dt;
     data_nb_tx_queues := data_nb_tx_queues dt;
     dev_link := l;
     mac_addrs := mac_addrs dt;
     rx_queues := rx_queues dt;
     tx_queues := tx_queues dt |}.

Definition set_mac_addrs (m : list Z) (dt : rte_eth_dev_data) :=
  {| data_nb_rx_queues := data_nb_rx_queues dt;
     data_nb_tx_queues := data_nb_tx_queues dt;
     dev_link := dev_link dt;
     mac_addrs := m;
     rx_queues := rx_queues dt;
     tx_queues := tx_queues dt |}.

Definition set_rx_queues (q : list (option lio_droq)) (dt : rte_eth_dev_data) :=
  {| data_nb_rx_queues := data_nb_rx_queues dt;
     data_nb_tx_queues := data_nb_tx_queues dt;
     dev_link := dev_link dt;
     mac_addrs := mac_addrs dt;
     rx_queues := q;
     tx_queues := tx_queues dt |}.

Definition set_tx_queues (q : list (option lio_instr_queue)) (dt : rte_eth_dev_data) :=
  {| data_nb_rx_queues := data_nb_rx_queues dt;
     data_nb_tx_queues := data_nb_tx_queues dt;
     dev_link := dev_link dt;
     mac_addrs := mac_addrs dt;
     rx_queues := rx_queues dt;
     tx_queues := q |}.

Definition set_nb_queues (rx tx : Z) (d : lio_device) :=
  {| port_configured := port_configured d; intf_open := intf_open d;
     nb_rx_queues := rx; nb_tx_queues := tx; pf_num := pf_num d;
     linfo := linfo d; glist_lock := glist_lock d; glist_head := glist_head d;
     droq := droq d; instr_queue := instr_queue d |}.

Definition set_linfo (li : octeon_link_info) (d : lio_device) :=
  {| port_configured := port_configured d; intf_open := intf_open d;
     nb_rx_queues := nb_rx_queues d; nb_tx_queues := nb_tx_queues d;
     pf_num := pf_num d;
     linfo := li; glist_lock := glist_lock d; glist_head := glist_head d;
     droq := droq d; instr_queue := instr_queue d |}.

Definition set_glist (lock head : option Z) (d : lio_device) :=
  {| port_configured := port_configured d; intf_open := intf_open d;
     nb_rx_queues := nb_rx_queues d; nb_tx_queues := nb_tx_queues d;
     pf_num := pf_num d;
     linfo := linfo d; glist_lock := lock; glist_head := head;
     droq := droq d; instr_queue := instr_queue d |}.

Definition set_port_configured (v : Z) (d : lio_device) :=
  {| port_configured := v; intf_open := intf_open d;
     nb_rx_queues := nb_rx_queues d; nb_tx_queues := nb_tx_queues d;
     pf_num := pf_num d;
     linfo := linfo d; glist_lock := glist_lock d; glist_head := glist_head d;
     droq := droq d; instr_queue := instr_queue d |}.

Definition set_droq (q : list (option lio_droq)) (d : lio_device) :=
  {| port_configured := port_configured d; intf_open := intf_open d;
     nb_rx_queues := nb_rx_queues d; nb_tx_queues := nb_tx_queues d;
     pf_num := pf_num d;
     linfo := linfo d; glist_lock := glist_lock d; glist_head := glist_head d;
     droq := q; instr_queue := instr_queue d |}.

Definition set_instr_queue (q : list (option lio_instr_queue)) (d : lio_device) :=
  {| port_configured := port_configured d; intf_open := intf_open d;
     nb_rx_queues := nb_rx_queues d; nb_tx_queues := nb_tx_queues d;
     pf_num := pf_num d;
     linfo := linfo d; glist_lock := glist_lock d; glist_head := glist_head d;
     droq := droq d; instr_queue := q |}.

Definition set_link (v : Z) (li : octeon_link_info) :=
  {| link := v; hw_addr := hw_addr li; gmxport := gmxport li;
     num_rxpciq := num_rxpciq li; num_txpciq := num_txpciq li;
     rxpciq := rxpciq li; txpciq := txpciq li |}.

(** [a[i]]. A read outside the array is undefined in C; the model hands
    back [stray]. *)
Definition array_get {A} (stray : A) (a : list A) (i : Z) : A :=
  if (0 <=? i) && (i <? Z.of_nat (length a))
  then default stray (a !! Z.to_nat i) else stray.

(** [a[i]] where the read comes before any test of [i]: outside the array
    the behaviour of the C program is undefined, which is the result
    [None]. *)
Definition array_read {A} (a : list A) (i : Z) : option A :=
  if (0 <=? i) && (i <? Z.of_nat (length a)) then a !! Z.to_nat i else None.

(** [a[i] = v]; stdpp's insert leaves the list alone outside its range. *)
Definition array_set {A} (a : list A) (i : Z) (v : A) : list A :=
  if 0 <=? i then <[Z.to_nat i := v]> a else a.

(** rte_cpu_to_be_64 (rte_byteorder.h). *)
Definition rte_cpu_to_be_64 (v : Z) : Z :=
  if host_big_endian P then v else bswap64 v.

(** Byte [j] of a 64-bit object in host memory. *)
Definition mem_byte (v : Z) (j : Z) : Z :=
  if host_big_endian P then byte_at v (7 - j) else byte_at v j.

(** lio_swap_8B_data (lio_rxtx.h) over the words of resp->cfg_info. *)
Definition swap_cfg_info (r : lio_if_cfg_resp) : lio_if_cfg_resp :=
  {| cfg_iqmask := rte_cpu_to_be_64 (cfg_iqmask r);
     cfg_oqmask := rte_cpu_to_be_64 (cfg_oqmask r);
     cfg_link := rte_cpu_to_be_64 (cfg_link r);
     cfg_hw_addr := rte_cpu_to_be_64 (cfg_hw_addr r);
     cfg_gmx_word := rte_cpu_to_be_64 (cfg_gmx_word r);
     cfg_txpciq := map rte_cpu_to_be_64 (cfg_txpciq r);
     cfg_rxpciq := map rte_cpu_to_be_64 (cfg_rxpciq r);
     cfg_status := cfg_status r |}.

(** [while (pending && --timeout) body], [timeout] a uint16_t: the value of
    [timeout] on exit and the number of times the body ran. [pending k] is the
    first conjunct after [k] runs of the body. *)
Fixpoint poll (pending : nat -> bool) (fuel : nat) (timeout : Z) (k : nat)
  : Z * nat :=
  match fuel with
  | O => (timeout, k)
  | S fuel' =>
      if pending k then
        let timeout := to_uint16 (timeout - 1) in
        if timeout =? 0 then (timeout, k)
        else poll pending fuel' timeout (S k)
      else (timeout, k)
  end.

(** A uint16_t counter reaches zero within 2^16 decrements. *)
Definition poll_fuel : nat := Z.to_nat 65536.

Definition repeat_events (k : nat) (body : list event) : list event :=
  concat (replicate k body).

Definition lio_wait_for_ctrl_cmd (st : state) : Z * state :=
  let timeout := to_uint16 (LIO_MAX_CMD_TIMEOUT P) in
  let '(timeout, k) :=
    poll (fun k => ctrl_cmd_cond X k =? 0) poll_fuel timeout 0 in
  let st := log (repeat_events k [Ev_flush_iq 0; Ev_delay_ms 1]) st in
  (if timeout =? 0 then 1 else 0, st).

Definition lio_send_rx_ctrl_cmd (st : state) (start_stop : Z) : Z * state :=
  let st := log [Ev_flush_iq 0] st in
  let st := log [Ev_send_ctrl_pkt LIO_CMD_RX_CTL start_stop] st in
  if negb (send_ctrl_pkt_ret X =? 0) then (-1, st)
  else
    let '(timed_out, st) := lio_wait_for_ctrl_cmd st in
    if negb (timed_out =? 0) then (-1, st) else (0, st).

(** rte_atomic64_cmpset(dst, *dst, *src): the expected value is read from
    [dst]; the compare then sees either that value or what another thread has
    stored meanwhile. *)
Definition lio_dev_atomic_write_link_status (st : state) (src : rte_eth_link)
  : Z * state :=
  let expected := dev_link (data st) in
  let current := default expected (dev_link_race X) in
  if rte_eth_link_eqb current expected
  then (0, with_data (set_dev_link src (data st)) st)
  else (-1, with_data (set_dev_link current (data st)) st).

Definition lio_dev_link_update (st : state) : Z * state :=
  let link0 := {| link_speed := ETH_SPEED_NUM_NONE;
                  link_duplex := ETH_LINK_HALF_DUPLEX;
                  link_status := ETH_LINK_DOWN |} in
  let old := {| link_speed := 0; link_duplex := 0; link_status := 0 |} in
  if link_up_of P (link (linfo (dev st))) =? 0 then
    let '(r, st) := lio_dev_atomic_write_link_status st link0 in
    if negb (r =? 0) then (-1, st)
    else if link_status link0 =? link_status old then (-1, st)
    else (0, st)
  else
    let link1 :=
      if speed_of P (link (linfo (dev st))) =? LIO_LINK_SPEED_10000 then
        {| link_speed := ETH_SPEED_NUM_10G;
           link_duplex := ETH_LINK_FULL_DUPLEX;
           link_status := ETH_LINK_UP |}
      else
        {| link_speed := ETH_SPEED_NUM_NONE;
           link_duplex := ETH_LINK_HALF_DUPLEX;
           link_status := ETH_LINK_UP |} in
    let '(r, st) := lio_dev_atomic_write_link_status st link1 in
    if negb (r =? 0) then (-1, st)
    else if link_status link1 =? link_status old then (-1, st)
    else (0, st).

Definition lio_dev_rx_queue_setup (st : state) (q_no num_rx_descs : Z)
    (mbuf_data_room_size : Z) : Z * state :=
  let lio_dev := dev st in
  if q_no >=? nb_rx_queues lio_dev then (- EINVAL, st)
  else
    let fw_mapped_oq :=
      q_no_of P (array_get (stray_word X) (rxpciq (linfo lio_dev)) q_no) in
    let reconf :=
      match array_get None (droq lio_dev) fw_mapped_oq with
      | Some q => negb (num_rx_descs =? droq_max_count q)
      | None => false
      end in
    if reconf then (- ENOTSUP, st)
    else
      let buf_size := to_uint16 (mbuf_data_room_size - RTE_PKTMBUF_HEADROOM P) in
      let '(r, droq') :=
        setup_droq X (droq lio_dev) fw_mapped_oq num_rx_descs buf_size in
      let st := log [Ev_setup_droq fw_mapped_oq num_rx_descs buf_size]
                    (with_dev (set_droq droq' lio_dev) st) in
      if negb (r =? 0) then (-1, st)
      else
        let q := array_get None droq' fw_mapped_oq in
        (0, with_data (set_rx_queues (array_set (rx_queues (data st)) q_no q)
                                     (data st)) st).

(** The initialiser of [fw_mapped_iq] reads [linfo.txpciq[q_no]] before
    [q_no] is tested: for a [q_no] outside that array the call has no defined
    result, [None]. Inside it, [Some] of the return value and the state. *)
Definition lio_dev_tx_queue_setup (st : state) (q_no num_tx_descs : Z)
  : option (Z * state) :=
  let lio_dev := dev st in
  match array_read (txpciq (linfo lio_dev)) q_no with
  | None => None
  | Some pciq =>
    let fw_mapped_iq := to_int (q_no_of P pciq) in
    Some
      (if q_no >=? nb_tx_queues lio_dev then (- EINVAL, st)
       else
         let reconf :=
           match array_get None (instr_queue lio_dev) fw_mapped_iq with
           | Some q => negb (num_tx_descs =? iq_max_count q)
           | None => false
           end in
         if reconf then (- ENOTSUP, st)
         else
           let '(retval, iqs) :=
             setup_iq X (instr_queue lio_dev) q_no pciq num_tx_descs in
           let st := log [Ev_setup_iq q_no num_tx_descs]
                         (with_dev (set_instr_queue iqs lio_dev) st) in
           if negb (retval =? 0) then (retval, st)
           else
             (* instr_queue[fw_mapped_iq]->max_count; through a NULL pointer
                the model reads 0 *)
             let max_count :=
               match array_get None iqs fw_mapped_iq with
               | Some q => iq_max_count q
               | None => 0
               end in
             let st := log [Ev_setup_sglists q_no fw_mapped_iq max_count] st in
             let retval := setup_sglists_ret X in
             if negb (retval =? 0) then
               let iqs' := delete_instruction_queue X iqs fw_mapped_iq in
               (retval, log [Ev_delete_instruction_queue fw_mapped_iq]
                            (with_dev (set_instr_queue iqs' (dev st)) st))
             else
               let q := array_get None iqs fw_mapped_iq in
               (0, with_data (set_tx_queues (array_set (tx_queues (data st)) q_no q)
                                            (data st)) st))
  end.

(** The polling loop of lio_dev_get_link_status: how often its body runs.
    The value [timeout] is left with is not looked at afterwards. *)
Definition link_status_polls : nat :=
  snd (poll (fun k => status_word (link_status_sc X k) =? LIO_COMPLETION_WORD_INIT)
            poll_fuel (to_uint16 (LIO_MAX_CMD_TIMEOUT P)) 0).

Definition lio_dev_get_link_status (st : state) : state :=
  if intf_open (dev st) =? 0 then st
  else
    let st := log [Ev_alloc_soft_command (alloc_soft_command_ok X)] st in
    if negb (alloc_soft_command_ok X) then st
    else
      let st := log [Ev_prepare_soft_command LIO_OPCODE_INFO None] st in
      let st := log [Ev_send_soft_command (LIO_MAX_CMD_TIMEOUT P / 1000)] st in
      if send_soft_command_ret X =? LIO_IQ_SEND_FAILED
      then log [Ev_free_soft_command] st
      else
        let k := link_status_polls in
        let st := log (repeat_events k [Ev_flush_iq (sc_iq_no X); Ev_delay_ms 1]) st in
        let resp := virtrptr (link_status_sc X k) in
        if negb (ls_status resp =? 0) then log [Ev_free_soft_command] st
        else
          let ls := rte_cpu_to_be_64 (ls_link resp) in
          let st :=
            if negb (link (linfo (dev st)) =? ls) then
              let st := with_dev (set_linfo (set_link ls (linfo (dev st)))
                                            (dev st)) st in
              snd (lio_dev_link_update st)
            else st in
          log [Ev_free_soft_command] st.

Definition lio_sync_link_state_check (st : state) : state :=
  let st := if negb (port_configured (dev st) =? 0)
            then lio_dev_get_link_status st else st in
  if negb (intf_open (dev st) =? 0) then log [Ev_alarm_set] st else st.

(** lio_free_instr_queue0 (lio_rxtx.c) gives queue 0 back and clears its
    slot. *)
Definition lio_free_instr_queue0 (st : state) : state :=
  log [Ev_free_instr_queue0]
      (with_dev (set_instr_queue (array_set (instr_queue (dev st)) 0 None)
                                 (dev st)) st).

Definition nic_config_fail (st : state) : Z * state :=
  (- ENODEV, lio_free_instr_queue0 (log [Ev_free_soft_command] st)).

(** [for (i = 0; i < n; i++) dst[i] = src[i];] *)
Definition copy_words (n : Z) (src dst : list Z) : list Z :=
  foldl (fun dst i => array_set dst (Z.of_nat i)
                        (array_get (stray_word X) src (Z.of_nat i)))
        dst (seq 0 (Z.to_nat n)).

(** The polling loop of lio_dev_configure: how often its body runs. *)
Definition if_cfg_polls : nat :=
  snd (poll (fun k => status_word (if_cfg_sc X k) =? LIO_COMPLETION_WORD_INIT)
            poll_fuel (to_uint16 (LIO_MAX_CMD_TIMEOUT P)) 0).

Definition lio_dev_configure (st : state) : Z * state :=
  let lio_dev := dev st in
  if negb (port_configured lio_dev =? 0) then
    if negb (nb_rx_queues lio_dev =? data_nb_rx_queues (data st))
       || negb (nb_tx_queues lio_dev =? data_nb_tx_queues (data st))
    then (- ENOTSUP, st)
    else (0, st)
  else
    let lio_dev := set_nb_queues (data_nb_rx_queues (data st))
                                 (data_nb_tx_queues (data st)) lio_dev in
    let st := log [Ev_alloc_soft_command (alloc_soft_command_ok X)]
                  (with_dev lio_dev st) in
    if negb (alloc_soft_command_ok X) then (- ENOMEM, st)
    else
      let if_cfg := {| cfg_num_iqueues := nb_tx_queues lio_dev;
                       cfg_num_oqueues := nb_rx_queues lio_dev;
                       cfg_base_queue := 0;
                       cfg_gmx_port_id := pf_num lio_dev |} in
      let st := log [Ev_prepare_soft_command LIO_OPCODE_IF_CFG (Some if_cfg)] st in
      let st := log [Ev_send_soft_command (LIO_MAX_CMD_TIMEOUT P / 1000)] st in
      if send_soft_command_ret X =? LIO_IQ_SEND_FAILED then nic_config_fail st
      else
        let k := if_cfg_polls in
        let st := log (repeat_events k [Ev_flush_iq (sc_iq_no X);
                                        Ev_process_ordered_list;
                                        Ev_delay_ms 1]) st in
        let resp := virtrptr (if_cfg_sc X k) in
        let retval := to_int (cfg_status resp) in
        if negb (retval =? 0) then nic_config_fail st
        else
          let resp := swap_cfg_info resp in
          let num_iqueues := lio_hweight64 (cfg_iqmask resp) in
          let num_oqueues := lio_hweight64 (cfg_oqmask resp) in
          if (num_iqueues =? 0) || (num_oqueues =? 0) then nic_config_fail st
          else
            let li :=
              {| link := cfg_link resp;
                 (* copied, then swapped once more in place *)
                 hw_addr := rte_cpu_to_be_64 (cfg_hw_addr resp);
                 gmxport := gmxport_of P (cfg_gmx_word resp);
                 num_rxpciq := num_oqueues;
                 num_txpciq := num_iqueues;
                 rxpciq := copy_words num_oqueues (cfg_rxpciq resp)
                                      (rxpciq (linfo lio_dev));
                 txpciq := copy_words num_iqueues (cfg_txpciq resp)
                                      (txpciq (linfo lio_dev)) |} in
            let mac := map (fun i => mem_byte (hw_addr li) (2 + Z.of_nat i))
                           (seq 0 ETHER_ADDR_LEN) in
            let st := with_data (set_mac_addrs mac (data st))
                                (with_dev (set_linfo li lio_dev) st) in
            let st := log [Ev_zmalloc num_iqueues (zmalloc_lock_ok X)] st in
            if negb (zmalloc_lock_ok X) then
              (- ENOMEM,
               with_dev (set_glist None (glist_head (dev st)) (dev st)) st)
            else
              let st := log [Ev_zmalloc num_iqueues (zmalloc_head_ok X)] st in
              if negb (zmalloc_head_ok X) then
                (- ENOMEM,
                 log [Ev_free] (with_dev (set_glist None None (dev st)) st))
              else
                let st := with_dev (set_glist (Some num_iqueues)
                                              (Some num_iqueues) (dev st)) st in
                let st := snd (lio_dev_link_update st) in
                let st := with_dev (set_port_configured 1 (dev st)) st in
                let st := log [Ev_free_soft_command; Ev_disable_io_queues;
                               Ev_setup_device_regs] st in
                (0, lio_free_instr_queue0 st).

End Driver.

(** * Derived notions used in the statements *)

Section Readings.

Context (P : platform) (X : externals).

(** The response lio_dev_configure works on, after lio_swap_8B_data. *)
Definition if_cfg_response : lio_if_cfg_resp :=
  swap_cfg_info P (virtrptr (if_cfg_sc X (if_cfg_polls P X))).

(** The response lio_dev_get_link_status reads. *)
Definition link_status_response : lio_link_status_resp :=
  virtrptr (link_status_sc X (link_status_polls P X)).

(** The compare-and-set of lio_dev_atomic_write_link_status goes through. *)
Definition publish_succeeds (st : state) : bool :=
  rte_eth_link_eqb (default (dev_link (data st)) (dev_link_race X))
                   (dev_link (data st)).

(** lio_alloc_soft_command (lio_rxtx.c) puts the completion word in the last
    eight bytes of the response area, where every response structure has its
    [status] member: [*sc->status_word] and [resp->status] are one word. *)
Definition status_word_is_resp_status : Prop :=
  forall k, status_word (link_status_sc X k)
            = ls_status (virtrptr (link_status_sc X k)).

Definition same_queue_counts (st : state) : bool :=
  (nb_rx_queues (dev st) =? data_nb_rx_queues (data st))
  && (nb_tx_queues (dev st) =? data_nb_tx_queues (data st)).

(** Events a call appended. *)
Definition new_events (st st' : state) : list event :=
  drop (length (trace st)) (trace st').

(** "Every failing path releases what the attempt allocated and reports the
    one configuration-failed code", read literally. *)
Definition failure_releases_everything (st : state) : Prop :=
  let r := fst (lio_dev_configure P X st) in
  let st' := snd (lio_dev_configure P X st) in
  r <> 0 ->
  r = - ENODEV
  /\ outstanding_sc (new_events st st') = 0
  /\ outstanding_arrays (new_events st st') = 0
  /\ count_events event_is_free_iq0 (new_events st st') = 1%nat
  /\ port_configured (dev st') = 0.

(** "On a failed enqueue, flush once and retry the enqueue exactly once
    before reporting failure", read literally. *)
Definition retries_once_after_flush (st : state) (start_stop : Z) : Prop :=
  let st' := snd (lio_send_rx_ctrl_cmd P X st start_stop) in
  send_ctrl_pkt_ret X <> 0 ->
  exists pre,
    new_events st st'
    = pre ++ [Ev_send_ctrl_pkt LIO_CMD_RX_CTL start_stop; Ev_flush_iq 0;
              Ev_send_ctrl_pkt LIO_CMD_RX_CTL start_stop].

End Readings.

(** * Sample inputs *)

(** A little-endian build; the bit-field positions follow the layout of
    lio_struct.h for such a host. *)
Definition le_host : platform :=
  {| LIO_MAX_CMD_TIMEOUT := 10000;
     host_big_endian := false;
     link_up_of := fun v => Z.land (Z.shiftr v 23) 1;
     speed_of := fun v => Z.land (Z.shiftr v 24) 0xFFFF;
     q_no_of := fun v => Z.land (Z.shiftr v 56) 0xFF;
     gmxport_of := fun v => Z.land (Z.shiftr v 48) 0xFFFF;
     RTE_PKTMBUF_HEADROOM := 128 |}.

Definition link_word (up speed : Z) : Z :=
  Z.lor (Z.shiftl speed 24) (Z.shiftl up 23).

Definition no_link : rte_eth_link :=
  {| link_speed := 0; link_duplex := 0; link_status := 0 |}.

Definition fresh_linfo : octeon_link_info :=
  {| link := 0; hw_addr := 0; gmxport := 0; num_rxpciq := 0; num_txpciq := 0;
     rxpciq := replicate 8 0; txpciq := replicate 8 0 |}.

Definition fresh_dev : lio_device :=
  {| port_configured := 0; intf_open := 0;
     nb_rx_queues := 0; nb_tx_queues := 0; pf_num := 0;
     linfo := fresh_linfo; glist_lock := None; glist_head := None;
     droq := replicate 8 None;
     instr_queue := Some {| iq_max_count := 128 |} :: replicate 7 None |}.

Definition app_data (nrx ntx : Z) : rte_eth_dev_data :=
  {| data_nb_rx_queues := nrx; data_nb_tx_queues := ntx;
     dev_link := no_link; mac_addrs := replicate 6 0;
     rx_queues := replicate 8 None; tx_queues := replicate 8 None |}.

Definition fresh (nrx ntx : Z) : state :=
  {| dev := fresh_dev; data := app_data nrx ntx; trace := [] |}.

Definition pending {R} (r : R) : soft_command R :=
  {| status_word := LIO_COMPLETION_WORD_INIT; virtrptr := r |}.

Definition if_cfg_answer (iqmask oqmask lnk : Z) : lio_if_cfg_resp :=
  {| cfg_iqmask := bswap64 iqmask; cfg_oqmask := bswap64 oqmask;
     cfg_link := bswap64 lnk;
     cfg_hw_addr := bswap64 0x0000001122334455;
     cfg_gmx_word := 0;
     cfg_txpciq := map (fun q => bswap64 (Z.shiftl q 56)) [0; 1; 2; 3; 4; 5; 6; 7];
     cfg_rxpciq := map (fun q => bswap64 (Z.shiftl q 56)) [0; 1; 2; 3; 4; 5; 6; 7];
     cfg_status := 0 |}.

Definition if_cfg_blank : lio_if_cfg_resp :=
  {| cfg_iqmask := 0; cfg_oqmask := 0; cfg_link := 0; cfg_hw_addr := 0;
     cfg_gmx_word := 0; cfg_txpciq := replicate 8 0; cfg_rxpciq := replicate 8 0;
     cfg_status := LIO_COMPLETION_WORD_INIT |}.

(** A device that answers the second flush: the interface configuration with
    the given masks, a link-status request with the given word. *)
Definition answering (iqmask oqmask lnk : Z) : externals :=
  {| alloc_soft_command_ok := true;
     sc_iq_no := 0;
     send_soft_command_ret := 0;
     if_cfg_sc := fun k =>
       if (k <? 2)%nat then pending if_cfg_blank
       else {| status_word := 0; virtrptr := if_cfg_answer iqmask oqmask lnk |};
     link_status_sc := fun k =>
       if (k <? 2)%nat
       then pending {| ls_link := 0; ls_status := LIO_COMPLETION_WORD_INIT |}
       else {| status_word := 0;
               virtrptr := {| ls_link := bswap64 lnk; ls_status := 0 |} |};
     zmalloc_lock_ok := true;
     zmalloc_head_ok := true;
     dev_link_race := None;
     send_ctrl_pkt_ret := 0;
     ctrl_cmd_cond := fun k => if (k <? 2)%nat then 0 else 1;
     setup_droq := fun q fw n _ => (0, array_set q fw (Some {| droq_max_count := n |}));
     setup_iq := fun q fw _ n => (0, array_set q fw (Some {| iq_max_count := n |}));
     setup_sglists_ret := 0;
     delete_instruction_queue := fun q fw => array_set q fw None;
     stray_word := 0 |}.

Definition with_send_soft_command_ret (r : Z) (X : externals) : externals :=
  {| alloc_soft_command_ok := alloc_soft_command_ok X;
     sc_iq_no := sc_iq_no X;
     send_soft_command_ret := r;
     if_cfg_sc := if_cfg_sc X;
     link_status_sc := link_status_sc X;
     zmalloc_lock_ok := zmalloc_lock_ok X;
     zmalloc_head_ok := zmalloc_head_ok X;
     dev_link_race := dev_link_race X;
     send_ctrl_pkt_ret := send_ctrl_pkt_ret X;
     ctrl_cmd_cond := ctrl_cmd_cond X;
     setup_droq := setup_droq X;
     setup_iq := setup_iq X;
     setup_sglists_ret := setup_sglists_ret X;
     delete_instruction_queue := delete_instruction_queue X;
     stray_word := stray_word X |}.

Definition with_send_ctrl_pkt_ret (r : Z) (X : externals) : externals :=
  {| alloc_soft_command_ok := alloc_soft_command_ok X;
     sc_iq_no := sc_iq_no X;
     send_soft_command_ret := send_soft_command_ret X;
     if_cfg_sc := if_cfg_sc X;
     link_status_sc := link_status_sc X;
     zmalloc_lock_ok := zmalloc_lock_ok X;
     zmalloc_head_ok := zmalloc_head_ok X;
     dev_link_race := dev_link_race X;
     send_ctrl_pkt_ret := r;
     ctrl_cmd_cond := ctrl_cmd_cond X;
     setup_droq := setup_droq X;
     setup_iq := setup_iq X;
     setup_sglists_ret := setup_sglists_ret X;
     delete_instruction_queue := delete_instruction_queue X;
     stray_word := stray_word X |}.

Definition with_zmalloc (lock head : bool) (X : externals) : externals :=
  {| alloc_soft_command_ok := alloc_soft_command_ok X;
     sc_iq_no := sc_iq_no X;
     send_soft_command_ret := send_soft_command_ret X;
     if_cfg_sc := if_cfg_sc X;
     link_status_sc := link_status_sc X;
     zmalloc_lock_ok := lock;
     zmalloc_head_ok := head;
     dev_link_race := dev_link_race X;
     send_ctrl_pkt_ret := send_ctrl_pkt_ret X;
     ctrl_cmd_cond := ctrl_cmd_cond X;
     setup_droq := setup_droq X;
     setup_iq := setup_iq X;
     setup_sglists_ret := setup_sglists_ret X;
     delete_instruction_queue := delete_instruction_queue X;
     stray_word := stray_word X |}.

(** The device never completes a command. *)
Definition silent : externals :=
  {| alloc_soft_command_ok := true;
     sc_iq_no := 0;
     send_soft_command_ret := 0;
     if_cfg_sc := fun _ => pending if_cfg_blank;
     link_status_sc := fun _ =>
       pending {| ls_link := 0; ls_status := LIO_COMPLETION_WORD_INIT |};
     zmalloc_lock_ok := true;
     zmalloc_head_ok := true;
     dev_link_race := None;
     send_ctrl_pkt_ret := 0;
     ctrl_cmd_cond := fun _ => 0;
     setup_droq := fun q _ _ _ => (-1, q);
     setup_iq := fun q _ _ _ => (-1, q);
     setup_sglists_ret := -1;
     delete_instruction_queue := fun q fw => array_set q fw None;
     stray_word := 0 |}.

(** A soft command whose completion word lies outside the response area and
    is never set, over a response area that reads as zero. *)
Definition detached_word : externals :=
  {| alloc_soft_command_ok := true;
     sc_iq_no := 0;
     send_soft_command_ret := 0;
     if_cfg_sc := if_cfg_sc silent;
     link_status_sc := fun _ =>
       {| status_word := LIO_COMPLETION_WORD_INIT;
          virtrptr := {| ls_link := 0; ls_status := 0 |} |};
     zmalloc_lock_ok := true;
     zmalloc_head_ok := true;
     dev_link_race := None;
     send_ctrl_pkt_ret := 0;
     ctrl_cmd_cond := ctrl_cmd_cond silent;
     setup_droq := setup_droq silent;
     setup_iq := setup_iq silent;
     setup_sglists_ret := -1;
     delete_instruction_queue := delete_instruction_queue silent;
     stray_word := 0 |}.

(** The state after a first [lio_dev_configure] for 4 + 4 queues on a device
    that grants mask 0xF both ways and reports the link up at speed 10000. *)
Definition configured_4_4 : state :=
  snd (lio_dev_configure le_host (answering 0xF 0xF (link_word 1 10000)) (fresh 4 4)).

Definition request (nrx ntx : Z) (st : state) : state :=
  {| dev := dev st;
     data := {| data_nb_rx_queues := nrx; data_nb_tx_queues := ntx;
                dev_link := dev_link (data st); mac_addrs := mac_addrs (data st);
                rx_queues := rx_queues (data st); tx_queues := tx_queues (data st) |};
     trace := trace st |}.

Definition open_interface (st : state) : state :=
  {| dev := {| port_configured := port_configured (dev st); intf_open := 1;
               nb_rx_queues := nb_rx_queues (dev st);
               nb_tx_queues := nb_tx_queues (dev st);
               pf_num := pf_num (dev st);
               linfo := linfo (dev st);
               glist_lock := glist_lock (dev st);
               glist_head := glist_head (dev st);
               droq := droq (dev st); instr_queue := instr_queue (dev st) |};
     data := data st; trace := trace st |}.

(** A device that completes a link-status request only once the queue has
    been flushed 10000 times: one round after the poll budget of [le_host]
    has run out. The word it would then report has the link up. *)
Definition answering_late : externals :=
  {| alloc_soft_command_ok := true;
     sc_iq_no := 0;
     send_soft_command_ret := 0;
     if_cfg_sc := if_cfg_sc silent;
     link_status_sc := fun k =>
       if Z.of_nat k <? 10000
       then pending {| ls_link := 0; ls_status := LIO_COMPLETION_WORD_INIT |}
       else {| status_word := 0;
               virtrptr := {| ls_link := bswap64 (link_word 1 10000);
                              ls_status := 0 |} |};
     zmalloc_lock_ok := true;
     zmalloc_head_ok := true;
     dev_link_race := None;
     send_ctrl_pkt_ret := 0;
     ctrl_cmd_cond := ctrl_cmd_cond silent;
     setup_droq := setup_droq silent;
     setup_iq := setup_iq silent;
     setup_sglists_ret := -1;
     delete_instruction_queue := delete_instruction_queue silent;
     stray_word := 0 |}.

(** * Further definitions *)

(** [f] summed over [n] bytes of [v], starting with byte [k]. *)
Fixpoint byte_sum (f : Z -> Z) (v : Z) (k : Z) (n : nat) : Z :=
  match n with
  | O => 0
  | S n' => f (byte_at v k) + byte_sum f v (k + 1) n'
  end.

Definition event_is_alarm (ev : event) : bool :=
  match ev with Ev_alarm_set => true | _ => false end.

(** The largest number of times a polling loop started with [timeout] runs
    its body. *)
Definition poll_budget (timeout : Z) : Z := to_uint16 (timeout - 1).

(** * Start, release, attach and detach *)

(** <errno.h> *)
Definition EPERM : Z := 1.

(** Calls of the functions below, in program order; [Core] carries the calls
    [event] already names. *)
Inductive call :=
  | Core (ev : event)
  | Call_enable_io_queues
  | Call_delete_droq_queue (oq_no : Z)
  | Call_delete_sglist
  | Call_vf_setup_device
  | Call_setup_sc_buffer_pool
  | Call_free_sc_buffer_pool
  | Call_setup_response_list
  | Call_setup_mbox
  | Call_free_mbox
  | Call_vf_handle_mbox
  | Call_pfvf_handshake
  | Call_ask_pf_to_do_flr
  | Call_set_io_queues_off
  | Call_setup_instr_queue0
  | Call_check_pf_alarm (us : Z)
  | Call_copy_pci_info.

Definition call_eqb_kind (a b : call) : bool :=
  match a, b with
  | Core Ev_free_instr_queue0, Core Ev_free_instr_queue0 => true
  | Core Ev_alarm_set, Core Ev_alarm_set => true
  | Core (Ev_send_ctrl_pkt _ p), Core (Ev_send_ctrl_pkt _ q) => p =? q
  | Call_enable_io_queues, Call_enable_io_queues => true
  | Call_setup_sc_buffer_pool, Call_setup_sc_buffer_pool => true
  | Call_free_sc_buffer_pool, Call_free_sc_buffer_pool => true
  | Call_setup_mbox, Call_setup_mbox => true
  | Call_free_mbox, Call_free_mbox => true
  | Call_setup_instr_queue0, Call_setup_instr_queue0 => true
  | Call_check_pf_alarm _, Call_check_pf_alarm _ => true
  | Call_vf_handle_mbox, Call_vf_handle_mbox => true
  | _, _ => false
  end.

(** How often a call of the kind of [c] occurs. *)
Definition count_calls (c : call) (cs : list call) : nat :=
  length (List.filter (call_eqb_kind c) cs).

(** struct rte_pci_device: what the attach path reads. *)
Record rte_pci_device := {
  device_id : Z;
  mem_resource0 : option Z
}.

(** Members of struct lio_device and struct rte_eth_dev beyond those of
    [lio_device] and [rte_eth_dev_data]; a pointer is [true] when set. *)
Record lio_attach := {
  pci_dev : option rte_pci_device;
  chip_id : Z;
  sc_buf_pool : bool;
  mbox0 : bool;
  coproc_tics_per_us : Z;
  max_rx_queues : Z;
  max_tx_queues : Z;
  lio_hw_addr : option Z;
  lio_eth_dev : bool;
  lio_status : Z;
  ifflags : Z;
  rx_pkt_burst : bool;
  tx_pkt_burst : bool;
  dev_ops : bool;
  dev_flags : Z;
  mac_addrs_ptr : bool
}.

Record lio_port := {
  core : state;
  att : lio_attach;
  calls : list call
}.

(** Answers of the attach-time externals and build constants of lio_struct.h
    and rte_ethdev.h. *)
Record attach_externals := {
  LIO_CN23XX_VF_VID : Z;
  LIO_DEV_RUNNING : Z;
  LIO_IFFLAG_UNICAST : Z;
  RTE_ETH_DEV_DETACHABLE : Z;
  process_primary : bool;
  enable_io_queues_ret : Z;
  alarm_set_ret : Z;
  vf_setup_device_ret : Z;
  setup_sc_buffer_pool_ret : Z;
  setup_mbox : Z * bool;   (* return value, mbox[0] set *)
  vf_handle_mbox : Z -> Z; (* coproc_tics_per_us after cn23xx_vf_handle_mbox *)
  pfvf_handshake_ret : Z;
  set_io_queues_off_ret : Z;
  setup_device_regs_ret : Z;
  setup_instr_queue0 : list (option lio_instr_queue)
                       -> Z * list (option lio_instr_queue);
  rings_per_vf : Z;        (* sriov_info.rings_per_vf when it is read *)
  mac_zmalloc_ok : bool;
  delete_droq_queue : list (option lio_droq) -> Z -> list (option lio_droq)
}.

Section Attach.

Context (P : platform) (X : externals) (A : attach_externals).

Definition called (cs : list call) (p : lio_port) : lio_port :=
  {| core := core p; att := att p; calls := calls p ++ cs |}.

(** Calls a function appended. *)
Definition new_calls (p p' : lio_port) : list call :=
  drop (length (calls p)) (calls p').

Definition with_core (s : state) (p : lio_port) : lio_port :=
  {| core := s; att := att p; calls := calls p |}.

Definition with_att (a : lio_attach) (p : lio_port) : lio_port :=
  {| core := core p; att := a; calls := calls p |}.

(** Run a function of the earlier sections on the core state; its calls are
    appended as [Core] calls. *)
Definition lift {R} (f : state -> R * state) (p : lio_port) : R * lio_port :=
  let r := f (core p) in
  (fst r,
   {| core := snd r; att := att p;
      calls := calls p ++ map Core (new_events (core p) (snd r)) |}).

Definition set_intf_open (v : Z) (d : lio_device) : lio_device :=
  {| port_configured := port_configured d; intf_open := v;
     nb_rx_queues := nb_rx_queues d; nb_tx_queues := nb_tx_queues d;
     pf_num := pf_num d;
     linfo := linfo d; glist_lock := glist_lock d; glist_head := glist_head d;
     droq := droq d; instr_queue := instr_queue d |}.

Definition set_pci_chip (pd : option rte_pci_device) (chip : Z) (a : lio_attach) :=
  {| pci_dev := pd; chip_id := chip; sc_buf_pool := sc_buf_pool a;
     mbox0 := mbox0 a; coproc_tics_per_us := coproc_tics_per_us a;
     max_rx_queues := max_rx_queues a; max_tx_queues := max_tx_queues a;
     lio_hw_addr := lio_hw_addr a; lio_eth_dev := lio_eth_dev a;
     lio_status := lio_status a; ifflags := ifflags a;
     rx_pkt_burst := rx_pkt_burst a; tx_pkt_burst := tx_pkt_burst a;
     dev_ops := dev_ops a; dev_flags := dev_flags a;
     mac_addrs_ptr := mac_addrs_ptr a |}.

Definition set_pool_mbox (pool mbox : bool) (a : lio_attach) :=
  {| pci_dev := pci_dev a; chip_id := chip_id a; sc_buf_pool := pool;
     mbox0 := mbox; coproc_tics_per_us := coproc_tics_per_us a;
     max_rx_queues := max_rx_queues a; max_tx_queues := max_tx_queues a;
     lio_hw_addr := lio_hw_addr a; lio_eth_dev := lio_eth_dev a;
     lio_status := lio_status a; ifflags := ifflags a;
     rx_pkt_burst := rx_pkt_burst a; tx_pkt_burst := tx_pkt_burst a;
     dev_ops := dev_ops a; dev_flags := dev_flags a;
     mac_addrs_ptr := mac_addrs_ptr a |}.

Definition set_tics (t : Z) (a : lio_attach) :=
  {| pci_dev := pci_dev a; chip_id := chip_id a; sc_buf_pool := sc_buf_pool a;
     mbox0 := mbox0 a; coproc_tics_per_us := t;
     max_rx_queues := max_rx_queues a; max_tx_queues := max_tx_queues a;
     lio_hw_addr := lio_hw_addr a; lio_eth_dev := lio_eth_dev a;
     lio_status := lio_status a; ifflags := ifflags a;
     rx_pkt_burst := rx_pkt_burst a; tx_pkt_burst := tx_pkt_burst a;
     dev_ops := dev_ops a; dev_flags := dev_flags a;
     mac_addrs_ptr := mac_addrs_ptr a |}.

Definition set_max_queues (rx tx : Z) (a : lio_attach) :=
  {| pci_dev := pci_dev a; chip_id := chip_id a; sc_buf_pool := sc_buf_pool a;
     mbox0 := mbox0 a; coproc_tics_per_us := coproc_tics_per_us a;
     max_rx_queues := rx; max_tx_queues := tx;
     lio_hw_addr := lio_hw_addr a; lio_eth_dev := lio_eth_dev a;
     lio_status := lio_status a; ifflags := ifflags a;
     rx_pkt_burst := rx_pkt_burst a; tx_pkt_burst := tx_pkt_burst a;
     dev_ops := dev_ops a; dev_flags := dev_flags a;
     mac_addrs_ptr := mac_addrs_ptr a |}.

Definition set_eth_dev (bursts ops : bool) (flags : Z) (mac : bool) (a : lio_attach) :=
  {| pci_dev := pci_dev a; chip_id := chip_id a; sc_buf_pool := sc_buf_pool a;
     mbox0 := mbox0 a; coproc_tics_per_us := coproc_tics_per_us a;
     max_rx_queues := max_rx_queues a; max_tx_queues := max_tx_queues a;
     lio_hw_addr := lio_hw_addr a; lio_eth_dev := lio_eth_dev a;
     lio_status := lio_status a; ifflags := ifflags a;
     rx_pkt_burst := bursts; tx_pkt_burst := bursts;
     dev_ops := ops; dev_flags := flags;
     mac_addrs_ptr := mac |}.

Definition set_lio_dev (hw : option Z) (linked : bool) (status flags : Z)
    (a : lio_attach) :=
  {| pci_dev := pci_dev a; chip_id := chip_id a; sc_buf_pool := sc_buf_pool a;
     mbox0 := mbox0 a; coproc_tics_per_us := coproc_tics_per_us a;
     max_rx_queues := max_rx_queues a; max_tx_queues := max_tx_queues a;
     lio_hw_addr := hw; lio_eth_dev := linked;
     lio_status := status; ifflags := flags;
     rx_pkt_burst := rx_pkt_burst a; tx_pkt_burst := tx_pkt_burst a;
     dev_ops := dev_ops a; dev_flags := dev_flags a;
     mac_addrs_ptr := mac_addrs_ptr a |}.

(** The members that only lio_eth_dev_init and lio_eth_dev_uninit write. *)
Definition same_ethdev_members (a a' : lio_attach) : Prop :=
  lio_hw_addr a' = lio_hw_addr a /\ lio_eth_dev a' = lio_eth_dev a
  /\ lio_status a' = lio_status a /\ ifflags a' = ifflags a
  /\ rx_pkt_burst a' = rx_pkt_burst a /\ tx_pkt_burst a' = tx_pkt_burst a
  /\ dev_ops a' = dev_ops a /\ dev_flags a' = dev_flags a
  /\ mac_addrs_ptr a' = mac_addrs_ptr a.

(** [rxq] is NULL ([None]) or points to a queue with that [q_no] of this
    device. The function reads [droq->lio_dev] before it tests [droq]: with a
    NULL argument it faults, which is the result [None]. *)
Definition lio_dev_rx_queue_release (p : lio_port) (rxq : option Z)
  : option lio_port :=
  match rxq with
  | None => None
  | Some oq_no =>
      if negb (port_configured (dev (core p)) =? 0) then Some p
      else
        let d := dev (core p) in
        Some (called [Call_delete_droq_queue oq_no]
                (with_core (with_dev (set_droq (delete_droq_queue A (droq d) oq_no) d)
                                     (core p)) p))
  end.

(** [txq] is NULL or points to an instruction queue whose [txpciq.s.q_no] is
    given; as above, a NULL argument faults. *)
Definition lio_dev_tx_queue_release (p : lio_port) (txq : option Z)
  : option lio_port :=
  match txq with
  | None => None
  | Some fw_mapped_iq_no =>
      if negb (port_configured (dev (core p)) =? 0) then Some p
      else
        let d := dev (core p) in
        Some (called [Call_delete_sglist;
                      Core (Ev_delete_instruction_queue fw_mapped_iq_no)]
                (with_core
                   (with_dev (set_instr_queue
                                (delete_instruction_queue X (instr_queue d)
                                                          fw_mapped_iq_no) d)
                             (core p)) p))
  end.

(** [X_stop] answers the RX control command of the error path. *)
Definition lio_dev_start (X_stop : externals) (p : lio_port) : Z * lio_port :=
  let p := called [Call_enable_io_queues] p in
  if negb (enable_io_queues_ret A =? 0) then (-1, p)
  else
    let '(r, p) := lift (fun s => lio_send_rx_ctrl_cmd P X s 1) p in
    if negb (r =? 0) then (-1, p)
    else
      let p := with_core (with_dev (set_intf_open 1 (dev (core p))) (core p)) p in
      let p := called [Core Ev_alarm_set] p in
      let ret := alarm_set_ret A in
      if negb (ret =? 0) then
        let p := with_core (with_dev (set_intf_open 0 (dev (core p))) (core p)) p in
        let '(_, p) := lift (fun s => lio_send_rx_ctrl_cmd P X_stop s 0) p in
        (ret, p)
      else (0, p).

(** One invocation of the alarm callback. *)
Definition lio_check_pf_hs_response (p : lio_port) : lio_port :=
  if negb (coproc_tics_per_us (att p) =? 0) then p
  else
    let p := called [Call_vf_handle_mbox]
               (with_att (set_tics (vf_handle_mbox A (coproc_tics_per_us (att p)))
                                   (att p)) p) in
    called [Call_check_pf_alarm 1] p.

(** [p] has [pci_dev] set. *)
Definition lio_chip_specific_setup (p : lio_port) : Z * lio_port :=
  let dev_id := match pci_dev (att p) with Some pd => device_id pd | None => 0 end in
  if dev_id =? LIO_CN23XX_VF_VID A then
    let p := with_att (set_pci_chip (pci_dev (att p)) (LIO_CN23XX_VF_VID A) (att p)) p in
    (vf_setup_device_ret A, called [Call_vf_setup_device] p)
  else (1, p).

(** The label [error] of lio_first_time_init. *)
Definition first_time_init_error (p : lio_port) : Z * lio_port :=
  let p := called [Call_free_sc_buffer_pool]
             (with_att (set_pool_mbox false (mbox0 (att p)) (att p)) p) in
  let p := if mbox0 (att p)
           then called [Call_free_mbox]
                  (with_att (set_pool_mbox (sc_buf_pool (att p)) false (att p)) p)
           else p in
  let p := match array_get None (instr_queue (dev (core p))) 0 with
           | Some _ => snd (lift (fun s => (0, lio_free_instr_queue0 s)) p)
           | None => p
           end in
  (-1, p).

Definition lio_first_time_init (p : lio_port) (pdev : rte_pci_device)
  : Z * lio_port :=
  let p := with_att (set_pci_chip (Some pdev) (chip_id (att p)) (att p)) p in
  let '(r, p) := lio_chip_specific_setup p in
  if negb (r =? 0) then (-1, p)
  else
    let p := called [Call_setup_sc_buffer_pool] p in
    if negb (setup_sc_buffer_pool_ret A =? 0) then (-1, p)
    else
      let p := with_att (set_pool_mbox true (mbox0 (att p)) (att p)) p in
      let p := called [Call_setup_response_list] p in
      let p := called [Call_setup_mbox]
                 (with_att (set_pool_mbox (sc_buf_pool (att p)) (snd (setup_mbox A))
                                          (att p)) p) in
      if negb (fst (setup_mbox A) =? 0) then first_time_init_error p
      else
        let p := lio_check_pf_hs_response p in
        let p := called [Call_pfvf_handshake] p in
        if negb (pfvf_handshake_ret A =? 0) then first_time_init_error p
        else
          let p := called [Call_ask_pf_to_do_flr; Core (Ev_delay_ms 100)] p in
          let p := called [Call_set_io_queues_off] p in
          if negb (set_io_queues_off_ret A =? 0) then first_time_init_error p
          else
            let p := called [Core Ev_setup_device_regs] p in
            if negb (setup_device_regs_ret A =? 0) then first_time_init_error p
            else
              let '(r0, iqs) := setup_instr_queue0 A (instr_queue (dev (core p))) in
              let p := called [Call_setup_instr_queue0]
                         (with_core (with_dev (set_instr_queue iqs (dev (core p)))
                                              (core p)) p) in
              if negb (r0 =? 0) then first_time_init_error p
              else
                let dpdk_queues := to_int (rings_per_vf A) in
                let p := with_att (set_max_queues dpdk_queues dpdk_queues (att p)) p in
                let p := called [Call_enable_io_queues] p in
                if negb (enable_io_queues_ret A =? 0) then first_time_init_error p
                else (0, p).

Definition lio_eth_dev_uninit (p : lio_port) : Z * lio_port :=
  if negb (process_primary A) then (- EPERM, p)
  else
    let p := called [Call_free_sc_buffer_pool]
               (with_att (set_pool_mbox false (mbox0 (att p)) (att p)) p) in
    let p := called [Core Ev_free] p in
    (0, with_att (set_eth_dev false (dev_ops (att p)) (dev_flags (att p)) false
                              (att p)) p).

(** The device string and the port number, which this function also fills
    in, are used for log messages only and are left out. *)
Definition lio_eth_dev_init (p : lio_port) (pdev : rte_pci_device)
  : Z * lio_port :=
  let p := with_att (set_eth_dev true (dev_ops (att p)) (dev_flags (att p))
                                 (mac_addrs_ptr (att p)) (att p)) p in
  if negb (process_primary A) then (0, p)
  else
    let p := called [Call_copy_pci_info] p in
    let p := with_att (set_eth_dev true (dev_ops (att p))
                         (Z.lor (dev_flags (att p)) (RTE_ETH_DEV_DETACHABLE A))
                         (mac_addrs_ptr (att p)) (att p)) p in
    match mem_resource0 pdev with
    | None => (- ENODEV, p)
    | Some addr =>
        let p := with_att (set_lio_dev (Some addr) true (lio_status (att p))
                                       (ifflags (att p)) (att p)) p in
        let '(r, p) := lio_first_time_init p pdev in
        if negb (r =? 0) then (- EINVAL, p)
        else
          let p := with_att (set_eth_dev true true (dev_flags (att p))
                                         (mac_addrs_ptr (att p)) (att p)) p in
          let p := called [Core (Ev_zmalloc (Z.of_nat ETHER_ADDR_LEN)
                                            (mac_zmalloc_ok A))]
                     (with_att (set_eth_dev true true (dev_flags (att p))
                                            (mac_zmalloc_ok A) (att p)) p) in
          if negb (mac_zmalloc_ok A) then
            (- ENOMEM,
             with_att (set_eth_dev false false (dev_flags (att p)) false (att p)) p)
          else
            let p := with_att (set_lio_dev (lio_hw_addr (att p)) (lio_eth_dev (att p))
                                 (LIO_DEV_RUNNING A)
                                 (Z.lor (ifflags (att p)) (LIO_IFFLAG_UNICAST A))
                                 (att p)) p in
            (* rte_zmalloc hands out zeroed memory *)
            let s := with_data (set_mac_addrs (replicate ETHER_ADDR_LEN 0)
                                              (data (core p))) (core p) in
            (0, with_core (with_dev (set_port_configured 0 (dev s)) s) p)
    end.

End Attach.

(** ** Sample ports *)

(** Private data as rte_eth_dev_pci_probe hands it to lio_eth_dev_init:
    zeroed. *)
Definition blank_dev : lio_device :=
  {| port_configured := 0; intf_open := 0;
     nb_rx_queues := 0; nb_tx_queues := 0; pf_num := 0;
     linfo := fresh_linfo; glist_lock := None; glist_head := None;
     droq := replicate 8 None; instr_queue := replicate 8 None |}.

Definition blank_attach : lio_attach :=
  {| pci_dev := None; chip_id := 0; sc_buf_pool := false; mbox0 := false;
     coproc_tics_per_us := 0; max_rx_queues := 0; max_tx_queues := 0;
     lio_hw_addr := None; lio_eth_dev := false; lio_status := 0; ifflags := 0;
     rx_pkt_burst := false; tx_pkt_burst := false; dev_ops := false;
     dev_flags := 0; mac_addrs_ptr := false |}.

Definition port_of (s : state) : lio_port :=
  {| core := s; att := blank_attach; calls := [] |}.

Definition blank_port : lio_port :=
  port_of {| dev := blank_dev; data := app_data 0 0; trace := [] |}.

(** A primary process on a host where every attach-time step succeeds. *)
Definition vf_host : attach_externals :=
  {| LIO_CN23XX_VF_VID := 0x9712;
     LIO_DEV_RUNNING := 10;
     LIO_IFFLAG_UNICAST := 16;
     RTE_ETH_DEV_DETACHABLE := 1;
     process_primary := true;
     enable_io_queues_ret := 0;
     alarm_set_ret := 0;
     vf_setup_device_ret := 0;
     setup_sc_buffer_pool_ret := 0;
     setup_mbox := (0, true);
     vf_handle_mbox := fun _ => 1000;
     pfvf_handshake_ret := 0;
     set_io_queues_off_ret := 0;
     setup_device_regs_ret := 0;
     setup_instr_queue0 := fun q => (0, array_set q 0 (Some {| iq_max_count := 128 |}));
     rings_per_vf := 8;
     mac_zmalloc_ok := true;
     delete_droq_queue := fun q n => array_set q n None |}.

Definition cn23xx_vf_pdev : rte_pci_device :=
  {| device_id := 0x9712; mem_resource0 := Some 4096 |}.

(** * lio_hweight64 counts bits *)

Module Hweight.
Import Swar.

Lemma byte_facts_all : forallb byte_facts (map Z.of_nat (seq 0 256)) = true.
Proof. vm_compute. reflexivity. Qed.

Lemma byte_facts_ok b : 0 <= b < 256 -> byte_facts b = true.
Proof.
  intros Hb. pose proof byte_facts_all as H.
  rewrite forallb_forall in H. apply H.
  apply in_map_iff. exists (Z.to_nat b). split; [lia|].
  apply in_seq. lia.
Qed.

Lemma testbit_split a b n :
  0 <= b < 256 -> 0 <= n ->
  Z.testbit (256 * a + b) n = if n <? 8 then Z.testbit b n else Z.testbit a (n - 8).
Proof.
  intros Hb Hn. destruct (Z.ltb_spec n 8).
  - rewrite <- (Z.mod_pow2_bits_low (256 * a + b) 8 n) by lia.
    f_equal. change (2 ^ 8) with 256.
    rewrite Z.add_comm, Z.mul_comm, Z.mod_add by lia. apply Z.mod_small; lia.
  - replace n with ((n - 8) + 8) at 1 by lia.
    rewrite <- Z.div_pow2_bits by lia. f_equal. change (2 ^ 8) with 256.
    rewrite Z.add_comm, Z.mul_comm, Z.div_add by lia.
    rewrite Z.div_small by lia. reflexivity.
Qed.

Lemma land_byte_range b m : 0 <= b -> 0 <= m < 256 -> 0 <= Z.land b m < 256.
Proof.
  intros Hb Hm. assert (H0 : 0 <= Z.land b m) by (apply Z.land_nonneg; lia).
  split; [exact H0|].
  destruct (Z.eq_dec (Z.land b m) 0) as [->|Hn0]; [lia|].
  change 256 with (2 ^ 8). apply Z.log2_lt_pow2; [lia|].
  pose proof (Z.log2_land b m Hb (proj1 Hm)) as Hl.
  assert (Z.log2 m < 8); [|lia].
  destruct (Z.eq_dec m 0) as [->|Hm0]; [reflexivity|].
  apply Z.log2_lt_pow2; [lia|]. change (2 ^ 8) with 256. lia.
Qed.

Lemma small_testbit m k n : 0 <= m < 2 ^ k -> 0 <= k <= n -> Z.testbit m n = false.
Proof.
  intros Hm Hk. destruct (Z.eq_dec m 0) as [->|Hm0]; [apply Z.bits_0|].
  apply Z.bits_above_log2; [lia|].
  assert (Z.log2 m < k); [|lia]. apply Z.log2_lt_pow2; lia.
Qed.

Lemma land_shiftr_split s a b M m :
  0 <= s <= 8 -> 0 <= b < 256 -> 0 <= m < 2 ^ (8 - s) ->
  Z.land (Z.shiftr (256 * a + b) s) (256 * M + m)
  = 256 * Z.land (Z.shiftr a s) M + Z.land (Z.shiftr b s) m.
Proof.
  intros Hs Hb Hm.
  assert (Hm8 : 0 <= m < 256).
  { split; [lia|]. assert (2 ^ (8 - s) <= 2 ^ 8) by (apply Z.pow_le_mono_r; lia).
    change (2 ^ 8) with 256 in *. lia. }
  assert (Hr : 0 <= Z.land (Z.shiftr b s) m < 256).
  { apply land_byte_range; [apply Z.shiftr_nonneg; lia | exact Hm8]. }
  apply Z.bits_inj'. intros n Hn.
  rewrite Z.land_spec, Z.shiftr_spec by lia.
  rewrite !testbit_split by lia.
  destruct (Z.ltb_spec n 8) as [Hlt|Hge].
  - rewrite Z.land_spec, Z.shiftr_spec by lia.
    destruct (Z.ltb_spec (n + s) 8) as [Hlt2|Hge2]; [reflexivity|].
    rewrite (small_testbit m (8 - s) n) by lia.
    rewrite !andb_false_r. reflexivity.
  - rewrite Z.land_spec, Z.shiftr_spec by lia.
    destruct (Z.ltb_spec (n + s) 8); [lia|].
    replace (n + s - 8) with (n - 8 + s) by lia. reflexivity.
Qed.

Lemma bmap_bounds f c n w :
  (forall b, 0 <= b < 256 -> 0 <= f b <= c) ->
  0 <= bmap f n w <= rep8 n c.
Proof.
  intros Hf. revert w. induction n as [|n IH]; intros w; simpl; [lia|].
  specialize (IH (w / 256)).
  pose proof (Hf (w mod 256) (Z.mod_pos_bound w 256 eq_refl)). lia.
Qed.

Lemma bmap_low f n w :
  (forall b, 0 <= b < 256 -> 0 <= f b < 256) ->
  bmap f (S n) w mod 256 = f (w mod 256).
Proof.
  intros Hf. simpl.
  rewrite Z.add_comm, Z.mul_comm, Z.mod_add by lia.
  apply Z.mod_small, Hf, Z.mod_pos_bound. reflexivity.
Qed.

Lemma s1_local n w :
  0 <= w < 256 ^ Z.of_nat n ->
  w - Z.land (Z.shiftr w 1) (rep8 n 0x55) = bmap (s1 0x55) n w.
Proof.
  revert w. induction n as [|n IH]; intros w Hw.
  - simpl in *. rewrite Z.land_0_r. lia.
  - rewrite Nat2Z.inj_succ, Z.pow_succ_r in Hw by lia.
    pose proof (Z.mod_pos_bound w 256 eq_refl) as Hb.
    assert (Ha : 0 <= w / 256 < 256 ^ Z.of_nat n).
    { split; [apply Z.div_pos; lia | apply Z.div_lt_upper_bound; lia]. }
    simpl. rewrite <- (IH _ Ha). unfold s1.
    rewrite (Z.div_mod w 256) at 2 by lia.
    rewrite land_shiftr_split by (change (2 ^ (8 - 1)) with 128; lia).
    rewrite (Z.div_mod w 256) at 1 by lia. lia.
Qed.

Lemma s2_local f n w :
  (forall b, 0 <= b < 256 -> 0 <= f b < 256) ->
  Z.land (bmap f n w) (rep8 n 0x33) + Z.land (Z.shiftr (bmap f n w) 2) (rep8 n 0x33)
  = bmap (fun b => s2 0x33 (f b)) n w.
Proof.
  intros Hf. revert w. induction n as [|n IH]; intros w; [reflexivity|].
  pose proof (Hf _ (Z.mod_pos_bound w 256 eq_refl)) as Hb.
  simpl. rewrite <- IH. unfold s2.
  rewrite (land_shiftr_split 2) by (change (2 ^ (8 - 2)) with 64; lia).
  rewrite <- (Z.shiftr_0_r (256 * _ + _)).
  rewrite (land_shiftr_split 0) by (change (2 ^ (8 - 0)) with 256; lia).
  rewrite !Z.shiftr_0_r. lia.
Qed.

Lemma s3_local f n w :
  (forall b, 0 <= b < 256 -> 0 <= f b <= 68 /\ f b mod 16 <= 4) ->
  Z.land (bmap f n w + Z.shiftr (bmap f n w) 4) (rep8 n 0x0F)
  = bmap (fun b => s3 0x0F (f b)) n w.
Proof.
  intros Hf. revert w. induction n as [|n IH]; intros w; [reflexivity|].
  destruct (Hf _ (Z.mod_pos_bound w 256 eq_refl)) as [Hb Hb16].
  simpl. rewrite <- IH. unfold s3. rewrite !Z.shiftr_div_pow2 by lia.
  change (2 ^ 4) with 16.
  set (A := bmap f n (w / 256)). set (B := f (w mod 256)) in *.
  assert (HA : 0 <= A mod 16 <= 4).
  { split; [apply Z.mod_pos_bound; lia|]. subst A. destruct n as [|n]; [simpl; Z.div_mod_to_equations; lia|].
    replace (bmap f (S n) (w / 256))
      with (16 * (16 * bmap f n (w / 256 / 256)) + f (w / 256 mod 256)) by (simpl; lia).
    rewrite Z.add_comm, Z.mul_comm, Z.mod_add by lia.
    apply Hf, Z.mod_pos_bound. reflexivity. }
  replace (256 * A + B + (256 * A + B) / 16)
    with (256 * (A + A / 16) + (16 * (A mod 16) + B + B / 16)).
  2:{ replace ((256 * A + B) / 16) with (16 * A + B / 16).
      - pose proof (Z.div_mod A 16). lia.
      - replace (256 * A + B) with (B + (16 * A) * 16) by lia.
        rewrite Z.div_add by lia. lia. }
  assert (HB16 : 0 <= B / 16 <= 4).
  { Z.div_mod_to_equations; lia. }
  rewrite <- (Z.shiftr_0_r (256 * _ + _)).
  rewrite (land_shiftr_split 0) by (change (2 ^ (8 - 0)) with 256; lia).
  rewrite !Z.shiftr_0_r. f_equal.
  change 15 with (Z.ones 4). rewrite !Z.land_ones by lia. change (2 ^ 4) with 16.
  replace (16 * (A mod 16) + B + B / 16) with (B + B / 16 + (A mod 16) * 16) by lia.
  apply Z.mod_add. lia.
Qed.

Lemma bitcount_mod256 n w :
  (n <= 8)%nat -> bitcount n (w mod 256) = bitcount n w.
Proof.
  induction n as [|n IH]; intros Hn; [reflexivity|].
  simpl. rewrite IH by lia. f_equal. f_equal.
  change 256 with (2 ^ 8). apply Z.mod_pow2_bits_low. lia.
Qed.

Lemma bitcount_next_byte n w :
  bitcount (n + 8) w = bitcount n (w / 256) + bitcount 8 (w mod 256).
Proof.
  induction n as [|n IH].
  - rewrite bitcount_mod256 by lia. reflexivity.
  - change (bitcount (S n + 8) w)
      with (Z.b2z (Z.testbit w (Z.of_nat (n + 8))) + bitcount (n + 8) w).
    change (bitcount (S n) (w / 256))
      with (Z.b2z (Z.testbit (w / 256) (Z.of_nat n)) + bitcount n (w / 256)).
    rewrite IH.
    assert (Z.testbit (w / 256) (Z.of_nat n) = Z.testbit w (Z.of_nat (n + 8))) as ->.
    { change 256 with (2 ^ 8). rewrite Z.div_pow2_bits by lia. f_equal. lia. }
    lia.
Qed.

Lemma bitcount_bytes n w :
  bitcount (8 * n) w = bsum (bitcount 8) n w.
Proof.
  revert w. induction n as [|n IH]; intros w; [reflexivity|].
  replace (8 * S n)%nat with (8 * n + 8)%nat by lia.
  rewrite bitcount_next_byte, IH. simpl. lia.
Qed.

Lemma bmap_ext f g n w :
  (forall b, 0 <= b < 256 -> f b = g b) -> bmap f n w = bmap g n w.
Proof.
  intros H. revert w. induction n as [|n IH]; intros w; [reflexivity|].
  simpl. rewrite IH, H by (apply Z.mod_pos_bound; reflexivity). reflexivity.
Qed.

Lemma bsum_ext f g n w :
  (forall b, 0 <= b < 256 -> f b = g b) -> bsum f n w = bsum g n w.
Proof.
  intros H. revert w. induction n as [|n IH]; intros w; [reflexivity|].
  simpl. rewrite IH, H by (apply Z.mod_pos_bound; reflexivity). reflexivity.
Qed.

Lemma shr_low k a b x :
  0 <= k -> x = 2 ^ k * a + b -> 0 <= b < 2 ^ k -> Z.shiftr x k = a.
Proof.
  intros Hk -> Hb. rewrite Z.shiftr_div_pow2 by lia.
  rewrite Z.add_comm, Z.mul_comm, Z.div_add by lia. rewrite Z.div_small by lia. lia.
Qed.

Lemma fold_bytes c0 c1 c2 c3 c4 c5 c6 c7 :
  0 <= c0 <= 8 -> 0 <= c1 <= 8 -> 0 <= c2 <= 8 -> 0 <= c3 <= 8 ->
  0 <= c4 <= 8 -> 0 <= c5 <= 8 -> 0 <= c6 <= 8 -> 0 <= c7 <= 8 ->
  let res := 256 * (256 * (256 * (256 * (256 * (256 * (256 * (256 * 0 + c7) + c6) + c5)
                                          + c4) + c3) + c2) + c1) + c0 in
  let res := wrap64 (res + Z.shiftr res 8) in
  let res := wrap64 (res + Z.shiftr res 16) in
  Z.land (wrap64 (res + Z.shiftr res 32)) 0xFF
  = c0 + (c1 + (c2 + (c3 + (c4 + (c5 + (c6 + (c7 + 0))))))).
Proof.
  intros H0 H1 H2 H3 H4 H5 H6 H7. cbv zeta. unfold wrap64.
  change 255 with (Z.ones 8). rewrite Z.land_ones by lia.
  change (2 ^ 8) with 256. change (2 ^ 64) with 18446744073709551616.
  pose (N6 := 256 * c7 + c6). pose (N5 := 256 * N6 + c5).
  pose (N4 := 256 * N5 + c4). pose (N3 := 256 * N4 + c3).
  pose (N2 := 256 * N3 + c2). pose (N1 := 256 * N2 + c1).
  set (R := 256 * _ + c0).
  assert (E1 : Z.shiftr R 8 = N1).
  { apply shr_low with (b := c0); change (2 ^ 8) with 256; subst R N1 N2 N3 N4 N5 N6; lia. }
  rewrite E1. rewrite (Z.mod_small (R + N1)) by (subst R N1 N2 N3 N4 N5 N6; lia).
  assert (E2 : Z.shiftr (R + N1) 16 = N2 + N3).
  { apply shr_low with (b := c0 + c1 + 256 * (c1 + c2));
      change (2 ^ 16) with 65536; subst R N1 N2 N3 N4 N5 N6; lia. }
  rewrite E2.
  rewrite (Z.mod_small (R + N1 + _)) by (subst R N1 N2 N3 N4 N5 N6; lia).
  assert (E3 : Z.shiftr (R + N1 + (N2 + N3)) 32 = N4 + N5 + N6 + c7).
  { apply shr_low with (b := c0 + c1 + c2 + c3 + 256 * (c1 + c2 + c3 + c4)
                              + 65536 * (c2 + c3 + c4 + c5)
                              + 16777216 * (c3 + c4 + c5 + c6));
      change (2 ^ 32) with 4294967296; subst R N1 N2 N3 N4 N5 N6; lia. }
  rewrite E3.
  rewrite (Z.mod_small (R + N1 + _ + _)) by (subst R N1 N2 N3 N4 N5 N6; lia).
  symmetry. apply Z.mod_unique_pos with (q := N1 + N2 + N3 + N4 + N5 + N6 + c7);
    change (2 ^ 8) with 256; subst R N1 N2 N3 N4 N5 N6; lia.
Qed.

Lemma fold_bmap f w :
  (forall b, 0 <= b < 256 -> 0 <= f b <= 8) ->
  let res := bmap f 8 w in
  let res := wrap64 (res + Z.shiftr res 8) in
  let res := wrap64 (res + Z.shiftr res 16) in
  Z.land (wrap64 (res + Z.shiftr res 32)) 0xFF = bsum f 8 w.
Proof.
  intros Hf. cbn [bmap bsum].
  apply fold_bytes; apply Hf, Z.mod_pos_bound; reflexivity.
Qed.

Lemma byte_stage1 b : 0 <= b < 256 -> 0 <= s1 0x55 b < 256.
Proof.
  intros Hb. pose proof (byte_facts_ok b Hb) as H. unfold byte_facts in H.
  rewrite !andb_true_iff in H. lia.
Qed.

Lemma byte_stage2 b :
  0 <= b < 256 -> 0 <= pair_counts b <= 68 /\ pair_counts b mod 16 <= 4.
Proof.
  intros Hb. pose proof (byte_facts_ok b Hb) as H. unfold byte_facts in H.
  rewrite !andb_true_iff in H. lia.
Qed.

Lemma byte_stage3 b : 0 <= b < 256 -> 0 <= hw8 b <= 8 /\ hw8 b = bitcount 8 b.
Proof.
  intros Hb. pose proof (byte_facts_ok b Hb) as H. unfold byte_facts in H.
  rewrite !andb_true_iff in H. lia.
Qed.

Lemma masks :
  0x5555555555555555 = rep8 8 0x55
  /\ 0x3333333333333333 = rep8 8 0x33
  /\ 0x0F0F0F0F0F0F0F0F = rep8 8 0x0F
  /\ rep8 8 255 = 18446744073709551615
  /\ rep8 8 68 = 0x4444444444444444
  /\ 256 ^ Z.of_nat 8 = 2 ^ 64
  /\ 2 ^ 64 = 18446744073709551616.
Proof. vm_compute. repeat split; reflexivity. Qed.

Lemma swar_bytes w :
  0 <= w < 2 ^ 64 ->
  let res := wrap64 (w - Z.land (Z.shiftr w 1) 0x5555555555555555) in
  let res := wrap64 (Z.land res 0x3333333333333333
                     + Z.land (Z.shiftr res 2) 0x3333333333333333) in
  Z.land (wrap64 (res + Z.shiftr res 4)) 0x0F0F0F0F0F0F0F0F = bmap hw8 8 w.
Proof.
  intros Hw. destruct masks as (M1 & M2 & M3 & M4 & M5 & M6 & M7).
  assert (R1 : 0 <= bmap (s1 0x55) 8 w <= rep8 8 255).
  { apply bmap_bounds. intros b Hb. pose proof (byte_stage1 b Hb). lia. }
  assert (R2 : 0 <= bmap (fun b => s2 0x33 (s1 0x55 b)) 8 w <= rep8 8 68).
  { apply bmap_bounds. intros b Hb. pose proof (byte_stage2 b Hb) as H.
    unfold pair_counts in H. lia. }
  rewrite M4 in R1. rewrite M5 in R2.
  assert (E1 : wrap64 (w - Z.land (Z.shiftr w 1) 0x5555555555555555)
               = bmap (s1 0x55) 8 w).
  { rewrite M1, s1_local by (rewrite M6; exact Hw).
    unfold wrap64. rewrite M7. apply Z.mod_small. lia. }
  cbv zeta. rewrite E1.
  assert (E2 : wrap64 (Z.land (bmap (s1 0x55) 8 w) 0x3333333333333333
                       + Z.land (Z.shiftr (bmap (s1 0x55) 8 w) 2) 0x3333333333333333)
               = bmap (fun b => s2 0x33 (s1 0x55 b)) 8 w).
  { rewrite M2, s2_local by exact byte_stage1.
    unfold wrap64. rewrite M7. apply Z.mod_small. lia. }
  rewrite E2.
  set (v := bmap (fun b => s2 0x33 (s1 0x55 b)) 8 w) in *.
  assert (R3 : 0 <= Z.shiftr v 4 <= v).
  { rewrite Z.shiftr_div_pow2 by lia. change (2 ^ 4) with 16.
    clearbody v. Z.div_mod_to_equations. lia. }
  assert (E3 : wrap64 (v + Z.shiftr v 4) = v + Z.shiftr v 4).
  { unfold wrap64. rewrite M7. apply Z.mod_small. lia. }
  rewrite E3, M3. subst v.
  rewrite s3_local.
  - apply bmap_ext. intros b _. reflexivity.
  - intros b Hb. exact (byte_stage2 b Hb).
Qed.

End Hweight.


Lemma lio_hweight64_bitcount w :
  0 <= w < 2 ^ 64 -> lio_hweight64 w = bitcount 64 w.
Proof.
  intros Hw. unfold lio_hweight64.
  pose proof (Hweight.swar_bytes w Hw) as H. cbv zeta in H. rewrite H.
  pose proof (Hweight.fold_bmap Swar.hw8 w) as F. cbv zeta in F.
  rewrite F by (intros b Hb; apply Hweight.byte_stage3, Hb).
  change 64%nat with (8 * 8)%nat. rewrite Hweight.bitcount_bytes.
  apply Hweight.bsum_ext. intros b Hb. apply Hweight.byte_stage3, Hb.
Qed.

(** The result fits a byte, so the conversions to [int] and the uint8_t loop
    counters of lio_dev_configure lose nothing. *)
Lemma lio_hweight64_fits w :
  0 <= lio_hweight64 w < 256 /\ to_int (lio_hweight64 w) = lio_hweight64 w.
Proof.
  assert (H : 0 <= lio_hweight64 w < 256).
  { unfold lio_hweight64. cbv zeta. change 255 with (Z.ones 8).
    rewrite Z.land_ones by lia. apply Z.mod_pos_bound. reflexivity. }
  split; [exact H|]. unfold to_int.
  change (2 ^ 31) with 2147483648. change (2 ^ 32) with 4294967296.
  rewrite Z.mod_small; lia.
Qed.

(** * Traces and the polling loop *)

Arguments lio_hweight64 : simpl never.
Arguments poll_fuel : simpl never.
Arguments to_uint16 : simpl never.
Arguments to_int : simpl never.
Arguments bswap64 : simpl never.
Arguments repeat_events : simpl never.
Arguments if_cfg_polls : simpl never.
Arguments link_status_polls : simpl never.

Section Basics.

Context (P : platform) (X : externals).

Lemma rte_eth_link_eqb_refl l : rte_eth_link_eqb l l = true.
Proof. unfold rte_eth_link_eqb. rewrite !Z.eqb_refl. reflexivity. Qed.

Lemma publish_succeeds_no_race st :
  dev_link_race X = None -> publish_succeeds X st = true.
Proof.
  intros H. unfold publish_succeeds. rewrite H. apply rte_eth_link_eqb_refl.
Qed.

Lemma count_events_app p tr1 tr2 :
  count_events p (tr1 ++ tr2) = (count_events p tr1 + count_events p tr2)%nat.
Proof. unfold count_events. rewrite List.filter_app, length_app. reflexivity. Qed.

Lemma count_events_repeat p k body :
  count_events p body = 0%nat -> count_events p (repeat_events k body) = 0%nat.
Proof.
  intros H. unfold repeat_events. induction k as [|k IH]; [reflexivity|].
  cbn [replicate concat]. rewrite count_events_app, H, IH. reflexivity.
Qed.

Lemma log_log a b st : log a (log b st) = log (b ++ a) st.
Proof. unfold log. cbn [dev data trace]. rewrite app_assoc. reflexivity. Qed.

Lemma new_events_log st evs : new_events st (log evs st) = evs.
Proof. unfold new_events, log. cbn [trace]. apply drop_app_length. Qed.

Lemma new_events_app st tr evs :
  new_events st {| dev := dev st; data := data st; trace := trace st ++ tr |} = tr ->
  forall d dt, new_events st {| dev := d; data := dt; trace := (trace st ++ tr) ++ evs |}
               = tr ++ evs.
Proof.
  intros _ d dt. unfold new_events. cbn [trace].
  rewrite <- app_assoc. apply drop_app_length.
Qed.

(** The loop stops of its own accord: any fuel above the counter's range
    gives the result that [poll_fuel] gives. *)
Lemma poll_fuel_irrelevant pending f1 f2 t k :
  to_uint16 (t - 1) < Z.of_nat f1 -> to_uint16 (t - 1) < Z.of_nat f2 ->
  poll pending f1 t k = poll pending f2 t k.
Proof.
  revert f2 t k. induction f1 as [|f1 IH]; intros f2 t k H1 H2.
  - unfold to_uint16 in H1. pose proof (Z.mod_pos_bound (t - 1) (2 ^ 16) eq_refl). lia.
  - destruct f2 as [|f2].
    { unfold to_uint16 in H2. pose proof (Z.mod_pos_bound (t - 1) (2 ^ 16) eq_refl). lia. }
    cbn [poll]. destruct (pending k); [|reflexivity].
    destruct (Z.eqb_spec (to_uint16 (t - 1)) 0) as [|Hnz]; [reflexivity|].
    assert (Hr : 0 <= to_uint16 (t - 1) < 2 ^ 16)
      by (apply Z.mod_pos_bound; reflexivity).
    assert (Hm : to_uint16 (to_uint16 (t - 1) - 1) = to_uint16 (t - 1) - 1).
    { unfold to_uint16 at 1. apply Z.mod_small. lia. }
    apply IH; rewrite Hm; lia.
Qed.

Lemma poll_enough_fuel pending f t k :
  (poll_fuel <= f)%nat -> poll pending f t k = poll pending poll_fuel t k.
Proof.
  intros Hf.
  assert (Hr : 0 <= to_uint16 (t - 1) < 2 ^ 16)
    by (apply Z.mod_pos_bound; reflexivity).
  assert (Z.of_nat poll_fuel = 65536) by (unfold poll_fuel; apply Z2Nat.id; lia).
  change (2 ^ 16) with 65536 in Hr.
  apply poll_fuel_irrelevant; lia.
Qed.

(** On exit either the awaited word was seen set or the counter is zero. *)
Lemma poll_exit pending f t k :
  to_uint16 (t - 1) < Z.of_nat f ->
  pending (snd (poll pending f t k)) = false \/ fst (poll pending f t k) = 0.
Proof.
  revert t k. induction f as [|f IH]; intros t k Hf.
  - unfold to_uint16 in Hf. pose proof (Z.mod_pos_bound (t - 1) (2 ^ 16) eq_refl). lia.
  - cbn [poll]. destruct (pending k) eqn:Hp; [|left; exact Hp].
    destruct (Z.eqb_spec (to_uint16 (t - 1)) 0) as [Hz|Hnz]; [right; exact Hz|].
    assert (Hr : 0 <= to_uint16 (t - 1) < 2 ^ 16)
      by (apply Z.mod_pos_bound; reflexivity).
    apply IH. unfold to_uint16 at 1. rewrite Z.mod_small; lia.
Qed.

(** A word that is never seen set lets the counter run down to zero. *)
Lemma poll_times_out pending t :
  (forall k, pending k = true) -> fst (poll pending poll_fuel t 0) = 0.
Proof.
  intros Hall.
  assert (Hr : 0 <= to_uint16 (t - 1) < 2 ^ 16)
    by (apply Z.mod_pos_bound; reflexivity).
  assert (Hf : Z.of_nat poll_fuel = 65536) by (unfold poll_fuel; apply Z2Nat.id; lia).
  change (2 ^ 16) with 65536 in Hr.
  destruct (poll_exit pending poll_fuel t 0) as [H|H]; [lia| |exact H].
  rewrite Hall in H. discriminate H.
Qed.

End Basics.

(** ** The budget of the polling loops *)

Lemma to_uint16_range x : 0 <= to_uint16 x < 65536.
Proof. unfold to_uint16. apply Z.mod_pos_bound. reflexivity. Qed.

Lemma to_uint16_small x : 0 <= x < 65536 -> to_uint16 x = x.
Proof. intros H. unfold to_uint16. apply Z.mod_small. exact H. Qed.

Lemma to_uint16_pred x j :
  to_uint16 (to_uint16 (x - 1) - j) = to_uint16 (x - (j + 1)).
Proof.
  unfold to_uint16. rewrite Zminus_mod_idemp_l. f_equal. lia.
Qed.

(** The loop leaves at the first test that finds the awaited word set, if
    that test comes within the budget. *)
Lemma poll_stops pending fuel t k j :
  (forall i, (i < j)%nat -> pending (k + i)%nat = true) ->
  pending (k + j)%nat = false ->
  Z.of_nat j <= poll_budget t ->
  poll_budget t < Z.of_nat fuel ->
  0 <= t < 65536 ->
  poll pending fuel t k = (to_uint16 (t - Z.of_nat j), (k + j)%nat).
Proof.
  unfold poll_budget. revert fuel t k.
  induction j as [|j IH]; intros fuel t k Hpre Hset Hj Hfuel Ht.
  - destruct fuel as [|fuel]; [pose proof (to_uint16_range (t - 1)); lia|].
    cbn [poll]. rewrite Nat.add_0_r in Hset |- *. rewrite Hset.
    rewrite Z.sub_0_r, to_uint16_small by exact Ht. reflexivity.
  - destruct fuel as [|fuel]; [pose proof (to_uint16_range (t - 1)); lia|].
    cbn [poll]. rewrite <- (Nat.add_0_r k) at 1. rewrite Hpre by lia.
    pose proof (to_uint16_range (t - 1)) as Hb.
    destruct (Z.eqb_spec (to_uint16 (t - 1)) 0) as [Hz|Hnz]; [lia|].
    rewrite (IH fuel (to_uint16 (t - 1)) (S k)).
    + rewrite to_uint16_pred. f_equal; [f_equal|]; lia.
    + intros i Hi. replace (S k + i)%nat with (k + S i)%nat by lia. apply Hpre. lia.
    + replace (S k + j)%nat with (k + S j)%nat by lia. exact Hset.
    + rewrite (to_uint16_small (to_uint16 (t - 1) - 1)) by lia. lia.
    + rewrite (to_uint16_small (to_uint16 (t - 1) - 1)) by lia. lia.
    + exact Hb.
Qed.

(** A word that stays unset lets the loop run its full budget. *)
Lemma poll_runs_out pending fuel t k :
  (forall i, Z.of_nat i <= poll_budget t -> pending (k + i)%nat = true) ->
  poll_budget t < Z.of_nat fuel ->
  poll pending fuel t k = (0, (k + Z.to_nat (poll_budget t))%nat).
Proof.
  unfold poll_budget.
  remember (Z.to_nat (to_uint16 (t - 1))) as n eqn:En.
  revert fuel t k En. induction n as [|n IH]; intros fuel t k En Hall Hfuel;
    pose proof (to_uint16_range (t - 1)) as Hb;
    (destruct fuel as [|fuel]; [lia|]); cbn [poll];
    rewrite <- (Nat.add_0_r k) at 1; rewrite Hall by lia.
  - assert (Hz : to_uint16 (t - 1) = 0) by lia. rewrite Hz. cbn [Z.eqb].
    rewrite Nat.add_0_r. reflexivity.
  - destruct (Z.eqb_spec (to_uint16 (t - 1)) 0) as [Hz|Hnz]; [lia|].
    assert (Hp : to_uint16 (to_uint16 (t - 1) - 1) = to_uint16 (t - 1) - 1)
      by (apply to_uint16_small; lia).
    rewrite (IH fuel (to_uint16 (t - 1)) (S k)).
    + f_equal. lia.
    + rewrite Hp. lia.
    + intros i Hi. replace (S k + i)%nat with (k + S i)%nat by lia.
      apply Hall. rewrite Hp in Hi. lia.
    + rewrite Hp. lia.
Qed.

(** Never more runs of the body than the budget. *)
Lemma poll_bounded pending fuel t k :
  poll_budget t < Z.of_nat fuel ->
  Z.of_nat (snd (poll pending fuel t k)) <= Z.of_nat k + poll_budget t.
Proof.
  unfold poll_budget. revert t k. induction fuel as [|fuel IH]; intros t k Hfuel;
    pose proof (to_uint16_range (t - 1)) as Hb; [lia|].
  cbn [poll]. destruct (pending k); [|cbn [snd]; lia].
  destruct (Z.eqb_spec (to_uint16 (t - 1)) 0) as [Hz|Hnz]; [cbn [snd]; lia|].
  assert (Hp : to_uint16 (to_uint16 (t - 1) - 1) = to_uint16 (t - 1) - 1)
    by (apply to_uint16_small; lia).
  specialize (IH (to_uint16 (t - 1)) (S k)). rewrite Hp in IH.
  specialize (IH ltac:(lia)). lia.
Qed.

Lemma poll_fuel_covers t : poll_budget t < Z.of_nat poll_fuel.
Proof.
  pose proof (to_uint16_range (t - 1)).
  assert (Z.of_nat poll_fuel = 65536) by (unfold poll_fuel; apply Z2Nat.id; lia).
  unfold poll_budget. lia.
Qed.

(** * Link status publication *)

Section LinkUpdate.

Context (P : platform) (X : externals).

Lemma atomic_write_ok st src :
  publish_succeeds X st = true ->
  lio_dev_atomic_write_link_status X st src
  = (0, with_data (set_dev_link src (data st)) st).
Proof.
  intros H. unfold lio_dev_atomic_write_link_status.
  unfold publish_succeeds in H. rewrite H. reflexivity.
Qed.

Lemma atomic_write_fails st src :
  publish_succeeds X st = false ->
  fst (lio_dev_atomic_write_link_status X st src) = -1.
Proof.
  intros H. unfold lio_dev_atomic_write_link_status.
  unfold publish_succeeds in H. rewrite H. reflexivity.
Qed.

Lemma atomic_write_dev st src :
  dev (snd (lio_dev_atomic_write_link_status X st src)) = dev st.
Proof.
  unfold lio_dev_atomic_write_link_status.
  destruct (rte_eth_link_eqb _ _); reflexivity.
Qed.

Lemma atomic_write_trace st src :
  trace (snd (lio_dev_atomic_write_link_status X st src)) = trace st.
Proof.
  unfold lio_dev_atomic_write_link_status.
  destruct (rte_eth_link_eqb _ _); reflexivity.
Qed.

Lemma link_update_snd st :
  exists l, snd (lio_dev_link_update P X st)
            = snd (lio_dev_atomic_write_link_status X st l).
Proof.
  unfold lio_dev_link_update.
  destruct (link_up_of P _ =? 0); [|destruct (speed_of P _ =? _)];
    match goal with
    | |- context [lio_dev_atomic_write_link_status X st ?l] =>
        exists l; destruct (lio_dev_atomic_write_link_status X st l) as [r st1]
    end; destruct (negb (r =? 0)); reflexivity.
Qed.

Lemma link_update_dev st : dev (snd (lio_dev_link_update P X st)) = dev st.
Proof. destruct (link_update_snd st) as [l ->]. apply atomic_write_dev. Qed.

Lemma link_update_trace st : trace (snd (lio_dev_link_update P X st)) = trace st.
Proof. destruct (link_update_snd st) as [l ->]. apply atomic_write_trace. Qed.

(** What a successful publication leaves in [dev_link]. *)
Lemma link_update_published st :
  publish_succeeds X st = true ->
  dev_link (data (snd (lio_dev_link_update P X st)))
  = if link_up_of P (link (linfo (dev st))) =? 0 then
      {| link_speed := ETH_SPEED_NUM_NONE; link_duplex := ETH_LINK_HALF_DUPLEX;
         link_status := ETH_LINK_DOWN |}
    else if speed_of P (link (linfo (dev st))) =? LIO_LINK_SPEED_10000 then
      {| link_speed := ETH_SPEED_NUM_10G; link_duplex := ETH_LINK_FULL_DUPLEX;
         link_status := ETH_LINK_UP |}
    else
      {| link_speed := ETH_SPEED_NUM_NONE; link_duplex := ETH_LINK_HALF_DUPLEX;
         link_status := ETH_LINK_UP |}.
Proof.
  intros Hp. unfold lio_dev_link_update.
  destruct (link_up_of P _ =? 0).
  - rewrite atomic_write_ok by exact Hp. reflexivity.
  - rewrite atomic_write_ok by exact Hp.
    destruct (speed_of P _ =? LIO_LINK_SPEED_10000); reflexivity.
Qed.

(** C7. With the link reported up, lio_dev_link_update publishes link-up:
    full duplex at 10 Gbps for speed code 10000, speed none and half duplex
    for every other code; with the link reported down it publishes link-down,
    speed none, half duplex. *)
Theorem lio_dev_link_update_publishes (st : state) :
  publish_succeeds X st = true ->
  let lnk := link (linfo (dev st)) in
  let pub := dev_link (data (snd (lio_dev_link_update P X st))) in
  (link_up_of P lnk <> 0 -> speed_of P lnk = 10000 ->
     pub = {| link_speed := ETH_SPEED_NUM_10G;
              link_duplex := ETH_LINK_FULL_DUPLEX;
              link_status := ETH_LINK_UP |})
  /\ (link_up_of P lnk <> 0 -> speed_of P lnk <> 10000 ->
     pub = {| link_speed := ETH_SPEED_NUM_NONE;
              link_duplex := ETH_LINK_HALF_DUPLEX;
              link_status := ETH_LINK_UP |})
  /\ (link_up_of P lnk = 0 ->
     pub = {| link_speed := ETH_SPEED_NUM_NONE;
              link_duplex := ETH_LINK_HALF_DUPLEX;
              link_status := ETH_LINK_DOWN |}).
Proof.
  intros Hp lnk pub. subst pub. rewrite link_update_published by exact Hp.
  fold lnk. unfold LIO_LINK_SPEED_10000.
  repeat split; intros.
  - destruct (Z.eqb_spec (link_up_of P lnk) 0); [contradiction|].
    destruct (Z.eqb_spec (speed_of P lnk) 10000); [reflexivity|contradiction].
  - destruct (Z.eqb_spec (link_up_of P lnk) 0); [contradiction|].
    destruct (Z.eqb_spec (speed_of P lnk) 10000); [contradiction|reflexivity].
  - destruct (Z.eqb_spec (link_up_of P lnk) 0); [reflexivity|contradiction].
Qed.

(** C9. With the link reported down and the publication going through,
    lio_dev_link_update has written the down status and returns -1, the
    comparison being against the zeroed local [old]; it returns 0 exactly
    when the link is reported up and the publication goes through. *)
Theorem lio_dev_link_update_return (st : state) :
  let lnk := link (linfo (dev st)) in
  let r := fst (lio_dev_link_update P X st) in
  let pub := dev_link (data (snd (lio_dev_link_update P X st))) in
  (link_up_of P lnk = 0 -> publish_succeeds X st = true ->
     r = -1 /\ link_status pub = ETH_LINK_DOWN
     /\ pub = {| link_speed := ETH_SPEED_NUM_NONE;
                 link_duplex := ETH_LINK_HALF_DUPLEX;
                 link_status := ETH_LINK_DOWN |})
  /\ (r = 0 <-> link_up_of P lnk <> 0 /\ publish_succeeds X st = true).
Proof.
  intros lnk r pub. split.
  - intros Hdown Hp. subst r pub.
    rewrite link_update_published by exact Hp.
    unfold lio_dev_link_update. fold lnk. rewrite Hdown. cbn [Z.eqb].
    rewrite atomic_write_ok by exact Hp. cbn. auto.
  - subst r. unfold lio_dev_link_update. fold lnk.
    destruct (Z.eqb_spec (link_up_of P lnk) 0) as [Hz|Hnz].
    + destruct (publish_succeeds X st) eqn:Hp.
      * rewrite atomic_write_ok by exact Hp. cbn. split; [discriminate|tauto].
      * pose proof (atomic_write_fails st
          {| link_speed := ETH_SPEED_NUM_NONE; link_duplex := ETH_LINK_HALF_DUPLEX;
             link_status := ETH_LINK_DOWN |} Hp) as Hf.
        destruct (lio_dev_atomic_write_link_status _ _ _) as [r1 st1].
        cbn [fst] in Hf. subst r1. cbn. split; [discriminate|tauto].
    + destruct (publish_succeeds X st) eqn:Hp.
      * rewrite atomic_write_ok by exact Hp.
        destruct (speed_of P lnk =? LIO_LINK_SPEED_10000); cbn; tauto.
      * match goal with
        | |- context [lio_dev_atomic_write_link_status X st ?l] =>
            pose proof (atomic_write_fails st l Hp) as Hf;
            destruct (lio_dev_atomic_write_link_status X st l) as [r1 st1]
        end.
        cbn [fst] in Hf. subst r1. cbn. split; [discriminate|].
        intros [_ ?]. discriminate.
Qed.

End LinkUpdate.

Lemma lio_dev_link_update_publishes_witness :
  publish_succeeds (answering 0xF 0xF 0) configured_4_4 = true
  /\ dev_link (data (snd (lio_dev_link_update le_host (answering 0xF 0xF 0)
                                              configured_4_4)))
     = {| link_speed := 10000; link_duplex := 1; link_status := 1 |}.
Proof.
  split; [reflexivity|].
  apply (lio_dev_link_update_publishes le_host (answering 0xF 0xF 0) configured_4_4);
    vm_compute; congruence.
Defined.

Lemma lio_dev_link_update_return_witness :
  link_up_of le_host (link (linfo (dev (fresh 4 4)))) = 0
  /\ publish_succeeds silent (fresh 4 4) = true
  /\ fst (lio_dev_link_update le_host silent (fresh 4 4)) = -1.
Proof.
  split; [reflexivity|]. split; [reflexivity|].
  apply (lio_dev_link_update_return le_host silent (fresh 4 4)); reflexivity.
Defined.

(** * Queue set-up and the RX control command *)

Section QueueSetup.

Context (P : platform) (X : externals).

Lemma array_read_in_range {A} (d : A) (a : list A) (i : Z) :
  0 <= i < Z.of_nat (length a) -> array_read a i = Some (array_get d a i).
Proof.
  intros Hi. unfold array_read, array_get.
  destruct (Z.leb_spec 0 i); [|lia].
  destruct (Z.ltb_spec i (Z.of_nat (length a))); [|lia].
  cbn [andb].
  destruct (a !! Z.to_nat i) as [v|] eqn:E; [reflexivity|].
  apply lookup_ge_None_1 in E. lia.
Qed.

Lemma array_read_outside {A} (a : list A) (i : Z) :
  Z.of_nat (length a) <= i -> array_read a i = None.
Proof.
  intros Hi. unfold array_read.
  destruct (Z.ltb_spec i (Z.of_nat (length a))); [lia|].
  rewrite andb_false_r. reflexivity.
Qed.

(** C10. A queue index at or beyond the configured number of RX queues makes
    lio_dev_rx_queue_setup return -EINVAL with the device, the ethdev data
    and the trace of calls untouched. lio_dev_tx_queue_setup does the same
    for an index at or beyond the number of TX queues only while the index
    lies inside the array linfo.txpciq, which it reads before the test; for
    an index past that array the read is outside the array and the call has
    no defined result. *)
Theorem queue_setup_index_out_of_range (st : state)
    (q_rx q_tx num_rx_descs num_tx_descs room : Z) :
  nb_rx_queues (dev st) <= q_rx ->
  nb_tx_queues (dev st) <= q_tx ->
  lio_dev_rx_queue_setup P X st q_rx num_rx_descs room = (- EINVAL, st)
  /\ (0 <= q_tx < Z.of_nat (length (txpciq (linfo (dev st)))) ->
      lio_dev_tx_queue_setup P X st q_tx num_tx_descs = Some (- EINVAL, st))
  /\ (Z.of_nat (length (txpciq (linfo (dev st)))) <= q_tx ->
      lio_dev_tx_queue_setup P X st q_tx num_tx_descs = None).
Proof.
  intros Hrx Htx. split; [|split].
  - unfold lio_dev_rx_queue_setup.
    destruct (Z.geb_spec q_rx (nb_rx_queues (dev st))); [reflexivity|lia].
  - intros Hin. unfold lio_dev_tx_queue_setup.
    rewrite (array_read_in_range 0) by exact Hin.
    destruct (Z.geb_spec q_tx (nb_tx_queues (dev st))); [reflexivity|lia].
  - intros Hout. unfold lio_dev_tx_queue_setup.
    rewrite array_read_outside by exact Hout. reflexivity.
Qed.

(** lio_wait_for_ctrl_cmd reports a time-out when [cond] is never set. *)
Lemma lio_wait_for_ctrl_cmd_times_out st :
  (forall k, ctrl_cmd_cond X k = 0) -> fst (lio_wait_for_ctrl_cmd P X st) = 1.
Proof.
  intros Hall. unfold lio_wait_for_ctrl_cmd.
  pose proof (poll_times_out (fun k => ctrl_cmd_cond X k =? 0)
                (to_uint16 (LIO_MAX_CMD_TIMEOUT P))) as Ht.
  destruct (poll _ _ _ _) as [t k]. cbn [fst] in *.
  rewrite Ht; [reflexivity|]. intros j. rewrite Hall. reflexivity.
Qed.

(** What lio_send_rx_ctrl_cmd appends to the trace. *)
Lemma send_rx_ctrl_cmd_events st start_stop :
  exists k,
    snd (lio_send_rx_ctrl_cmd P X st start_stop)
    = log ([Ev_flush_iq 0; Ev_send_ctrl_pkt LIO_CMD_RX_CTL start_stop]
           ++ repeat_events k [Ev_flush_iq 0; Ev_delay_ms 1]) st
    /\ (send_ctrl_pkt_ret X <> 0 -> k = 0%nat).
Proof.
  unfold lio_send_rx_ctrl_cmd.
  destruct (Z.eqb_spec (send_ctrl_pkt_ret X) 0) as [Hz|Hnz]; cbn [negb].
  - unfold lio_wait_for_ctrl_cmd.
    destruct (poll _ _ _ _) as [t k]. exists k. split; [|intros; contradiction].
    destruct (negb ((if t =? 0 then 1 else 0) =? 0)); cbn [snd];
      unfold log; cbn [dev data trace]; rewrite <- !app_assoc; reflexivity.
  - exists 0%nat. split; [|reflexivity].
    cbn [snd]. unfold log, repeat_events. cbn [dev data trace replicate concat].
    rewrite <- !app_assoc, app_nil_r. reflexivity.
Qed.

(** C8, as the code has it. lio_send_rx_ctrl_cmd flushes instruction queue 0
    once, unconditionally, before its only call of lio_send_ctrl_pkt; when
    that call fails it returns -1 at once, with no further flush and no second
    attempt. Later flushes belong to the wait for a command that was sent. *)
Theorem lio_send_rx_ctrl_cmd_single_send (st : state) (start_stop : Z) :
  let r := fst (lio_send_rx_ctrl_cmd P X st start_stop) in
  let st' := snd (lio_send_rx_ctrl_cmd P X st start_stop) in
  (exists k, new_events st st'
             = [Ev_flush_iq 0; Ev_send_ctrl_pkt LIO_CMD_RX_CTL start_stop]
               ++ repeat_events k [Ev_flush_iq 0; Ev_delay_ms 1])
  /\ count_events event_is_send_ctrl (new_events st st') = 1%nat
  /\ (send_ctrl_pkt_ret X <> 0 ->
      r = -1
      /\ new_events st st'
         = [Ev_flush_iq 0; Ev_send_ctrl_pkt LIO_CMD_RX_CTL start_stop])
  /\ dev st' = dev st /\ data st' = data st.
Proof.
  intros r st'. subst r st'.
  destruct (send_rx_ctrl_cmd_events st start_stop) as [k [E Hk]].
  rewrite E, new_events_log. repeat split.
  - exists k. reflexivity.
  - rewrite count_events_app, count_events_repeat by reflexivity. reflexivity.
  - unfold lio_send_rx_ctrl_cmd.
    destruct (Z.eqb_spec (send_ctrl_pkt_ret X) 0); [contradiction|reflexivity].
  - rewrite (Hk H). unfold repeat_events. cbn [replicate concat].
    apply app_nil_r.
Qed.

End QueueSetup.

Lemma queue_setup_index_out_of_range_witness :
  nb_rx_queues (dev configured_4_4) <= 65535
  /\ nb_tx_queues (dev configured_4_4) <= 65535
  /\ Z.of_nat (length (txpciq (linfo (dev configured_4_4)))) <= 65535
  /\ lio_dev_rx_queue_setup le_host (answering 0xF 0xF 0) configured_4_4 65535 512 2176
     = (- EINVAL, configured_4_4)
  /\ lio_dev_tx_queue_setup le_host (answering 0xF 0xF 0) configured_4_4 65535 512
     = None.
Proof.
  assert (H1 : nb_rx_queues (dev configured_4_4) <= 65535) by (vm_compute; congruence).
  assert (H2 : nb_tx_queues (dev configured_4_4) <= 65535) by (vm_compute; congruence).
  assert (H3 : Z.of_nat (length (txpciq (linfo (dev configured_4_4)))) <= 65535)
    by (vm_compute; congruence).
  pose proof (queue_setup_index_out_of_range le_host (answering 0xF 0xF 0)
                configured_4_4 65535 65535 512 512 2176 H1 H2) as T.
  split; [exact H1|]. split; [exact H2|]. split; [exact H3|].
  split; [exact (proj1 T)|exact (proj2 (proj2 T) H3)].
Defined.

(** C8, as stated: fails. The send is refused, and the call returns with one
    flush followed by one send; nothing is retried. *)
Lemma lio_send_rx_ctrl_cmd_no_retry :
  ~ retries_once_after_flush le_host
      (with_send_ctrl_pkt_ret (-1) (answering 0xF 0xF 0)) (fresh 4 4) 1.
Proof.
  unfold retries_once_after_flush. intros H.
  destruct H as [pre Hpre]; [vm_compute; congruence|].
  match type of Hpre with ?l = _ =>
    assert (E : l = [Ev_flush_iq 0; Ev_send_ctrl_pkt LIO_CMD_RX_CTL 1])
      by (vm_compute; reflexivity)
  end.
  rewrite E in Hpre. apply (f_equal (@length event)) in Hpre.
  rewrite length_app in Hpre. cbn [length] in Hpre. lia.
Qed.

Lemma lio_send_rx_ctrl_cmd_single_send_witness :
  send_ctrl_pkt_ret (with_send_ctrl_pkt_ret (-1) (answering 0xF 0xF 0)) <> 0
  /\ fst (lio_send_rx_ctrl_cmd le_host
            (with_send_ctrl_pkt_ret (-1) (answering 0xF 0xF 0)) (fresh 4 4) 1) = -1.
Proof.
  assert (H : send_ctrl_pkt_ret (with_send_ctrl_pkt_ret (-1) (answering 0xF 0xF 0)) <> 0)
    by (vm_compute; congruence).
  split; [exact H|].
  apply (lio_send_rx_ctrl_cmd_single_send le_host
           (with_send_ctrl_pkt_ret (-1) (answering 0xF 0xF 0)) (fresh 4 4) 1).
  exact H.
Defined.

(** * The link-status poll *)

Section LinkStatus.

Context (P : platform) (X : externals).

(** C5. After a poll that succeeded (command sent, response status zero) the
    cached link-status word is the byte-swapped response word. If that word
    equals the cached one, device and published link are as before; if it
    differs, the cache has changed and lio_dev_link_update has published the
    link derived from the new word. *)
Theorem lio_dev_get_link_status_on_change (st : state) :
  intf_open (dev st) <> 0 ->
  alloc_soft_command_ok X = true ->
  send_soft_command_ret X <> LIO_IQ_SEND_FAILED ->
  ls_status (link_status_response P X) = 0 ->
  let new := rte_cpu_to_be_64 P (ls_link (link_status_response P X)) in
  let st' := lio_dev_get_link_status P X st in
  link (linfo (dev st')) = new
  /\ (new = link (linfo (dev st)) -> dev st' = dev st /\ data st' = data st)
  /\ (new <> link (linfo (dev st)) ->
      dev st' = set_linfo (set_link new (linfo (dev st))) (dev st)
      /\ (publish_succeeds X st = true ->
          link_status (dev_link (data st'))
          = (if link_up_of P new =? 0 then ETH_LINK_DOWN else ETH_LINK_UP)
          /\ link_speed (dev_link (data st'))
             = (if link_up_of P new =? 0 then ETH_SPEED_NUM_NONE
                else if speed_of P new =? LIO_LINK_SPEED_10000
                     then ETH_SPEED_NUM_10G else ETH_SPEED_NUM_NONE))).
Proof.
  intros Hopen Halloc Hsend Hstatus new st'. subst st'.
  unfold lio_dev_get_link_status.
  destruct (Z.eqb_spec (intf_open (dev st)) 0); [contradiction|].
  rewrite Halloc. cbn [negb].
  destruct (Z.eqb_spec (send_soft_command_ret X) LIO_IQ_SEND_FAILED); [contradiction|].
  cbv zeta. fold (link_status_response P X). rewrite Hstatus.
  cbn [Z.eqb negb log dev]. fold new.
  destruct (Z.eqb_spec (link (linfo (dev st))) new) as [Heq|Hne]; cbn [negb].
  - split; [exact Heq|]. split; [intros _; split; reflexivity|].
    intros Hne. congruence.
  - match goal with
    | |- context [lio_dev_link_update P X ?s] => set (st2 := s)
    end.
    assert (Hd : dev (snd (lio_dev_link_update P X st2)) = dev st2)
      by apply link_update_dev.
    cbn [log data dev]. rewrite Hd.
    split; [reflexivity|].
    split; [intros Heq; congruence|].
    intros _. split; [reflexivity|].
    intros Hpub.
    rewrite link_update_published by exact Hpub.
    subst st2. cbn [with_dev dev set_linfo linfo set_link link].
    destruct (link_up_of P new =? 0); [split; reflexivity|].
    destruct (speed_of P new =? LIO_LINK_SPEED_10000); split; reflexivity.
Qed.

(** C6. When the soft command cannot be submitted, or its completion word
    is not set at any test of the bounded polling loop -- the tests after
    0, 1, ..., budget flushes, the budget being (timeout - 1) mod 2^16, and
    the word being the [status] member of the response --
    lio_dev_get_link_status leaves the cached link-status word, the rest of
    the device and the published link as they were, whatever the device
    does after the budget. The function returns no value, and its caller
    lio_sync_link_state_check goes on as after any other tick. *)
Theorem lio_dev_get_link_status_skips (st : state) :
  send_soft_command_ret X = LIO_IQ_SEND_FAILED
  \/ (status_word_is_resp_status X
      /\ forall k, Z.of_nat k <= poll_budget (to_uint16 (LIO_MAX_CMD_TIMEOUT P)) ->
                   status_word (link_status_sc X k) = LIO_COMPLETION_WORD_INIT) ->
  let st' := lio_dev_get_link_status P X st in
  dev st' = dev st /\ data st' = data st
  /\ dev (lio_sync_link_state_check P X st) = dev st
  /\ data (lio_sync_link_state_check P X st) = data st.
Proof.
  intros H st'.
  assert (Hskip : dev st' = dev st /\ data st' = data st).
  { subst st'. unfold lio_dev_get_link_status.
    destruct (intf_open (dev st) =? 0); [tauto|].
    destruct (alloc_soft_command_ok X); cbn [negb]; [|tauto].
    destruct (Z.eqb_spec (send_soft_command_ret X) LIO_IQ_SEND_FAILED) as [Hf|Hs];
      [tauto|].
    destruct H as [Hf|[Halias Hunset]]; [contradiction|].
    assert (Hin : Z.of_nat (link_status_polls P X)
                  <= poll_budget (to_uint16 (LIO_MAX_CMD_TIMEOUT P))).
    { pose proof (poll_bounded
        (fun k => status_word (link_status_sc X k) =? LIO_COMPLETION_WORD_INIT)
        poll_fuel (to_uint16 (LIO_MAX_CMD_TIMEOUT P)) 0
        (poll_fuel_covers (to_uint16 (LIO_MAX_CMD_TIMEOUT P)))) as Hb.
      cbn [Z.of_nat] in Hb. exact Hb. }
    cbv zeta. rewrite <- Halias, (Hunset _ Hin). cbn. tauto. }
  split; [tauto|]. split; [tauto|].
  unfold lio_sync_link_state_check.
  destruct (negb (port_configured (dev st) =? 0)); fold st';
    destruct (negb (intf_open _ =? 0)); cbn [log dev data]; tauto.
Qed.

End LinkStatus.

Lemma lio_dev_get_link_status_on_change_witness :
  intf_open (dev (open_interface configured_4_4)) <> 0
  /\ alloc_soft_command_ok (answering 0xF 0xF 0) = true
  /\ send_soft_command_ret (answering 0xF 0xF 0) <> LIO_IQ_SEND_FAILED
  /\ ls_status (link_status_response le_host (answering 0xF 0xF 0)) = 0
  /\ link (linfo (dev (lio_dev_get_link_status le_host (answering 0xF 0xF 0)
                         (open_interface configured_4_4))))
     = rte_cpu_to_be_64 le_host
         (ls_link (link_status_response le_host (answering 0xF 0xF 0))).
Proof.
  assert (H1 : intf_open (dev (open_interface configured_4_4)) <> 0)
    by (vm_compute; congruence).
  assert (H3 : send_soft_command_ret (answering 0xF 0xF 0) <> LIO_IQ_SEND_FAILED)
    by (vm_compute; congruence).
  assert (H4 : ls_status (link_status_response le_host (answering 0xF 0xF 0)) = 0)
    by (vm_compute; reflexivity).
  repeat (split; [first [exact H1 | exact H3 | exact H4 | reflexivity]|]).
  exact (proj1 (lio_dev_get_link_status_on_change le_host (answering 0xF 0xF 0)
                  (open_interface configured_4_4) H1 eq_refl H3 H4)).
Defined.

Lemma lio_dev_get_link_status_skips_witness :
  (status_word_is_resp_status answering_late
   /\ forall k, Z.of_nat k <= poll_budget (to_uint16 (LIO_MAX_CMD_TIMEOUT le_host)) ->
                status_word (link_status_sc answering_late k)
                = LIO_COMPLETION_WORD_INIT)
  /\ dev (lio_dev_get_link_status le_host answering_late
            (open_interface configured_4_4))
     = dev (open_interface configured_4_4).
Proof.
  assert (H : status_word_is_resp_status answering_late
              /\ forall k, Z.of_nat k
                           <= poll_budget (to_uint16 (LIO_MAX_CMD_TIMEOUT le_host)) ->
                           status_word (link_status_sc answering_late k)
                           = LIO_COMPLETION_WORD_INIT).
  { split.
    - intros k. cbn [answering_late link_status_sc].
      destruct (Z.of_nat k <? 10000); reflexivity.
    - intros k Hk.
      assert (Hb : poll_budget (to_uint16 (LIO_MAX_CMD_TIMEOUT le_host)) = 9999)
        by (vm_compute; reflexivity).
      rewrite Hb in Hk. cbn [answering_late link_status_sc].
      destruct (Z.ltb_spec (Z.of_nat k) 10000) as [_|Hge]; [reflexivity|lia]. }
  split; [exact H|].
  exact (proj1 (lio_dev_get_link_status_skips le_host answering_late
                  (open_interface configured_4_4) (or_intror H))).
Defined.

(** * Interface configuration *)

Section Configure.

Context (P : platform) (X : externals).

(** C1. Once port_configured is set, lio_dev_configure with the queue counts
    already recorded returns 0, and with other counts returns -ENOTSUP; in
    both cases device, ethdev data and trace are exactly as before. *)
Theorem lio_dev_configure_again (st : state) :
  port_configured (dev st) <> 0 ->
  lio_dev_configure P X st
  = (if same_queue_counts st then 0 else - ENOTSUP, st).
Proof.
  intros Hpc. unfold lio_dev_configure, same_queue_counts.
  destruct (Z.eqb_spec (port_configured (dev st)) 0); [contradiction|].
  cbn [negb].
  destruct (nb_rx_queues (dev st) =? data_nb_rx_queues (data st));
    destruct (nb_tx_queues (dev st) =? data_nb_tx_queues (data st)); reflexivity.
Qed.

Lemma nic_config_fail_fst st : fst (nic_config_fail st) = - ENODEV.
Proof. reflexivity. Qed.

Lemma nic_config_fail_port st :
  port_configured (dev (snd (nic_config_fail st))) = port_configured (dev st).
Proof. reflexivity. Qed.

(** C2. If the response to the interface-configuration command carries an
    input-queue or an output-queue mask without a set bit, lio_dev_configure
    returns -ENODEV and port_configured stays 0. *)
Theorem lio_dev_configure_empty_mask (st : state) :
  port_configured (dev st) = 0 ->
  alloc_soft_command_ok X = true ->
  lio_hweight64 (cfg_iqmask (if_cfg_response P X)) = 0
  \/ lio_hweight64 (cfg_oqmask (if_cfg_response P X)) = 0 ->
  fst (lio_dev_configure P X st) = - ENODEV
  /\ port_configured (dev (snd (lio_dev_configure P X st))) = 0.
Proof.
  intros Hpc Halloc Hmask. unfold lio_dev_configure.
  rewrite Hpc, Halloc. cbn [Z.eqb negb].
  destruct (send_soft_command_ret X =? LIO_IQ_SEND_FAILED).
  { split; [reflexivity|]. rewrite nic_config_fail_port. exact Hpc. }
  unfold if_cfg_response in Hmask. cbv zeta.
  destruct (negb (to_int _ =? 0)).
  { split; [reflexivity|]. rewrite nic_config_fail_port. exact Hpc. }
  assert (Hz : (lio_hweight64 (cfg_iqmask (swap_cfg_info P
                    (virtrptr (if_cfg_sc X (if_cfg_polls P X))))) =? 0)
               || (lio_hweight64 (cfg_oqmask (swap_cfg_info P
                    (virtrptr (if_cfg_sc X (if_cfg_polls P X))))) =? 0)
               = true).
  { destruct Hmask as [-> | ->]; [reflexivity | apply orb_true_r]. }
  rewrite Hz. split; [reflexivity|]. rewrite nic_config_fail_port. exact Hpc.
Qed.

Ltac events_of_call :=
  unfold new_events, nic_config_fail, lio_free_instr_queue0, log, with_dev, with_data;
  cbn [trace dev data snd fst];
  rewrite <- ?app_assoc; rewrite drop_app_length.

Ltac count_up :=
  unfold outstanding_sc, outstanding_arrays;
  rewrite ?count_events_app, ?count_events_repeat by reflexivity;
  reflexivity.

(** C3, as the code has it. On a device not yet configured every failing
    path of lio_dev_configure leaves port_configured at 0 and returns -ENODEV
    or -ENOMEM. The -ENODEV paths (send refused, non-zero status, empty mask)
    free the soft command and instruction queue 0. The -ENOMEM paths
    (allocation failures) leave no bookkeeping array behind: a glist_lock
    array obtained before glist_head could not be allocated is freed and the
    pointer reset to NULL. *)
Theorem lio_dev_configure_failure_paths (st : state) :
  port_configured (dev st) = 0 ->
  fst (lio_dev_configure P X st) <> 0 ->
  let r := fst (lio_dev_configure P X st) in
  let st' := snd (lio_dev_configure P X st) in
  let evs := new_events st st' in
  port_configured (dev st') = 0
  /\ (r = - ENODEV \/ r = - ENOMEM)
  /\ (r = - ENODEV ->
      outstanding_sc evs = 0
      /\ count_events event_is_free_iq0 evs = 1%nat
      /\ outstanding_arrays evs = 0)
  /\ (r = - ENOMEM ->
      outstanding_arrays evs = 0
      /\ (alloc_soft_command_ok X = true -> glist_lock (dev st') = None)).
Proof.
  intros Hpc. unfold lio_dev_configure.
  rewrite Hpc. cbn [Z.eqb negb].
  destruct (alloc_soft_command_ok X) eqn:Halloc; cbn [negb].
  2:{ intros _. cbv zeta. cbn [fst snd].
      split; [exact Hpc|]. split; [right; reflexivity|].
      split; [intros H; discriminate H|]. intros _.
      split; [events_of_call; reflexivity | intros H; discriminate H]. }
  destruct (send_soft_command_ret X =? LIO_IQ_SEND_FAILED).
  { intros _. cbv zeta. rewrite nic_config_fail_fst.
    split; [exact Hpc|]. split; [left; reflexivity|].
    split; [|intros H; discriminate H]. intros _.
    events_of_call. repeat split; count_up. }
  cbv zeta.
  destruct (negb (to_int _ =? 0)).
  { intros _. rewrite nic_config_fail_fst.
    split; [exact Hpc|]. split; [left; reflexivity|].
    split; [|intros H; discriminate H]. intros _.
    events_of_call. repeat split; count_up. }
  destruct (_ || _).
  { intros _. cbv zeta. rewrite nic_config_fail_fst.
    split; [exact Hpc|]. split; [left; reflexivity|].
    split; [|intros H; discriminate H]. intros _.
    events_of_call. repeat split; count_up. }
  destruct (zmalloc_lock_ok X) eqn:Hlock; cbn [negb].
  2:{ intros _. cbv zeta. cbn [fst snd].
      split; [exact Hpc|]. split; [right; reflexivity|].
      split; [intros H; discriminate H|]. intros _.
      split; [events_of_call; count_up | reflexivity]. }
  destruct (zmalloc_head_ok X) eqn:Hhead; cbn [negb].
  2:{ intros _. cbv zeta. cbn [fst snd].
      split; [exact Hpc|]. split; [right; reflexivity|].
      split; [intros H; discriminate H|]. intros _.
      split; [events_of_call; count_up | reflexivity]. }
  cbn [fst]. intros H. contradiction H. reflexivity.
Qed.

(** C4. lio_hweight64 returns the number of set bits of every 64-bit word
    (2 for the mask 0b101). A successful lio_dev_configure records lio_hweight64 of the returned
    output and input masks as the numbers of RX and TX queues and allocates
    glist_lock and glist_head with one element per granted input queue,
    whatever number of queues was asked for. *)
Theorem lio_dev_configure_granted_counts (st : state) (w : Z) :
  0 <= w < 2 ^ 64 ->
  port_configured (dev st) = 0 ->
  fst (lio_dev_configure P X st) = 0 ->
  let st' := snd (lio_dev_configure P X st) in
  let granted_iq := lio_hweight64 (cfg_iqmask (if_cfg_response P X)) in
  let granted_oq := lio_hweight64 (cfg_oqmask (if_cfg_response P X)) in
  lio_hweight64 w = bitcount 64 w
  /\ lio_hweight64 5 = 2
  /\ num_txpciq (linfo (dev st')) = granted_iq
  /\ num_rxpciq (linfo (dev st')) = granted_oq
  /\ glist_lock (dev st') = Some granted_iq
  /\ glist_head (dev st') = Some granted_iq
  /\ count_events (fun ev => match ev with
                             | Ev_zmalloc n true => n =? granted_iq
                             | _ => false
                             end) (new_events st st') = 2%nat
  /\ port_configured (dev st') = 1.
Proof.
  intros Hw Hpc Hret st' granted_iq granted_oq.
  split; [apply lio_hweight64_bitcount, Hw|]. split; [reflexivity|].
  revert Hret. subst st' granted_iq granted_oq.
  unfold lio_dev_configure, if_cfg_response.
  rewrite Hpc. cbn [Z.eqb negb].
  destruct (alloc_soft_command_ok X); cbn [negb]; [|intros H; discriminate H].
  destruct (send_soft_command_ret X =? LIO_IQ_SEND_FAILED);
    [intros H; discriminate H|].
  cbv zeta.
  destruct (negb (to_int _ =? 0)); [intros H; discriminate H|].
  destruct (_ || _); [intros H; discriminate H|].
  destruct (zmalloc_lock_ok X); cbn [negb]; [|intros H; discriminate H].
  destruct (zmalloc_head_ok X); cbn [negb]; [|intros H; discriminate H].
  intros _. cbn [snd].
  unfold lio_free_instr_queue0.
  cbn [log with_dev dev set_instr_queue set_port_configured linfo glist_lock
       glist_head port_configured].
  rewrite !link_update_dev.
  cbn [with_dev dev set_glist linfo glist_lock glist_head log with_data
       set_linfo num_txpciq num_rxpciq].
  repeat (split; [reflexivity|]). split; [|reflexivity].
  unfold new_events, log, with_dev, with_data. cbn [trace dev data].
  rewrite link_update_trace. cbn [trace].
  rewrite <- ?app_assoc. rewrite drop_app_length.
  rewrite ?count_events_app, ?count_events_repeat by reflexivity.
  unfold count_events. cbn [List.filter]. rewrite Z.eqb_refl. reflexivity.
Qed.

End Configure.

Lemma lio_dev_configure_again_witness :
  port_configured (dev (request 2 2 configured_4_4)) <> 0
  /\ lio_dev_configure le_host (answering 0xF 0xF 0) (request 2 2 configured_4_4)
     = (if same_queue_counts (request 2 2 configured_4_4) then 0 else - ENOTSUP,
        request 2 2 configured_4_4).
Proof.
  assert (H : port_configured (dev (request 2 2 configured_4_4)) <> 0)
    by (vm_compute; congruence).
  split; [exact H|].
  exact (lio_dev_configure_again le_host (answering 0xF 0xF 0)
           (request 2 2 configured_4_4) H).
Defined.

Lemma lio_dev_configure_empty_mask_witness :
  port_configured (dev (fresh 4 4)) = 0
  /\ alloc_soft_command_ok (answering 0 0xF 0) = true
  /\ lio_hweight64 (cfg_iqmask (if_cfg_response le_host (answering 0 0xF 0))) = 0
  /\ fst (lio_dev_configure le_host (answering 0 0xF 0) (fresh 4 4)) = - ENODEV.
Proof.
  assert (H : lio_hweight64 (cfg_iqmask (if_cfg_response le_host (answering 0 0xF 0)))
              = 0) by (vm_compute; reflexivity).
  split; [reflexivity|]. split; [reflexivity|]. split; [exact H|].
  exact (proj1 (lio_dev_configure_empty_mask le_host (answering 0 0xF 0) (fresh 4 4)
                  eq_refl eq_refl (or_introl H))).
Defined.

(** C3, as stated: fails. With glist_head not allocatable the call returns
    -ENOMEM, not the configuration-failed code. *)
Lemma lio_dev_configure_enomem_not_released :
  ~ failure_releases_everything le_host
      (with_zmalloc true false (answering 0xF 0xF 0)) (fresh 4 4).
Proof.
  unfold failure_releases_everything. intros H.
  destruct H as [H _]; [vm_compute; congruence|].
  vm_compute in H. congruence.
Qed.

Lemma lio_dev_configure_failure_paths_witness :
  port_configured (dev (fresh 4 4)) = 0
  /\ fst (lio_dev_configure le_host (with_zmalloc true false (answering 0xF 0xF 0))
            (fresh 4 4)) <> 0
  /\ port_configured
       (dev (snd (lio_dev_configure le_host
                    (with_zmalloc true false (answering 0xF 0xF 0)) (fresh 4 4)))) = 0.
Proof.
  assert (H : fst (lio_dev_configure le_host
                     (with_zmalloc true false (answering 0xF 0xF 0)) (fresh 4 4)) <> 0)
    by (vm_compute; congruence).
  split; [reflexivity|]. split; [exact H|].
  exact (proj1 (lio_dev_configure_failure_paths le_host
                  (with_zmalloc true false (answering 0xF 0xF 0)) (fresh 4 4)
                  eq_refl H)).
Defined.

Lemma lio_dev_configure_granted_counts_witness :
  0 <= 5 < 2 ^ 64
  /\ port_configured (dev (fresh 4 4)) = 0
  /\ fst (lio_dev_configure le_host (answering 5 5 0) (fresh 4 4)) = 0
  /\ lio_hweight64 5 = bitcount 64 5
  /\ glist_lock (dev (snd (lio_dev_configure le_host (answering 5 5 0) (fresh 4 4))))
     = Some (lio_hweight64 (cfg_iqmask (if_cfg_response le_host (answering 5 5 0)))).
Proof.
  assert (Hw : 0 <= 5 < 2 ^ 64) by (split; [lia | reflexivity]).
  assert (Hr : fst (lio_dev_configure le_host (answering 5 5 0) (fresh 4 4)) = 0)
    by (vm_compute; reflexivity).
  pose proof (lio_dev_configure_granted_counts le_host (answering 5 5 0) (fresh 4 4) 5
                Hw eq_refl Hr) as T.
  cbv zeta in T.
  split; [exact Hw|]. split; [reflexivity|]. split; [exact Hr|].
  split; [exact (proj1 T)|]. exact (proj1 (proj2 (proj2 (proj2 (proj2 T))))).
Defined.

(** * The scenarios of the specification *)

Example hweight_5 : lio_hweight64 5 = 2.
Proof. reflexivity. Qed.

(** Four queues asked for, mask 0b101 granted: two queues, bookkeeping for
    two. *)
Example granted_two_of_four :
  let r := lio_dev_configure le_host (answering 5 5 0) (fresh 4 4) in
  fst r = 0
  /\ nb_tx_queues (dev (snd r)) = 4
  /\ num_txpciq (linfo (dev (snd r))) = 2
  /\ num_rxpciq (linfo (dev (snd r))) = 2
  /\ glist_lock (dev (snd r)) = Some 2
  /\ glist_head (dev (snd r)) = Some 2.
Proof. vm_compute. repeat split; reflexivity. Qed.

(** configure(4, 4) with mask 0xF granted both ways, then configure(4, 4)
    again, then configure(2, 2). *)
Example configure_4_4_then_again :
  let X := answering 0xF 0xF (link_word 1 10000) in
  fst (lio_dev_configure le_host X (fresh 4 4)) = 0
  /\ num_rxpciq (linfo (dev configured_4_4)) = 4
  /\ num_txpciq (linfo (dev configured_4_4)) = 4
  /\ port_configured (dev configured_4_4) = 1
  /\ mac_addrs (data configured_4_4) = [0x00; 0x11; 0x22; 0x33; 0x44; 0x55]
  /\ lio_dev_configure le_host X configured_4_4 = (0, configured_4_4)
  /\ lio_dev_configure le_host X (request 2 2 configured_4_4)
     = (- ENOTSUP, request 2 2 configured_4_4).
Proof. vm_compute. repeat split; reflexivity. Qed.

(** A link-status tick on a device whose answer differs from the cached
    word, and one on a device that never answers. *)
Example tick_sees_link_down :
  let st := open_interface configured_4_4 in
  let st' := lio_dev_get_link_status le_host (answering 0xF 0xF 0) st in
  dev_link (data st) = {| link_speed := 10000; link_duplex := 1; link_status := 1 |}
  /\ link (linfo (dev st')) = 0
  /\ dev_link (data st') = {| link_speed := 0; link_duplex := 0; link_status := 0 |}.
Proof. vm_compute. repeat split; reflexivity. Qed.

Example tick_times_out :
  let st := open_interface configured_4_4 in
  let st' := lio_dev_get_link_status le_host silent st in
  Z.of_nat (link_status_polls le_host silent) = 9999
  /\ dev st' = dev st /\ data st' = data st.
Proof. vm_compute. repeat split; reflexivity. Qed.

(** lio_dev_get_link_status does not look at [timeout] after its loop. Were
    the completion word kept apart from the response, a time-out over a
    zeroed response area would be taken for an answer; the layout chosen by
    lio_alloc_soft_command, [status_word_is_resp_status], excludes this
    input. *)
Example tick_with_detached_word :
  let st := open_interface configured_4_4 in
  let st' := lio_dev_get_link_status le_host detached_word st in
  ~ status_word_is_resp_status detached_word
  /\ link (linfo (dev st)) = link_word 1 10000
  /\ link (linfo (dev st')) = 0
  /\ link_status (dev_link (data st')) = ETH_LINK_DOWN.
Proof.
  split; [intros H; specialize (H 0%nat); vm_compute in H; congruence|].
  vm_compute. repeat split; reflexivity.
Qed.

(** When glist_head cannot be allocated, glist_lock is given back, but the
    soft command stays allocated and instruction queue 0 is kept. *)
Example glist_head_failure :
  let r := lio_dev_configure le_host (with_zmalloc true false (answering 0xF 0xF 0))
                             (fresh 4 4) in
  fst r = - ENOMEM
  /\ glist_lock (dev (snd r)) = None
  /\ outstanding_arrays (trace (snd r)) = 0
  /\ outstanding_sc (trace (snd r)) = 1
  /\ count_events event_is_free_iq0 (trace (snd r)) = 0%nat.
Proof. vm_compute. repeat split; reflexivity. Qed.

(** Another thread stores to dev_link between the read and the
    compare-and-set: the publication fails and -1 is returned. *)
Example publish_loses_race :
  let X := {| alloc_soft_command_ok := true; sc_iq_no := 0;
              send_soft_command_ret := 0;
              if_cfg_sc := if_cfg_sc silent;
              link_status_sc := link_status_sc silent;
              zmalloc_lock_ok := true; zmalloc_head_ok := true;
              dev_link_race :=
                Some {| link_speed := 0; link_duplex := 0; link_status := 0 |};
              send_ctrl_pkt_ret := 0; ctrl_cmd_cond := ctrl_cmd_cond silent;
              setup_droq := setup_droq silent; setup_iq := setup_iq silent;
              setup_sglists_ret := 0;
              delete_instruction_queue := delete_instruction_queue silent;
              stray_word := 0 |} in
  publish_succeeds X configured_4_4 = false
  /\ fst (lio_dev_link_update le_host X configured_4_4) = -1.
Proof. vm_compute. split; reflexivity. Qed.

(** The RX control command on a device that never sets [cond]. *)
Example rx_ctrl_cmd_times_out :
  fst (lio_send_rx_ctrl_cmd le_host silent (fresh 4 4) 1) = -1.
Proof. vm_compute. reflexivity. Qed.

(** * Byte order and population count *)

Section ByteOrder.

Lemma bitcount_bounds n w : 0 <= bitcount n w <= Z.of_nat n.
Proof.
  induction n as [|n IH]; [simpl; lia|].
  cbn [bitcount]. destruct (Z.testbit w (Z.of_nat n)); cbn [Z.b2z]; lia.
Qed.

Lemma bitcount_zero n w i :
  bitcount n w = 0 -> (i < n)%nat -> Z.testbit w (Z.of_nat i) = false.
Proof.
  induction n as [|n IH]; intros H Hi; [lia|].
  cbn [bitcount] in H. pose proof (bitcount_bounds n w) as Hb.
  destruct (Z.testbit w (Z.of_nat n)) eqn:E; cbn [Z.b2z] in H; [lia|].
  destruct (Nat.eq_dec i n) as [->|Hne]; [exact E|]. apply IH; lia.
Qed.

Lemma testbit_255 m : 0 <= m -> Z.testbit 255 m = (m <? 8).
Proof.
  intros Hm. change 255 with (Z.ones 8).
  destruct (Z.ltb_spec m 8).
  - apply Z.ones_spec_low. lia.
  - apply Z.ones_spec_high. lia.
Qed.

Lemma byte_at_testbit v j n :
  0 <= j -> 0 <= n ->
  Z.testbit (byte_at v j) n = Z.testbit v (n + 8 * j) && (n <? 8).
Proof.
  intros Hj Hn. unfold byte_at.
  rewrite Z.land_spec, Z.shiftr_spec, testbit_255 by lia. reflexivity.
Qed.

Lemma shifted_byte_testbit v j s n :
  0 <= j -> 0 <= s -> 0 <= n ->
  Z.testbit (Z.shiftl (byte_at v j) s) n
  = (s <=? n) && (n <? s + 8) && Z.testbit v (n - s + 8 * j).
Proof.
  intros Hj Hs Hn. rewrite Z.shiftl_spec by lia.
  destruct (Z.leb_spec s n) as [Hle|Hlt].
  - rewrite byte_at_testbit by lia.
    destruct (Z.ltb_spec (n - s) 8); destruct (Z.ltb_spec n (s + 8)); try lia;
      cbn [andb]; rewrite ?andb_true_r, ?andb_false_r; reflexivity.
  - rewrite Z.testbit_neg_r by lia. reflexivity.
Qed.

(** Bit [r] of byte [K] of [bswap64 v] is bit [r] of byte [7 - K] of [v]. *)
Lemma bswap64_testbit v K r :
  0 <= K < 8 -> 0 <= r < 8 ->
  Z.testbit (bswap64 v) (8 * K + r) = Z.testbit v (8 * (7 - K) + r).
Proof.
  intros HK Hr. unfold bswap64.
  rewrite !Z.lor_spec, !shifted_byte_testbit by lia.
  rewrite byte_at_testbit by lia.
  assert (HKc : K = 0 \/ K = 1 \/ K = 2 \/ K = 3 \/ K = 4 \/ K = 5 \/ K = 6 \/ K = 7)
    by lia.
  repeat match goal with
         | |- context [?a <=? ?b] => destruct (Z.leb_spec a b); try lia
         | |- context [?a <? ?b] => destruct (Z.ltb_spec a b); try lia
         end;
    cbn [andb orb]; rewrite ?andb_false_r, ?andb_true_r; cbn [andb orb];
    rewrite ?orb_false_r; f_equal; lia.
Qed.

Lemma bswap64_high v n : 64 <= n -> Z.testbit (bswap64 v) n = false.
Proof.
  intros Hn. unfold bswap64.
  rewrite !Z.lor_spec, !shifted_byte_testbit by lia.
  rewrite byte_at_testbit by lia.
  repeat match goal with
         | |- context [?a <? ?b] => destruct (Z.ltb_spec a b); try lia
         end;
    rewrite ?andb_false_r; reflexivity.
Qed.

Lemma bswap64_range v : 0 <= bswap64 v < 2 ^ 64.
Proof.
  assert (H0 : 0 <= bswap64 v).
  { apply Z.bits_iff_nonneg_ex. exists 64. intros m Hm.
    apply bswap64_high. lia. }
  split; [exact H0|].
  destruct (Z.eq_dec (bswap64 v) 0) as [->|Hnz]; [reflexivity|].
  apply Z.log2_lt_pow2; [lia|].
  destruct (Z.lt_ge_cases (Z.log2 (bswap64 v)) 64) as [Hlt|Hge]; [exact Hlt|].
  pose proof (Z.bit_log2 (bswap64 v) ltac:(lia)) as Hb.
  rewrite bswap64_high in Hb by lia. discriminate Hb.
Qed.

Lemma byte_at_bswap64 v j :
  0 <= j < 8 -> byte_at (bswap64 v) j = byte_at v (7 - j).
Proof.
  intros Hj. apply Z.bits_inj'. intros n Hn.
  rewrite !byte_at_testbit by lia.
  destruct (Z.ltb_spec n 8); [|rewrite !andb_false_r; reflexivity].
  rewrite !andb_true_r.
  replace (n + 8 * j) with (8 * j + n) by lia.
  rewrite bswap64_testbit by lia. f_equal. lia.
Qed.

Lemma word_testbit_high w n : 0 <= w < 2 ^ 64 -> 64 <= n -> Z.testbit w n = false.
Proof.
  intros Hw Hn. apply (Hweight.small_testbit w 64 n); lia.
Qed.

(** Swapping twice gives the word back. *)
Lemma bswap64_involutive w : 0 <= w < 2 ^ 64 -> bswap64 (bswap64 w) = w.
Proof.
  intros Hw. apply Z.bits_inj'. intros n Hn.
  destruct (Z.lt_ge_cases n 64) as [Hlt|Hge].
  - replace n with (8 * (n / 8) + n mod 8) by (Z.div_mod_to_equations; lia).
    assert (0 <= n / 8 < 8) by (Z.div_mod_to_equations; lia).
    assert (0 <= n mod 8 < 8) by (Z.div_mod_to_equations; lia).
    rewrite !bswap64_testbit by lia. f_equal. lia.
  - rewrite bswap64_high, word_testbit_high by lia. reflexivity.
Qed.

End ByteOrder.

Section HweightMore.

Import Swar.

Lemma bsum_byte_sum f n v k :
  0 <= k -> bsum f n (Z.shiftr v (8 * k)) = byte_sum f v k n.
Proof.
  revert k. induction n as [|n IH]; intros k Hk; [reflexivity|].
  cbn [bsum byte_sum]. f_equal.
  - f_equal. unfold byte_at. change 255 with (Z.ones 8).
    rewrite Z.land_ones by lia. reflexivity.
  - rewrite <- IH by lia. f_equal.
    change 256 with (2 ^ 8). rewrite <- Z.shiftr_div_pow2 by lia.
    rewrite Z.shiftr_shiftr by lia. f_equal. lia.
Qed.

Lemma bitcount_byte_sum v : bitcount 64 v = byte_sum (bitcount 8) v 0 8.
Proof.
  change 64%nat with (8 * 8)%nat. rewrite Hweight.bitcount_bytes.
  rewrite <- (bsum_byte_sum _ 8 v 0) by lia. rewrite Z.shiftr_0_r. reflexivity.
Qed.

Lemma bitcount_bswap64 v : bitcount 64 (bswap64 v) = bitcount 64 v.
Proof.
  rewrite !bitcount_byte_sum. cbn [byte_sum].
  repeat match goal with
         | |- context [?a + 1] =>
             let b := eval vm_compute in (a + 1) in change (a + 1) with b
         end.
  rewrite !byte_at_bswap64 by lia.
  repeat match goal with
         | |- context [7 - ?a] =>
             let b := eval vm_compute in (7 - a) in change (7 - a) with b
         end.
  lia.
Qed.

Lemma hweight_bounds_zero (w : Z) :
  0 <= w < 2 ^ 64 ->
  0 <= lio_hweight64 w <= 64 /\ (lio_hweight64 w = 0 <-> w = 0).
Proof.
  intros Hw. rewrite lio_hweight64_bitcount by exact Hw.
  split; [exact (bitcount_bounds 64 w)|]. split.
  - intros Hz. apply Z.bits_inj'. intros n Hn. rewrite Z.bits_0.
    destruct (Z.lt_ge_cases n 64) as [Hlt|Hge].
    + rewrite <- (Z2Nat.id n Hn). apply (bitcount_zero 64 w); [exact Hz|lia].
    + apply word_testbit_high; assumption.
  - intros ->. reflexivity.
Qed.

(** The population count does not see the byte order. *)
Lemma hweight_bswap64 (w : Z) :
  0 <= w < 2 ^ 64 -> lio_hweight64 (bswap64 w) = lio_hweight64 w.
Proof.
  intros Hw.
  rewrite (lio_hweight64_bitcount (bswap64 w)) by apply bswap64_range.
  rewrite (lio_hweight64_bitcount w) by exact Hw.
  apply bitcount_bswap64.
Qed.

(** X1. On 64-bit words lio_hweight64 lies between 0 and 64 and is 0 exactly
    for the word 0: the "bad mask" test of lio_dev_configure rejects the
    empty mask and nothing else. *)
Theorem lio_hweight64_zero_iff (w : Z) :
  0 <= w < 2 ^ 64 ->
  0 <= lio_hweight64 w <= 64 /\ (lio_hweight64 w = 0 <-> w = 0).
Proof. exact (hweight_bounds_zero w). Qed.

End HweightMore.

Lemma lio_hweight64_zero_iff_witness :
  0 <= 0xF0 < 2 ^ 64 /\ 0 <= lio_hweight64 0xF0 <= 64.
Proof.
  assert (H : 0 <= 0xF0 < 2 ^ 64) by (split; [lia|reflexivity]).
  split; [exact H|]. exact (proj1 (lio_hweight64_zero_iff 0xF0 H)).
Defined.

(** * More on lio_dev_configure *)

Section ConfigureMore.

Context (P : platform) (X : externals).

Lemma atomic_write_data st src :
  exists l, data (snd (lio_dev_atomic_write_link_status X st src))
            = set_dev_link l (data st).
Proof.
  unfold lio_dev_atomic_write_link_status.
  destruct (rte_eth_link_eqb _ _); eexists; reflexivity.
Qed.

Lemma link_update_data st :
  exists l, data (snd (lio_dev_link_update P X st)) = set_dev_link l (data st).
Proof. destruct (link_update_snd P X st) as [l ->]. apply atomic_write_data. Qed.

(** The first configuration, when it returns 0: what the externals must have
    answered, and the device, the ethdev data and the calls it leaves. *)
Lemma configure_first_success st :
  port_configured (dev st) = 0 ->
  fst (lio_dev_configure P X st) = 0 ->
  let resp := if_cfg_response P X in
  let niq := lio_hweight64 (cfg_iqmask resp) in
  let noq := lio_hweight64 (cfg_oqmask resp) in
  let st' := snd (lio_dev_configure P X st) in
  (alloc_soft_command_ok X = true
   /\ send_soft_command_ret X <> LIO_IQ_SEND_FAILED
   /\ to_int (cfg_status resp) = 0
   /\ niq <> 0 /\ noq <> 0
   /\ zmalloc_lock_ok X = true /\ zmalloc_head_ok X = true)
  /\ dev st'
     = {| port_configured := 1;
          intf_open := intf_open (dev st);
          nb_rx_queues := data_nb_rx_queues (data st);
          nb_tx_queues := data_nb_tx_queues (data st);
          pf_num := pf_num (dev st);
          linfo :=
            {| link := cfg_link resp;
               hw_addr := rte_cpu_to_be_64 P (cfg_hw_addr resp);
               gmxport := gmxport_of P (cfg_gmx_word resp);
               num_rxpciq := noq;
               num_txpciq := niq;
               rxpciq := copy_words X noq (cfg_rxpciq resp) (rxpciq (linfo (dev st)));
               txpciq := copy_words X niq (cfg_txpciq resp) (txpciq (linfo (dev st))) |};
          glist_lock := Some niq;
          glist_head := Some niq;
          droq := droq (dev st);
          instr_queue := array_set (instr_queue (dev st)) 0 None |}
  /\ (exists l,
        data st'
        = set_dev_link l
            (set_mac_addrs
               (map (fun i => mem_byte P (rte_cpu_to_be_64 P (cfg_hw_addr resp))
                                       (2 + Z.of_nat i))
                    (seq 0 ETHER_ADDR_LEN))
               (data st)))
  /\ new_events st st'
     = [Ev_alloc_soft_command true;
        Ev_prepare_soft_command LIO_OPCODE_IF_CFG
          (Some {| cfg_num_iqueues := data_nb_tx_queues (data st);
                   cfg_num_oqueues := data_nb_rx_queues (data st);
                   cfg_base_queue := 0;
                   cfg_gmx_port_id := pf_num (dev st) |});
        Ev_send_soft_command (LIO_MAX_CMD_TIMEOUT P / 1000)]
       ++ repeat_events (if_cfg_polls P X)
            [Ev_flush_iq (sc_iq_no X); Ev_process_ordered_list; Ev_delay_ms 1]
       ++ [Ev_zmalloc niq true; Ev_zmalloc niq true; Ev_free_soft_command;
           Ev_disable_io_queues; Ev_setup_device_regs; Ev_free_instr_queue0].
Proof.
  intros Hpc. unfold if_cfg_response, lio_dev_configure.
  rewrite Hpc. cbn [Z.eqb negb].
  destruct (alloc_soft_command_ok X); cbn [negb]; [|intros H; discriminate H].
  destruct (Z.eqb_spec (send_soft_command_ret X) LIO_IQ_SEND_FAILED) as [|Hsend];
    [intros H; discriminate H|].
  cbv zeta.
  destruct (Z.eqb_spec (to_int (cfg_status (virtrptr (if_cfg_sc X (if_cfg_polls P X))))) 0)
    as [Hstatus|]; cbn [negb]; [|intros H; discriminate H].
  destruct (Z.eqb_spec (lio_hweight64
              (cfg_iqmask (swap_cfg_info P (virtrptr (if_cfg_sc X (if_cfg_polls P X)))))) 0)
    as [|Hiq]; cbn [orb]; [intros H; discriminate H|].
  destruct (Z.eqb_spec (lio_hweight64
              (cfg_oqmask (swap_cfg_info P (virtrptr (if_cfg_sc X (if_cfg_polls P X)))))) 0)
    as [|Hoq]; [intros H; discriminate H|].
  destruct (zmalloc_lock_ok X); cbn [negb]; [|intros H; discriminate H].
  destruct (zmalloc_head_ok X); cbn [negb]; [|intros H; discriminate H].
  intros _. cbn [snd].
  split; [repeat split; assumption|].
  unfold lio_free_instr_queue0.
  match goal with
  | |- context [lio_dev_link_update P X ?s] => set (st5 := s)
  end.
  pose proof (link_update_dev P X st5) as Hd.
  pose proof (link_update_trace P X st5) as Ht.
  destruct (link_update_data st5) as [l Hl].
  split; [|split].
  - cbn [log with_dev dev]. rewrite Hd. reflexivity.
  - exists l. cbn [log with_dev data]. rewrite Hl. reflexivity.
  - unfold new_events. cbn [log with_dev trace]. rewrite Ht.
    subst st5. cbn [log with_dev with_data trace].
    rewrite <- !app_assoc. rewrite drop_app_length. cbn [app]. reflexivity.
Qed.

Lemma hweight_host_order w :
  0 <= w < 2 ^ 64 -> lio_hweight64 (rte_cpu_to_be_64 P w) = bitcount 64 w.
Proof.
  intros Hw. unfold rte_cpu_to_be_64. destruct (host_big_endian P).
  - apply lio_hweight64_bitcount, Hw.
  - rewrite hweight_bswap64 by exact Hw. apply lio_hweight64_bitcount, Hw.
Qed.

(** X2. After a successful first lio_dev_configure the recorded numbers of
    TX and RX queues are the numbers of set bits of the input and output
    masks as they lie in the response, whatever the byte order of the host,
    and each is between 1 and 64. *)
Theorem lio_dev_configure_counts_of_raw_masks (st : state) :
  port_configured (dev st) = 0 ->
  fst (lio_dev_configure P X st) = 0 ->
  let raw := virtrptr (if_cfg_sc X (if_cfg_polls P X)) in
  0 <= cfg_iqmask raw < 2 ^ 64 ->
  0 <= cfg_oqmask raw < 2 ^ 64 ->
  let li := linfo (dev (snd (lio_dev_configure P X st))) in
  num_txpciq li = bitcount 64 (cfg_iqmask raw)
  /\ num_rxpciq li = bitcount 64 (cfg_oqmask raw)
  /\ 1 <= num_txpciq li <= 64
  /\ 1 <= num_rxpciq li <= 64.
Proof.
  intros Hpc Hret raw Hiq Hoq li.
  destruct (configure_first_success st Hpc Hret) as (Hx & Hdev & _).
  destruct Hx as (_ & _ & _ & Hniq & Hnoq & _).
  subst li. rewrite Hdev. cbn [linfo num_txpciq num_rxpciq].
  unfold if_cfg_response in Hniq, Hnoq |- *.
  cbn [swap_cfg_info cfg_iqmask cfg_oqmask] in Hniq, Hnoq |- *.
  fold raw in Hniq, Hnoq |- *.
  rewrite (hweight_host_order (cfg_iqmask raw) Hiq) in Hniq |- *.
  rewrite (hweight_host_order (cfg_oqmask raw) Hoq) in Hnoq |- *.
  pose proof (bitcount_bounds 64 (cfg_iqmask raw)).
  pose proof (bitcount_bounds 64 (cfg_oqmask raw)).
  repeat split; lia.
Qed.

Lemma mem_byte_host_order N j :
  0 <= j < 8 -> mem_byte P (rte_cpu_to_be_64 P N) j = byte_at N (7 - j).
Proof.
  intros Hj. unfold mem_byte, rte_cpu_to_be_64.
  destruct (host_big_endian P); [reflexivity|]. apply byte_at_bswap64, Hj.
Qed.

(** X3. After a successful first lio_dev_configure the permanent MAC address
    is the low 48 bits of the hardware-address word of the response, most
    significant byte first, on little- and big-endian hosts alike; and
    linfo.hw_addr, swapped a second time, holds that word as it lay in the
    response. *)
Theorem lio_dev_configure_mac_address (st : state) :
  port_configured (dev st) = 0 ->
  fst (lio_dev_configure P X st) = 0 ->
  let raw := cfg_hw_addr (virtrptr (if_cfg_sc X (if_cfg_polls P X))) in
  0 <= raw < 2 ^ 64 ->
  let N := rte_cpu_to_be_64 P raw in
  let st' := snd (lio_dev_configure P X st) in
  mac_addrs (data st')
  = [byte_at N 5; byte_at N 4; byte_at N 3; byte_at N 2; byte_at N 1; byte_at N 0]
  /\ hw_addr (linfo (dev st')) = raw.
Proof.
  intros Hpc Hret raw Hraw N st'.
  destruct (configure_first_success st Hpc Hret) as (_ & Hdev & [l Hdata] & _).
  subst st'. rewrite Hdev, Hdata. cbn [linfo hw_addr set_dev_link set_mac_addrs mac_addrs].
  unfold if_cfg_response. cbn [swap_cfg_info cfg_hw_addr]. fold raw. fold N.
  split.
  - unfold ETHER_ADDR_LEN. cbn [seq map Z.of_nat Pos.of_succ_nat Pos.succ].
    rewrite !mem_byte_host_order by lia. reflexivity.
  - subst N. unfold rte_cpu_to_be_64. destruct (host_big_endian P); [reflexivity|].
    apply bswap64_involutive, Hraw.
Qed.

Lemma events_tail (a r : list event) z1 z2 tail :
  a ++ r ++ z1 :: z2 :: tail = (a ++ r ++ [z1; z2]) ++ tail.
Proof. rewrite <- !app_assoc. reflexivity. Qed.

(** X4. A first lio_dev_configure that returns 0 has set port_configured,
    recorded the requested queue counts, freed its soft command, and ended
    by disabling the I/O queues, resetting the registers and freeing
    instruction queue 0, whose slot is cleared; the two bookkeeping arrays are
    the only allocations it keeps. *)
Theorem lio_dev_configure_success_state (st : state) :
  port_configured (dev st) = 0 ->
  fst (lio_dev_configure P X st) = 0 ->
  let st' := snd (lio_dev_configure P X st) in
  let evs := new_events st st' in
  port_configured (dev st') = 1
  /\ nb_rx_queues (dev st') = data_nb_rx_queues (data st)
  /\ nb_tx_queues (dev st') = data_nb_tx_queues (data st)
  /\ instr_queue (dev st') = array_set (instr_queue (dev st)) 0 None
  /\ outstanding_sc evs = 0
  /\ outstanding_arrays evs = 2
  /\ count_events event_is_free_iq0 evs = 1%nat
  /\ (exists pre, evs = pre ++ [Ev_free_soft_command; Ev_disable_io_queues;
                               Ev_setup_device_regs; Ev_free_instr_queue0]).
Proof.
  intros Hpc Hret st' evs.
  destruct (configure_first_success st Hpc Hret) as (_ & Hdev & _ & Hev).
  subst evs st'. rewrite Hdev, Hev.
  cbn [port_configured nb_rx_queues nb_tx_queues instr_queue].
  repeat (split; [reflexivity|]).
  split; [|split; [|split]].
  - unfold outstanding_sc.
    rewrite !count_events_app, !count_events_repeat by reflexivity. reflexivity.
  - unfold outstanding_arrays.
    rewrite !count_events_app, !count_events_repeat by reflexivity. reflexivity.
  - rewrite !count_events_app, !count_events_repeat by reflexivity. reflexivity.
  - eexists. apply events_tail.
Qed.

(** X5. After a first lio_dev_configure that returned 0, a further call with
    the request unchanged returns 0 and changes nothing, whatever the device
    and the allocator would now answer. *)
Theorem lio_dev_configure_twice (st : state) (X2 : externals) :
  port_configured (dev st) = 0 ->
  fst (lio_dev_configure P X st) = 0 ->
  let st' := snd (lio_dev_configure P X st) in
  lio_dev_configure P X2 st' = (0, st').
Proof.
  intros Hpc Hret st'.
  destruct (configure_first_success st Hpc Hret) as (_ & Hdev & [l Hdata] & _).
  fold st' in Hdev, Hdata.
  unfold lio_dev_configure. rewrite Hdev, Hdata.
  cbn [port_configured nb_rx_queues nb_tx_queues set_dev_link set_mac_addrs
       data_nb_rx_queues data_nb_tx_queues Z.eqb negb].
  rewrite !Z.eqb_refl. reflexivity.
Qed.

Ltac pick_one :=
  first [reflexivity | left; reflexivity | right; pick_one].

(** X6. Whatever happens, lio_dev_configure returns 0, -ENOTSUP, -ENOMEM or
    -ENODEV; it never touches intf_open, the receive queues, or the request
    and the queue tables of the ethdev data; of the instruction queues it can
    only clear slot 0; and on a port not yet configured it has recorded the
    requested queue counts even when it fails. *)
Theorem lio_dev_configure_frame (st : state) :
  let r := fst (lio_dev_configure P X st) in
  let st' := snd (lio_dev_configure P X st) in
  (r = 0 \/ r = - ENOTSUP \/ r = - ENOMEM \/ r = - ENODEV)
  /\ intf_open (dev st') = intf_open (dev st)
  /\ pf_num (dev st') = pf_num (dev st)
  /\ droq (dev st') = droq (dev st)
  /\ (instr_queue (dev st') = instr_queue (dev st)
      \/ instr_queue (dev st') = array_set (instr_queue (dev st)) 0 None)
  /\ data_nb_rx_queues (data st') = data_nb_rx_queues (data st)
  /\ data_nb_tx_queues (data st') = data_nb_tx_queues (data st)
  /\ rx_queues (data st') = rx_queues (data st)
  /\ tx_queues (data st') = tx_queues (data st)
  /\ (port_configured (dev st) = 0 ->
      nb_rx_queues (dev st') = data_nb_rx_queues (data st)
      /\ nb_tx_queues (dev st') = data_nb_tx_queues (data st)).
Proof.
  intros r st'. subst r st'. unfold lio_dev_configure.
  destruct (Z.eqb_spec (port_configured (dev st)) 0) as [Hpc|Hpc]; cbn [negb].
  2:{ destruct (_ || _); cbn [fst snd];
        repeat (split; [pick_one|]); intros; contradiction. }
  destruct (alloc_soft_command_ok X); cbn [negb].
  2:{ cbn. repeat (split; [pick_one|]); first [reflexivity | intros _; split; reflexivity]. }
  destruct (send_soft_command_ret X =? LIO_IQ_SEND_FAILED).
  { cbn. repeat (split; [pick_one|]); first [reflexivity | intros _; split; reflexivity]. }
  cbv zeta.
  destruct (negb (to_int _ =? 0)).
  { cbn. repeat (split; [pick_one|]); first [reflexivity | intros _; split; reflexivity]. }
  destruct (_ || _).
  { cbn. repeat (split; [pick_one|]); first [reflexivity | intros _; split; reflexivity]. }
  destruct (zmalloc_lock_ok X); cbn [negb].
  2:{ cbn. repeat (split; [pick_one|]); first [reflexivity | intros _; split; reflexivity]. }
  destruct (zmalloc_head_ok X); cbn [negb].
  2:{ cbn. repeat (split; [pick_one|]); first [reflexivity | intros _; split; reflexivity]. }
  cbn [fst snd]. unfold lio_free_instr_queue0.
  match goal with
  | |- context [lio_dev_link_update P X ?s] => set (st5 := s)
  end.
  pose proof (link_update_dev P X st5) as Hd.
  destruct (link_update_data st5) as [l Hl].
  cbn [log with_dev dev data]. rewrite Hd, Hl. subst st5.
  cbn. repeat (split; [pick_one|]); first [reflexivity | intros _; split; reflexivity].
Qed.

End ConfigureMore.

Lemma lio_dev_configure_counts_of_raw_masks_witness :
  port_configured (dev (fresh 4 4)) = 0
  /\ fst (lio_dev_configure le_host (answering 5 5 0) (fresh 4 4)) = 0
  /\ num_txpciq (linfo (dev (snd (lio_dev_configure le_host (answering 5 5 0)
                                    (fresh 4 4)))))
     = bitcount 64 (cfg_iqmask (virtrptr (if_cfg_sc (answering 5 5 0)
                                            (if_cfg_polls le_host (answering 5 5 0))))).
Proof.
  assert (Hr : fst (lio_dev_configure le_host (answering 5 5 0) (fresh 4 4)) = 0)
    by (vm_compute; reflexivity).
  assert (H1 : 0 <= cfg_iqmask (virtrptr (if_cfg_sc (answering 5 5 0)
                                 (if_cfg_polls le_host (answering 5 5 0)))) < 2 ^ 64)
    by (vm_compute; split; congruence).
  assert (H2 : 0 <= cfg_oqmask (virtrptr (if_cfg_sc (answering 5 5 0)
                                 (if_cfg_polls le_host (answering 5 5 0)))) < 2 ^ 64)
    by (vm_compute; split; congruence).
  split; [reflexivity|]. split; [exact Hr|].
  exact (proj1 (lio_dev_configure_counts_of_raw_masks le_host (answering 5 5 0)
                  (fresh 4 4) eq_refl Hr H1 H2)).
Defined.

Lemma lio_dev_configure_mac_address_witness :
  port_configured (dev (fresh 4 4)) = 0
  /\ fst (lio_dev_configure le_host (answering 0xF 0xF 0) (fresh 4 4)) = 0
  /\ hw_addr (linfo (dev (snd (lio_dev_configure le_host (answering 0xF 0xF 0)
                                 (fresh 4 4)))))
     = cfg_hw_addr (virtrptr (if_cfg_sc (answering 0xF 0xF 0)
                                (if_cfg_polls le_host (answering 0xF 0xF 0)))).
Proof.
  assert (Hr : fst (lio_dev_configure le_host (answering 0xF 0xF 0) (fresh 4 4)) = 0)
    by (vm_compute; reflexivity).
  assert (H1 : 0 <= cfg_hw_addr (virtrptr (if_cfg_sc (answering 0xF 0xF 0)
                                  (if_cfg_polls le_host (answering 0xF 0xF 0)))) < 2 ^ 64)
    by (vm_compute; split; congruence).
  split; [reflexivity|]. split; [exact Hr|].
  exact (proj2 (lio_dev_configure_mac_address le_host (answering 0xF 0xF 0)
                  (fresh 4 4) eq_refl Hr H1)).
Defined.

Lemma lio_dev_configure_success_state_witness :
  port_configured (dev (fresh 4 4)) = 0
  /\ fst (lio_dev_configure le_host (answering 0xF 0xF 0) (fresh 4 4)) = 0
  /\ port_configured (dev (snd (lio_dev_configure le_host (answering 0xF 0xF 0)
                                  (fresh 4 4)))) = 1.
Proof.
  assert (Hr : fst (lio_dev_configure le_host (answering 0xF 0xF 0) (fresh 4 4)) = 0)
    by (vm_compute; reflexivity).
  split; [reflexivity|]. split; [exact Hr|].
  exact (proj1 (lio_dev_configure_success_state le_host (answering 0xF 0xF 0)
                  (fresh 4 4) eq_refl Hr)).
Defined.

Lemma lio_dev_configure_twice_witness :
  port_configured (dev (fresh 4 4)) = 0
  /\ fst (lio_dev_configure le_host (answering 0xF 0xF 0) (fresh 4 4)) = 0
  /\ lio_dev_configure le_host silent
       (snd (lio_dev_configure le_host (answering 0xF 0xF 0) (fresh 4 4)))
     = (0, snd (lio_dev_configure le_host (answering 0xF 0xF 0) (fresh 4 4))).
Proof.
  assert (Hr : fst (lio_dev_configure le_host (answering 0xF 0xF 0) (fresh 4 4)) = 0)
    by (vm_compute; reflexivity).
  split; [reflexivity|]. split; [exact Hr|].
  exact (lio_dev_configure_twice le_host (answering 0xF 0xF 0) (fresh 4 4) silent
           eq_refl Hr).
Defined.

Lemma lio_dev_configure_frame_witness :
  port_configured (dev (fresh 4 4)) = 0
  /\ nb_rx_queues (dev (snd (lio_dev_configure le_host silent (fresh 4 4)))) = 4.
Proof.
  split; [reflexivity|].
  destruct (lio_dev_configure_frame le_host silent (fresh 4 4))
    as (_ & _ & _ & _ & _ & _ & _ & _ & _ & H).
  exact (proj1 (H eq_refl)).
Defined.

(** * More on the link-status poll *)

Section LinkStatusMore.

Context (P : platform) (X : externals).

Lemma set_link_same d :
  set_linfo (set_link (link (linfo d)) (linfo d)) d = d.
Proof. destruct d as [? ? ? ? ? li ? ? ? ?]. destruct li. reflexivity. Qed.

Lemma set_dev_link_same dt : set_dev_link (dev_link dt) dt = dt.
Proof. destruct dt. reflexivity. Qed.

Lemma state_eq (s1 s2 : state) :
  dev s1 = dev s2 -> data s1 = data s2 -> trace s1 = trace s2 -> s1 = s2.
Proof. destruct s1, s2. cbn. intros -> -> ->. reflexivity. Qed.

(** Every path of lio_dev_get_link_status: the events it appends, and that
    it writes nothing but linfo.link and dev_link. *)
Lemma get_link_status_paths st :
  let st' := lio_dev_get_link_status P X st in
  exists evs v l,
    st' = {| dev := set_linfo (set_link v (linfo (dev st))) (dev st);
             data := set_dev_link l (data st);
             trace := trace st ++ evs |}
    /\ outstanding_sc evs = 0
    /\ count_events event_is_alarm evs = 0%nat
    /\ (intf_open (dev st) = 0 -> evs = []).
Proof.
  cbv zeta. unfold lio_dev_get_link_status.
  destruct (Z.eqb_spec (intf_open (dev st)) 0) as [Hz|Hnz].
  { exists [], (link (linfo (dev st))), (dev_link (data st)).
    rewrite set_link_same, set_dev_link_same, app_nil_r.
    split; [destruct st; reflexivity|]. repeat split; reflexivity. }
  destruct (alloc_soft_command_ok X); cbn [negb].
  2:{ exists [Ev_alloc_soft_command false], (link (linfo (dev st))), (dev_link (data st)).
      rewrite set_link_same, set_dev_link_same.
      repeat split; try reflexivity. intros; contradiction. }
  destruct (send_soft_command_ret X =? LIO_IQ_SEND_FAILED).
  { eexists _, (link (linfo (dev st))), (dev_link (data st)).
    rewrite set_link_same, set_dev_link_same. rewrite !log_log.
    split; [reflexivity|]. repeat split; try reflexivity. intros; contradiction. }
  cbv zeta.
  destruct (negb (ls_status _ =? 0)).
  { eexists _, (link (linfo (dev st))), (dev_link (data st)).
    rewrite set_link_same, set_dev_link_same. rewrite !log_log.
    split; [reflexivity|].
    split; [|split; [|intros; contradiction]].
    - unfold outstanding_sc.
      rewrite !count_events_app, !count_events_repeat by reflexivity. reflexivity.
    - rewrite !count_events_app, !count_events_repeat by reflexivity. reflexivity. }
  cbn [log dev].
  destruct (negb (link (linfo (dev st)) =? _)).
  - match goal with
    | |- context [lio_dev_link_update P X ?s] => set (st2 := s)
    end.
    pose proof (link_update_dev P X st2) as Hd.
    pose proof (link_update_trace P X st2) as Ht.
    destruct (link_update_data P X st2) as [l Hl].
    eexists _, _, l. split.
    + apply state_eq; cbn [log dev data trace].
      * rewrite Hd. subst st2. cbn [with_dev dev]. reflexivity.
      * rewrite Hl. subst st2. reflexivity.
      * rewrite Ht. subst st2. cbn [with_dev log trace].
        rewrite <- !app_assoc. reflexivity.
    + split; [|split; [|intros; contradiction]].
      * unfold outstanding_sc.
        rewrite !count_events_app, !count_events_repeat by reflexivity. reflexivity.
      * rewrite !count_events_app, !count_events_repeat by reflexivity. reflexivity.
  - eexists _, (link (linfo (dev st))), (dev_link (data st)).
    rewrite set_link_same, set_dev_link_same. split.
    + apply state_eq; cbn [log dev data trace]; try reflexivity.
      rewrite <- !app_assoc. reflexivity.
    + split; [|split; [|intros; contradiction]].
      * unfold outstanding_sc.
        rewrite !count_events_app, !count_events_repeat by reflexivity. reflexivity.
      * rewrite !count_events_app, !count_events_repeat by reflexivity. reflexivity.
Qed.

(** X7. lio_dev_get_link_status does nothing at all while the interface is
    closed; on every path it frees each soft command it allocated, and of
    the device and the ethdev data it can change only linfo.link and the
    published link. *)
Theorem lio_dev_get_link_status_frame (st : state) :
  let st' := lio_dev_get_link_status P X st in
  (intf_open (dev st) = 0 -> st' = st)
  /\ outstanding_sc (new_events st st') = 0
  /\ (exists v, dev st' = set_linfo (set_link v (linfo (dev st))) (dev st))
  /\ (exists l, data st' = set_dev_link l (data st)).
Proof.
  intros st'. destruct (get_link_status_paths st) as (evs & v & l & E & Hsc & _ & Hclosed).
  fold st' in E. split; [|split; [|split]].
  - intros Hz. unfold st', lio_dev_get_link_status. rewrite Hz. reflexivity.
  - rewrite E. unfold new_events. cbn [trace]. rewrite drop_app_length. exact Hsc.
  - exists v. rewrite E. reflexivity.
  - exists l. rewrite E. reflexivity.
Qed.

(** X8. One tick of lio_sync_link_state_check: with the interface closed it
    changes nothing and does not re-arm; with the interface open it ends by
    setting the alarm, once; and it polls the link only on a configured
    port. *)
Theorem lio_sync_link_state_check_rearms (st : state) :
  let st' := lio_sync_link_state_check P X st in
  (intf_open (dev st) = 0 -> st' = st)
  /\ (intf_open (dev st) <> 0 ->
      exists pre, new_events st st' = pre ++ [Ev_alarm_set]
                  /\ count_events event_is_alarm pre = 0%nat)
  /\ (port_configured (dev st) = 0 ->
      dev st' = dev st /\ data st' = data st
      /\ new_events st st' = if intf_open (dev st) =? 0 then [] else [Ev_alarm_set]).
Proof.
  intros st'. subst st'. unfold lio_sync_link_state_check.
  split; [|split].
  - intros Hz.
    assert (E : lio_dev_get_link_status P X st = st)
      by (unfold lio_dev_get_link_status; rewrite Hz; reflexivity).
    destruct (negb (port_configured (dev st) =? 0)); rewrite ?E, Hz; reflexivity.
  - intros Hnz.
    destruct (negb (port_configured (dev st) =? 0)).
    + destruct (get_link_status_paths st) as (evs & v & l & E & _ & Hal & _).
      cbv zeta in E. rewrite E. cbn [dev set_linfo intf_open].
      destruct (Z.eqb_spec (intf_open (dev st)) 0); [contradiction|]. cbn [negb].
      exists evs. split; [|exact Hal].
      unfold new_events, log. cbn [trace]. rewrite <- app_assoc.
      apply drop_app_length.
    + destruct (Z.eqb_spec (intf_open (dev st)) 0); [contradiction|]. cbn [negb].
      exists []. split; [apply new_events_log | reflexivity].
  - intros Hpc. rewrite Hpc. cbn [Z.eqb negb].
    destruct (intf_open (dev st) =? 0); cbn [negb].
    + repeat split. unfold new_events. apply drop_all.
    + repeat split. apply new_events_log.
Qed.

End LinkStatusMore.

Lemma lio_dev_get_link_status_frame_witness :
  intf_open (dev configured_4_4) = 0
  /\ lio_dev_get_link_status le_host (answering 0xF 0xF 0) configured_4_4
     = configured_4_4.
Proof.
  split; [reflexivity|].
  exact (proj1 (lio_dev_get_link_status_frame le_host (answering 0xF 0xF 0)
                  configured_4_4) eq_refl).
Defined.

Lemma lio_sync_link_state_check_rearms_witness :
  intf_open (dev configured_4_4) = 0
  /\ lio_sync_link_state_check le_host (answering 0xF 0xF 0) configured_4_4
     = configured_4_4.
Proof.
  split; [reflexivity|].
  exact (proj1 (lio_sync_link_state_check_rearms le_host (answering 0xF 0xF 0)
                  configured_4_4) eq_refl).
Defined.

(** * Bounded waiting *)

Section PollMore.

Context (P : platform) (X : externals).

Lemma flushes_of_repeat k (ev1 ev2 : event) :
  event_is_flush ev1 = true -> event_is_flush ev2 = false ->
  count_events event_is_flush (repeat_events k [ev1; ev2]) = k.
Proof.
  intros H1 H2. unfold repeat_events. induction k as [|k IH]; [reflexivity|].
  cbn [replicate concat]. rewrite count_events_app, IH.
  unfold count_events. cbn [List.filter app]. rewrite H1, H2. reflexivity.
Qed.

(** X9. lio_send_rx_ctrl_cmd, once the control packet is accepted, waits for
    [cond] within a budget of (timeout - 1) mod 2^16 flushes. If [cond] is
    first seen set after [j] flushes, [j] within the budget, the call returns
    0 having flushed 1 + j times; if [cond] stays clear for the whole budget
    it returns -1 having flushed 1 + budget times. *)
Theorem lio_send_rx_ctrl_cmd_waits (st : state) (start_stop : Z) (j : nat) :
  send_ctrl_pkt_ret X = 0 ->
  to_uint16 (LIO_MAX_CMD_TIMEOUT P) <> 0 ->
  let budget := poll_budget (to_uint16 (LIO_MAX_CMD_TIMEOUT P)) in
  let r := fst (lio_send_rx_ctrl_cmd P X st start_stop) in
  let evs := new_events st (snd (lio_send_rx_ctrl_cmd P X st start_stop)) in
  ((forall i, (i < j)%nat -> ctrl_cmd_cond X i = 0) ->
   ctrl_cmd_cond X j <> 0 -> Z.of_nat j <= budget ->
   r = 0 /\ count_events event_is_flush evs = S j)
  /\ ((forall i, Z.of_nat i <= budget -> ctrl_cmd_cond X i = 0) ->
      r = -1 /\ Z.of_nat (count_events event_is_flush evs) = 1 + budget).
Proof.
  intros Hsend Hto budget r evs. subst r evs.
  unfold lio_send_rx_ctrl_cmd, lio_wait_for_ctrl_cmd.
  rewrite Hsend. cbn [Z.eqb negb].
  pose proof (to_uint16_range (LIO_MAX_CMD_TIMEOUT P)) as HT.
  pose proof (poll_fuel_covers (to_uint16 (LIO_MAX_CMD_TIMEOUT P))) as Hfuel.
  split.
  - intros Hpre Hset Hj.
    rewrite (poll_stops _ poll_fuel _ 0 j); try assumption.
    + set (T := to_uint16 (LIO_MAX_CMD_TIMEOUT P)) in *.
      assert (Hnz : to_uint16 (T - Z.of_nat j) <> 0).
      { destruct j as [|j']; [rewrite Z.sub_0_r, to_uint16_small; assumption|].
        unfold budget, poll_budget in Hj. fold T in Hj.
        replace (T - Z.of_nat (S j')) with (T - (Z.of_nat j' + 1)) by lia.
        rewrite <- to_uint16_pred.
        pose proof (to_uint16_range (T - 1)).
        rewrite to_uint16_small; lia. }
      destruct (Z.eqb_spec (to_uint16 (T - Z.of_nat j)) 0); [contradiction|].
      cbn [Z.eqb negb fst snd]. split; [reflexivity|].
      rewrite !log_log, new_events_log, !count_events_app.
      rewrite flushes_of_repeat by reflexivity. reflexivity.
    + intros i Hi. cbn [Nat.add]. rewrite Hpre by exact Hi. reflexivity.
    + cbn [Nat.add]. destruct (Z.eqb_spec (ctrl_cmd_cond X j) 0); [contradiction|].
      reflexivity.
  - intros Hall.
    rewrite (poll_runs_out _ poll_fuel _ 0); try assumption.
    + cbn [Z.eqb negb fst snd Nat.add]. split; [reflexivity|].
      rewrite !log_log, new_events_log, !count_events_app.
      rewrite flushes_of_repeat by reflexivity.
      pose proof (to_uint16_range (to_uint16 (LIO_MAX_CMD_TIMEOUT P) - 1)).
      change (count_events event_is_flush [Ev_flush_iq 0]) with 1%nat.
      change (count_events event_is_flush
                [Ev_send_ctrl_pkt LIO_CMD_RX_CTL start_stop]) with 0%nat.
      unfold budget, poll_budget. lia.
    + intros i Hi. cbn [Nat.add]. rewrite Hall by exact Hi. reflexivity.
Qed.

(** X10. The polling loops of lio_dev_configure and lio_dev_get_link_status
    run their bodies at most (timeout - 1) mod 2^16 times, and when the
    completion word is first seen set after [j] runs, within that budget,
    they stop there: the response read is the one the device had left after
    [j] flushes. *)
Theorem soft_command_polls_bounded (j : nat) :
  let budget := poll_budget (to_uint16 (LIO_MAX_CMD_TIMEOUT P)) in
  Z.of_nat (if_cfg_polls P X) <= budget
  /\ Z.of_nat (link_status_polls P X) <= budget
  /\ ((forall i, (i < j)%nat ->
         status_word (if_cfg_sc X i) = LIO_COMPLETION_WORD_INIT) ->
      status_word (if_cfg_sc X j) <> LIO_COMPLETION_WORD_INIT ->
      Z.of_nat j <= budget -> if_cfg_polls P X = j)
  /\ ((forall i, (i < j)%nat ->
         status_word (link_status_sc X i) = LIO_COMPLETION_WORD_INIT) ->
      status_word (link_status_sc X j) <> LIO_COMPLETION_WORD_INIT ->
      Z.of_nat j <= budget -> link_status_polls P X = j).
Proof.
  intros budget.
  pose proof (to_uint16_range (LIO_MAX_CMD_TIMEOUT P)) as HT.
  pose proof (poll_fuel_covers (to_uint16 (LIO_MAX_CMD_TIMEOUT P))) as Hfuel.
  unfold if_cfg_polls, link_status_polls.
  split; [|split; [|split]].
  - pose proof (poll_bounded
      (fun k => status_word (if_cfg_sc X k) =? LIO_COMPLETION_WORD_INIT)
      poll_fuel (to_uint16 (LIO_MAX_CMD_TIMEOUT P)) 0 Hfuel) as H.
    cbn [Z.of_nat] in H. exact H.
  - pose proof (poll_bounded
      (fun k => status_word (link_status_sc X k) =? LIO_COMPLETION_WORD_INIT)
      poll_fuel (to_uint16 (LIO_MAX_CMD_TIMEOUT P)) 0 Hfuel) as H.
    cbn [Z.of_nat] in H. exact H.
  - intros Hpre Hset Hj.
    rewrite (poll_stops _ poll_fuel _ 0 j); try assumption; [reflexivity| |].
    + intros i Hi. cbn [Nat.add]. rewrite Hpre by exact Hi. apply Z.eqb_refl.
    + cbn [Nat.add]. apply Z.eqb_neq. exact Hset.
  - intros Hpre Hset Hj.
    rewrite (poll_stops _ poll_fuel _ 0 j); try assumption; [reflexivity| |].
    + intros i Hi. cbn [Nat.add]. rewrite Hpre by exact Hi. apply Z.eqb_refl.
    + cbn [Nat.add]. apply Z.eqb_neq. exact Hset.
Qed.

End PollMore.

(** * More on queue set-up *)

Section QueuesMore.

Context (P : platform) (X : externals).

Lemma array_set_length {A} (a : list A) i v : length (array_set a i v) = length a.
Proof. unfold array_set. destruct (0 <=? i); [apply length_insert|reflexivity]. Qed.

Lemma array_get_set_same {A} (d : A) a i v :
  0 <= i < Z.of_nat (length a) -> array_get d (array_set a i v) i = v.
Proof.
  intros Hi. unfold array_get. rewrite array_set_length.
  destruct (Z.leb_spec 0 i); [|lia]. destruct (Z.ltb_spec i (Z.of_nat (length a))); [|lia].
  cbn [andb]. unfold array_set. destruct (Z.leb_spec 0 i); [|lia].
  rewrite list_lookup_insert_eq by lia. reflexivity.
Qed.




End QueuesMore.

(** * Start and release *)

Section StartRelease.

Context (P : platform) (X : externals) (A : attach_externals).

Lemma count_calls_app c a b :
  count_calls c (a ++ b) = (count_calls c a + count_calls c b)%nat.
Proof. unfold count_calls. rewrite List.filter_app, length_app. reflexivity. Qed.

Lemma count_calls_repeat c k body :
  count_calls c (map Core body) = 0%nat ->
  count_calls c (map Core (repeat_events k body)) = 0%nat.
Proof.
  intros H. unfold repeat_events. induction k as [|k IH]; [reflexivity|].
  cbn [replicate concat]. rewrite map_app, count_calls_app, H, IH. reflexivity.
Qed.

Lemma new_calls_called p cs : new_calls p (called cs p) = cs.
Proof. unfold new_calls, called. cbn [calls]. apply drop_app_length. Qed.

(** lio_send_rx_ctrl_cmd run on the core state of a port. *)
Lemma lift_send_rx_ctrl_cmd Y p v :
  exists k,
    lift (fun s => lio_send_rx_ctrl_cmd P Y s v) p
    = (fst (lio_send_rx_ctrl_cmd P Y (core p) v),
       {| core := log ([Ev_flush_iq 0; Ev_send_ctrl_pkt LIO_CMD_RX_CTL v]
                       ++ repeat_events k [Ev_flush_iq 0; Ev_delay_ms 1]) (core p);
          att := att p;
          calls := calls p
                   ++ [Core (Ev_flush_iq 0); Core (Ev_send_ctrl_pkt LIO_CMD_RX_CTL v)]
                   ++ map Core (repeat_events k [Ev_flush_iq 0; Ev_delay_ms 1]) |}).
Proof.
  destruct (send_rx_ctrl_cmd_events P Y (core p) v) as [k [E _]].
  exists k. unfold lift. rewrite E, new_events_log, map_app. reflexivity.
Qed.

Ltac count_calls_now :=
  rewrite ?count_calls_app, ?count_calls_repeat by reflexivity; reflexivity.

(** X13. lio_dev_start returns 0 exactly when enabling the I/O queues, the
    RX-start control command and the arming of the link alarm all succeed,
    and then the interface is open, with one start command sent and the
    alarm set once. If only the alarm cannot be set, its error is returned,
    the interface is marked closed again and one RX-stop command follows.
    If an earlier step fails the result is -1 and intf_open is untouched. *)
Theorem lio_dev_start_outcomes (X_stop : externals) (p : lio_port) :
  let r := fst (lio_dev_start P X A X_stop p) in
  let p' := snd (lio_dev_start P X A X_stop p) in
  let sent := fst (lio_send_rx_ctrl_cmd P X (core p) 1) in
  let start_cmd := Core (Ev_send_ctrl_pkt LIO_CMD_RX_CTL 1) in
  let stop_cmd := Core (Ev_send_ctrl_pkt LIO_CMD_RX_CTL 0) in
  (r = 0 <-> enable_io_queues_ret A = 0 /\ sent = 0 /\ alarm_set_ret A = 0)
  /\ (r = 0 ->
      intf_open (dev (core p')) = 1
      /\ count_calls start_cmd (new_calls p p') = 1%nat
      /\ count_calls stop_cmd (new_calls p p') = 0%nat
      /\ count_calls (Core Ev_alarm_set) (new_calls p p') = 1%nat)
  /\ (enable_io_queues_ret A = 0 -> sent = 0 -> alarm_set_ret A <> 0 ->
      r = alarm_set_ret A
      /\ intf_open (dev (core p')) = 0
      /\ count_calls stop_cmd (new_calls p p') = 1%nat)
  /\ (enable_io_queues_ret A <> 0 \/ sent <> 0 ->
      r = -1
      /\ intf_open (dev (core p')) = intf_open (dev (core p))
      /\ count_calls (Core Ev_alarm_set) (new_calls p p') = 0%nat)
  /\ att p' = att p
  /\ data (core p') = data (core p).
Proof.
  intros r p' sent start_cmd stop_cmd. subst r p' sent start_cmd stop_cmd.
  unfold lio_dev_start.
  destruct (Z.eqb_spec (enable_io_queues_ret A) 0) as [Hen|Hen]; cbn [negb].
  2:{ cbn [fst snd]. rewrite new_calls_called.
      split; [split; [intros H; discriminate H|tauto]|].
      split; [intros H; discriminate H|].
      split; [intros; contradiction|].
      split; [intros _; repeat split|split; reflexivity]. }
  destruct (lift_send_rx_ctrl_cmd X (called [Call_enable_io_queues] p) 1) as [k Ek].
  rewrite Ek. cbn [called core att calls].
  destruct (Z.eqb_spec (fst (lio_send_rx_ctrl_cmd P X (core p) 1)) 0) as [Hs|Hs];
    cbn [negb].
  2:{ cbn [fst snd]. unfold new_calls. cbn [calls].
      rewrite <- !app_assoc, drop_app_length.
      split; [split; [intros H; discriminate H|tauto]|].
      split; [intros H; discriminate H|].
      split; [intros; contradiction|].
      split; [|split; reflexivity].
      intros _. split; [reflexivity|]. split; [reflexivity|]. count_calls_now. }
  destruct (Z.eqb_spec (alarm_set_ret A) 0) as [Hal|Hal]; cbn [negb].
  - cbn [fst snd]. unfold new_calls, called, with_core, with_dev, log.
    cbn [core att calls dev data set_intf_open intf_open].
    rewrite <- !app_assoc, drop_app_length.
    split; [tauto|]. split.
    + intros _. split; [reflexivity|]. repeat split; count_calls_now.
    + split; [intros; contradiction|].
      split; [intros [H|H]; contradiction|split; reflexivity].
  - match goal with
    | |- context [lift (fun s => lio_send_rx_ctrl_cmd P X_stop s 0) ?q] =>
        destruct (lift_send_rx_ctrl_cmd X_stop q 0) as [k2 Ek2]; rewrite Ek2
    end.
    cbn [fst snd]. unfold new_calls, called, with_core, with_dev, log.
    cbn [core att calls dev data set_intf_open intf_open].
    rewrite <- !app_assoc, drop_app_length.
    split; [split; [intros H; contradiction|tauto]|].
    split; [intros H; contradiction|].
    split.
    + intros _ _ _. split; [reflexivity|]. split; [reflexivity|]. count_calls_now.
    + split; [intros [H|H]; contradiction|split; reflexivity].
Qed.

(** X14. Queues cannot be released at run time: once a lio_dev_configure has
    returned 0, lio_dev_rx_queue_release and lio_dev_tx_queue_release of any
    queue leave the port exactly as it is. *)
Theorem queue_release_after_configure (p : lio_port) (st : state) (q : Z) :
  fst (lio_dev_configure P X st) = 0 ->
  core p = snd (lio_dev_configure P X st) ->
  lio_dev_rx_queue_release A p (Some q) = Some p
  /\ lio_dev_tx_queue_release X p (Some q) = Some p.
Proof.
  intros Hret Hcore.
  assert (Hpc : port_configured (dev (core p)) <> 0).
  { rewrite Hcore.
    destruct (Z.eq_dec (port_configured (dev st)) 0) as [Hz|Hnz].
    - destruct (configure_first_success P X st Hz Hret) as (_ & Hdev & _).
      rewrite Hdev. cbn [port_configured]. discriminate.
    - unfold lio_dev_configure.
      destruct (Z.eqb_spec (port_configured (dev st)) 0); [contradiction|].
      cbn [negb]. destruct (_ || _); exact Hnz. }
  unfold lio_dev_rx_queue_release, lio_dev_tx_queue_release.
  destruct (Z.eqb_spec (port_configured (dev (core p))) 0); [contradiction|].
  split; reflexivity.
Qed.

(** On a port not yet configured, releasing a receive queue calls
    lio_delete_droq_queue for it and releasing a transmit queue deletes its
    scatter-gather list and then its instruction queue; nothing else is
    called and nothing but the queue table concerned changes. *)
Lemma queue_release_before_configure (p : lio_port) (q : Z) :
  port_configured (dev (core p)) = 0 ->
  (exists p', lio_dev_rx_queue_release A p (Some q) = Some p'
              /\ new_calls p p' = [Call_delete_droq_queue q]
              /\ dev (core p')
                 = set_droq (delete_droq_queue A (droq (dev (core p))) q)
                            (dev (core p))
              /\ data (core p') = data (core p) /\ att p' = att p)
  /\ (exists p', lio_dev_tx_queue_release X p (Some q) = Some p'
                 /\ new_calls p p'
                    = [Call_delete_sglist; Core (Ev_delete_instruction_queue q)]
                 /\ dev (core p')
                    = set_instr_queue
                        (delete_instruction_queue X (instr_queue (dev (core p))) q)
                        (dev (core p))
                 /\ data (core p') = data (core p) /\ att p' = att p).
Proof.
  intros Hpc. unfold lio_dev_rx_queue_release, lio_dev_tx_queue_release.
  rewrite Hpc. cbn [Z.eqb negb].
  split; eexists; (split; [reflexivity|]);
    (split; [unfold new_calls, called, with_core; cbn [calls]; apply drop_app_length|]);
    repeat split; reflexivity.
Qed.

End StartRelease.

(** * Attach and detach *)

Section AttachMore.

Context (P : platform) (X : externals) (A : attach_externals).

Lemma array_get_cleared {A0} (a : list (option A0)) :
  array_get None (array_set a 0 None) 0 = None.
Proof.
  destruct (Z.lt_ge_cases 0 (Z.of_nat (length a))) as [Hlt|Hge].
  - apply array_get_set_same. lia.
  - unfold array_get. rewrite array_set_length.
    destruct (Z.ltb_spec 0 (Z.of_nat (length a))); [lia|].
    rewrite andb_false_r. reflexivity.
Qed.

Lemma lift_free_instr_queue0 p :
  snd (lift (fun s => (0, lio_free_instr_queue0 s)) p)
  = {| core := lio_free_instr_queue0 (core p); att := att p;
       calls := calls p ++ [Core Ev_free_instr_queue0] |}.
Proof.
  unfold lift. cbn [fst snd]. f_equal. f_equal.
  unfold lio_free_instr_queue0, new_events, log, with_dev. cbn [trace].
  rewrite drop_app_length. reflexivity.
Qed.

(** The label [error]: what it leaves and what it calls. *)
Lemma first_time_init_error_spec q :
  let p' := snd (first_time_init_error q) in
  fst (first_time_init_error q) = -1
  /\ sc_buf_pool (att p') = false
  /\ mbox0 (att p') = false
  /\ array_get None (instr_queue (dev (core p'))) 0 = None
  /\ same_ethdev_members (att q) (att p')
  /\ data (core p') = data (core q)
  /\ port_configured (dev (core p')) = port_configured (dev (core q))
  /\ exists cs, calls p' = calls q ++ Call_free_sc_buffer_pool :: cs
                /\ count_calls Call_free_sc_buffer_pool cs = 0%nat
                /\ count_calls Call_setup_sc_buffer_pool cs = 0%nat.
Proof.
  unfold first_time_init_error, same_ethdev_members. cbn [fst snd].
  unfold called, with_att. cbn [att core calls set_pool_mbox mbox0 sc_buf_pool].
  destruct (mbox0 (att q)); cbn [att core calls set_pool_mbox mbox0 sc_buf_pool];
    (destruct (array_get None (instr_queue (dev (core q))) 0) eqn:E;
     [ rewrite lift_free_instr_queue0; cbn [att core calls mbox0 sc_buf_pool];
       unfold lio_free_instr_queue0;
       cbn [log with_dev dev data set_instr_queue instr_queue port_configured
            set_pool_mbox lio_hw_addr lio_eth_dev lio_status ifflags rx_pkt_burst
            tx_pkt_burst dev_ops dev_flags mac_addrs_ptr];
       repeat (split; [reflexivity|]);
       (split; [apply array_get_cleared|]);
       (split; [repeat split|]);
       do 2 (split; [reflexivity|])
     | cbn [set_pool_mbox lio_hw_addr lio_eth_dev lio_status ifflags rx_pkt_burst
            tx_pkt_burst dev_ops dev_flags mac_addrs_ptr];
       repeat (split; [reflexivity|]);
       (split; [exact E|]);
       (split; [repeat split|]);
       do 2 (split; [reflexivity|]) ]);
    eexists; rewrite <- ?app_assoc; (split; [reflexivity|]); split; reflexivity.
Qed.

(** X15. One invocation of lio_check_pf_hs_response does nothing once the PF
    has published its timing reference; before that it handles the mailbox
    and re-arms itself, whether or not the reference has just arrived. *)
Theorem lio_check_pf_hs_response_rearms (p : lio_port) :
  let p' := lio_check_pf_hs_response A p in
  (coproc_tics_per_us (att p) <> 0 -> p' = p)
  /\ (coproc_tics_per_us (att p) = 0 ->
      new_calls p p' = [Call_vf_handle_mbox; Call_check_pf_alarm 1]
      /\ coproc_tics_per_us (att p') = vf_handle_mbox A 0
      /\ core p' = core p)
  /\ (coproc_tics_per_us (att p') <> 0 ->
      lio_check_pf_hs_response A p' = p').
Proof.
  cbv zeta. unfold lio_check_pf_hs_response.
  destruct (Z.eqb_spec (coproc_tics_per_us (att p)) 0) as [Hz|Hnz]; cbn [negb].
  - split; [intros; contradiction|]. split.
    + intros _. rewrite Hz. unfold new_calls, called, with_att. cbn [calls att core].
      rewrite <- app_assoc, drop_app_length. repeat split.
    + unfold called, with_att. cbn [att set_tics coproc_tics_per_us].
      intros Hne. destruct (Z.eqb_spec (vf_handle_mbox A (coproc_tics_per_us (att p))) 0);
        [contradiction|reflexivity].
  - split; [reflexivity|]. split; [intros; contradiction|].
    intros _. destruct (Z.eqb_spec (coproc_tics_per_us (att p)) 0);
      [contradiction|reflexivity].
Qed.

(** Reaching the label [error] after the pool has been set up. *)
Lemma error_after_pool p q prefix :
  calls q = calls p ++ prefix ->
  count_calls Call_free_sc_buffer_pool prefix = 0%nat ->
  count_calls Call_setup_sc_buffer_pool prefix = 1%nat ->
  let p' := snd (first_time_init_error q) in
  fst (first_time_init_error q) = -1
  /\ sc_buf_pool (att p') = false
  /\ mbox0 (att p') = false
  /\ array_get None (instr_queue (dev (core p'))) 0 = None
  /\ same_ethdev_members (att q) (att p')
  /\ data (core p') = data (core q)
  /\ port_configured (dev (core p')) = port_configured (dev (core q))
  /\ count_calls Call_free_sc_buffer_pool (new_calls p p') = 1%nat
  /\ count_calls Call_setup_sc_buffer_pool (new_calls p p') = 1%nat.
Proof.
  intros Hq Hf Hs. cbv zeta.
  destruct (first_time_init_error_spec q)
    as (Hr & Hp & Hm & Hi & Hfr & Hd & Hpc & cs & Hc & Hcf & Hcs).
  repeat (split; [assumption|]).
  unfold new_calls. rewrite Hc, Hq, <- app_assoc, drop_app_length.
  rewrite !count_calls_app, Hf, Hs.
  change (Call_free_sc_buffer_pool :: cs) with ([Call_free_sc_buffer_pool] ++ cs).
  rewrite !count_calls_app, Hcf, Hcs. split; reflexivity.
Qed.

Ltac at_error :=
  match goal with
  | |- context [new_calls ?p (snd (first_time_init_error ?q))] =>
      let H := fresh "H" in
      eassert (H : _);
      [ eapply (error_after_pool p q);
        [ cbn [calls]; rewrite <- ?app_assoc; reflexivity
        | reflexivity | reflexivity ]
      | cbv zeta in H;
        destruct H as (Hr & Hp & Hm & Hi & Hfr & Hd & Hpc & Hcf & Hcs);
        rewrite Hr; split; [right; reflexivity|];
        split; [exact Hfr|]; split; [exact Hd|]; split; [exact Hpc|];
        split; [intros _; repeat split; assumption | intros; discriminate] ]
  end.

(** The paths of lio_first_time_init from blank private data. *)
Lemma first_time_init_paths (p : lio_port) (pdev : rte_pci_device) :
  sc_buf_pool (att p) = false ->
  mbox0 (att p) = false ->
  array_get None (instr_queue (dev (core p))) 0 = None ->
  let r := fst (lio_first_time_init A p pdev) in
  let p' := snd (lio_first_time_init A p pdev) in
  let reached_pool :=
    (device_id pdev =? LIO_CN23XX_VF_VID A) && (vf_setup_device_ret A =? 0)
    && (setup_sc_buffer_pool_ret A =? 0) in
  (r = 0 \/ r = -1)
  /\ same_ethdev_members (att p) (att p')
  /\ data (core p') = data (core p)
  /\ port_configured (dev (core p')) = port_configured (dev (core p))
  /\ (r = -1 ->
      sc_buf_pool (att p') = false
      /\ mbox0 (att p') = false
      /\ array_get None (instr_queue (dev (core p'))) 0 = None
      /\ count_calls Call_free_sc_buffer_pool (new_calls p p')
         = (if reached_pool then 1 else 0)%nat)
  /\ (r = 0 ->
      device_id pdev = LIO_CN23XX_VF_VID A
      /\ chip_id (att p') = LIO_CN23XX_VF_VID A
      /\ pci_dev (att p') = Some pdev
      /\ sc_buf_pool (att p') = true
      /\ max_rx_queues (att p') = to_int (rings_per_vf A)
      /\ max_tx_queues (att p') = to_int (rings_per_vf A)
      /\ count_calls Call_setup_sc_buffer_pool (new_calls p p') = 1%nat
      /\ count_calls Call_free_sc_buffer_pool (new_calls p p') = 0%nat).
Proof.
  intros Hpool Hmbox Hiq. cbv zeta.
  destruct p as [[d dt tr] a cs]. destruct a. cbn [att core dev sc_buf_pool mbox0] in *.
  subst.
  cbv beta iota zeta delta
    [lio_first_time_init lio_chip_specific_setup lio_check_pf_hs_response
     called with_att with_core with_dev log
     att core calls dev data trace set_pci_chip set_pool_mbox set_tics
     set_max_queues set_instr_queue pci_dev chip_id sc_buf_pool mbox0
     coproc_tics_per_us max_rx_queues max_tx_queues lio_hw_addr lio_eth_dev
     lio_status ifflags rx_pkt_burst tx_pkt_burst dev_ops dev_flags
     mac_addrs_ptr port_configured same_ethdev_members].
  destruct (Z.eqb_spec (device_id pdev) (LIO_CN23XX_VF_VID A)) as [Hid|Hid];
    cbn [andb negb fst snd].
  2:{ change (1 =? 0) with false. cbn [negb fst snd att core dev sc_buf_pool mbox0].
      split; [right; reflexivity|].
      do 3 (split; [repeat split|]).
      split; [|intros; discriminate].
      intros _. unfold new_calls. cbn [calls]. rewrite drop_all.
      repeat split; assumption. }
  destruct (Z.eqb_spec (vf_setup_device_ret A) 0) as [Hvf|Hvf]; cbn [andb negb fst snd].
  2:{ split; [right; reflexivity|].
      do 3 (split; [repeat split|]).
      split; [|intros; discriminate].
      intros _. unfold new_calls. cbn [calls att core dev sc_buf_pool mbox0].
      rewrite drop_app_length. repeat split; assumption. }
  destruct (Z.eqb_spec (setup_sc_buffer_pool_ret A) 0) as [Hsp|Hsp]; cbn [andb negb fst snd].
  2:{ split; [right; reflexivity|].
      do 3 (split; [repeat split|]).
      split; [|intros; discriminate].
      intros _. unfold new_calls. cbn [calls att core dev sc_buf_pool mbox0].
      rewrite <- app_assoc, drop_app_length. repeat split; assumption. }
  destruct (Z.eqb_spec (fst (setup_mbox A)) 0) as [Hmb|Hmb]; cbn [negb].
  2:{ at_error. }
  destruct (Z.eqb_spec coproc_tics_per_us0 0) as [Ht|Ht]; cbn [negb].
  all: destruct (Z.eqb_spec (pfvf_handshake_ret A) 0) as [Hhs|Hhs]; cbn [negb];
    [|at_error].
  all: destruct (Z.eqb_spec (set_io_queues_off_ret A) 0) as [Hoff|Hoff]; cbn [negb];
    [|at_error].
  all: destruct (Z.eqb_spec (setup_device_regs_ret A) 0) as [Hreg|Hreg]; cbn [negb];
    [|at_error].
  all: destruct (setup_instr_queue0 A _) as [r0 iqs] eqn:Eiq.
  all: destruct (Z.eqb_spec r0 0) as [Hr0|Hr0]; cbn [negb]; [|at_error].
  all: destruct (Z.eqb_spec (enable_io_queues_ret A) 0) as [Hen|Hen]; cbn [negb];
    [|at_error].
  all: cbn [fst snd]; (split; [left; reflexivity|]);
    do 3 (split; [repeat split|]);
    (split; [intros; discriminate|]);
    intros _; unfold new_calls;
    cbn [calls att core chip_id pci_dev sc_buf_pool max_rx_queues max_tx_queues];
    rewrite <- ?app_assoc, drop_app_length;
    repeat split; assumption || reflexivity.
Qed.

(** X16. lio_first_time_init on a port whose private data is still blank (no
    command pool, no mailbox, no instruction queue 0) returns 0 or -1. On -1
    the port again has no pool, no mailbox and no instruction queue 0, and
    lio_free_sc_buffer_pool has run once exactly when the failure came after
    the pool had been set up. On 0 the device is the CN23XX VF, the pool
    exists, nothing was freed, and both queue maxima are rings_per_vf read
    as an int. *)
Theorem lio_first_time_init_outcomes (p : lio_port) (pdev : rte_pci_device) :
  sc_buf_pool (att p) = false ->
  mbox0 (att p) = false ->
  array_get None (instr_queue (dev (core p))) 0 = None ->
  let r := fst (lio_first_time_init A p pdev) in
  let p' := snd (lio_first_time_init A p pdev) in
  let reached_pool :=
    (device_id pdev =? LIO_CN23XX_VF_VID A) && (vf_setup_device_ret A =? 0)
    && (setup_sc_buffer_pool_ret A =? 0) in
  (r = 0 \/ r = -1)
  /\ (r = -1 ->
      sc_buf_pool (att p') = false
      /\ mbox0 (att p') = false
      /\ array_get None (instr_queue (dev (core p'))) 0 = None
      /\ count_calls Call_free_sc_buffer_pool (new_calls p p')
         = (if reached_pool then 1 else 0)%nat)
  /\ (r = 0 ->
      device_id pdev = LIO_CN23XX_VF_VID A
      /\ chip_id (att p') = LIO_CN23XX_VF_VID A
      /\ pci_dev (att p') = Some pdev
      /\ sc_buf_pool (att p') = true
      /\ max_rx_queues (att p') = to_int (rings_per_vf A)
      /\ max_tx_queues (att p') = to_int (rings_per_vf A)
      /\ count_calls Call_setup_sc_buffer_pool (new_calls p p') = 1%nat
      /\ count_calls Call_free_sc_buffer_pool (new_calls p p') = 0%nat).
Proof.
  intros Hpool Hmbox Hiq.
  pose proof (first_time_init_paths p pdev Hpool Hmbox Hiq) as H.
  cbv zeta in *. destruct H as (H1 & _ & _ & _ & H2 & H3).
  split; [exact H1|]. split; [exact H2|exact H3].
Qed.

(** X17. lio_eth_dev_init on blank private data. A secondary process only
    gets the burst functions and calls nothing. In the primary process the
    result is 0, -ENODEV, -EINVAL or -ENOMEM: -ENODEV exactly when BAR0 is
    not mapped, and then nothing past rte_eth_copy_pci_info has run; on
    -EINVAL no pool, mailbox or instruction queue 0 is left but the burst
    functions stay set; on -ENOMEM the device operations and burst functions
    are cleared while the command pool set up before stays allocated; on 0
    the operations are installed, the MAC storage is zeroed, the device is
    RUNNING and not yet configured, and unicast is added to the flags. *)
Theorem lio_eth_dev_init_outcomes (p : lio_port) (pdev : rte_pci_device) :
  sc_buf_pool (att p) = false ->
  mbox0 (att p) = false ->
  array_get None (instr_queue (dev (core p))) 0 = None ->
  let r := fst (lio_eth_dev_init A p pdev) in
  let p' := snd (lio_eth_dev_init A p pdev) in
  (process_primary A = false ->
   r = 0 /\ new_calls p p' = [] /\ core p' = core p
   /\ att p' = set_eth_dev true (dev_ops (att p)) (dev_flags (att p))
                           (mac_addrs_ptr (att p)) (att p))
  /\ (process_primary A = true ->
      (r = 0 \/ r = - ENODEV \/ r = - EINVAL \/ r = - ENOMEM)
      /\ rx_pkt_burst (att p') = tx_pkt_burst (att p')
      /\ dev_flags (att p') = Z.lor (dev_flags (att p)) (RTE_ETH_DEV_DETACHABLE A)
      /\ (r = - ENODEV <-> mem_resource0 pdev = None)
      /\ (r = - ENODEV -> new_calls p p' = [Call_copy_pci_info])
      /\ (r = - EINVAL ->
          sc_buf_pool (att p') = false /\ mbox0 (att p') = false
          /\ array_get None (instr_queue (dev (core p'))) 0 = None
          /\ rx_pkt_burst (att p') = true
          /\ dev_ops (att p') = dev_ops (att p))
      /\ (r = - ENOMEM ->
          mac_zmalloc_ok A = false
          /\ dev_ops (att p') = false /\ rx_pkt_burst (att p') = false
          /\ mac_addrs_ptr (att p') = false
          /\ sc_buf_pool (att p') = true)
      /\ (r = 0 ->
          dev_ops (att p') = true /\ rx_pkt_burst (att p') = true
          /\ mac_addrs_ptr (att p') = true
          /\ mac_addrs (data (core p')) = replicate ETHER_ADDR_LEN 0
          /\ port_configured (dev (core p')) = 0
          /\ lio_status (att p') = LIO_DEV_RUNNING A
          /\ ifflags (att p') = Z.lor (ifflags (att p)) (LIO_IFFLAG_UNICAST A)
          /\ lio_hw_addr (att p') = mem_resource0 pdev
          /\ sc_buf_pool (att p') = true)).
Proof.
  intros Hpool Hmbox Hiq. cbv zeta. unfold lio_eth_dev_init.
  destruct (process_primary A); cbn [negb].
  2:{ split; [intros _|intros; discriminate].
      unfold new_calls, with_att. cbn [fst snd calls core att].
      rewrite drop_all. repeat split. }
  split; [intros; discriminate|]. intros _.
  destruct (mem_resource0 pdev) as [addr|] eqn:Ebar.
  2:{ unfold called, with_att, new_calls.
      cbn [fst snd calls core att set_eth_dev rx_pkt_burst tx_pkt_burst dev_flags].
      rewrite drop_app_length.
      split; [right; left; reflexivity|].
      repeat split; try reflexivity; intros; discriminate. }
  match goal with
  | |- context [lio_first_time_init A ?q pdev] =>
      pose proof (first_time_init_paths q pdev Hpool Hmbox Hiq) as H;
      cbv zeta in H;
      destruct (lio_first_time_init A q pdev) as [r1 p1] eqn:E1
  end.
  cbn [fst snd] in H.
  destruct H as (Hr & Hfr & Hd & Hpc & Hfail & Hok).
  unfold same_ethdev_members, called, with_att in Hfr.
  cbn [att set_lio_dev set_eth_dev lio_hw_addr lio_eth_dev lio_status ifflags
       rx_pkt_burst tx_pkt_burst dev_ops dev_flags mac_addrs_ptr] in Hfr.
  destruct Hfr as (Fhw & Flk & Fst & Fif & Frx & Ftx & Fops & Ffl & Fmac).
  destruct Hr as [-> | ->]; cbn [Z.eqb negb fst snd Z.opp].
  2:{ destruct (Hfail eq_refl) as (Hp & Hm & Hi & _).
      split; [right; right; left; reflexivity|].
      rewrite Frx, Ftx, Ffl.
      repeat split; try assumption; try reflexivity; try (intros; discriminate). }
  destruct (Hok eq_refl) as (_ & _ & _ & Hp & _).
  destruct (mac_zmalloc_ok A) eqn:Emac; cbn [negb fst snd];
    unfold called, with_att, with_core, with_dev, with_data;
    cbn [att core dev data set_eth_dev set_lio_dev set_port_configured set_mac_addrs
         lio_hw_addr lio_eth_dev lio_status ifflags rx_pkt_burst tx_pkt_burst
         dev_ops dev_flags mac_addrs_ptr sc_buf_pool port_configured mac_addrs].
  - split; [left; reflexivity|].
    rewrite Ffl, Fif, Fhw.
    repeat split; try assumption; try reflexivity; try (intros; discriminate).
  - split; [right; right; right; reflexivity|].
    rewrite Ffl.
    repeat split; try assumption; try reflexivity; try (intros; discriminate).
Qed.

(** X18. lio_eth_dev_uninit refuses a secondary process with -EPERM and
    changes nothing; in the primary process it returns 0, releases the
    command pool and the MAC storage once each, clears both burst functions,
    and leaves the device operations and the core device state as they
    were. *)
Theorem lio_eth_dev_uninit_outcomes (p : lio_port) :
  let r := fst (lio_eth_dev_uninit A p) in
  let p' := snd (lio_eth_dev_uninit A p) in
  (process_primary A = false -> r = - EPERM /\ p' = p)
  /\ (process_primary A = true ->
      r = 0
      /\ new_calls p p' = [Call_free_sc_buffer_pool; Core Ev_free]
      /\ sc_buf_pool (att p') = false
      /\ mac_addrs_ptr (att p') = false
      /\ rx_pkt_burst (att p') = false /\ tx_pkt_burst (att p') = false
      /\ dev_ops (att p') = dev_ops (att p)
      /\ mbox0 (att p') = mbox0 (att p)
      /\ core p' = core p).
Proof.
  cbv zeta. unfold lio_eth_dev_uninit.
  destruct (process_primary A); cbn [negb fst snd].
  - split; [intros; discriminate|]. intros _.
    unfold new_calls, called, with_att.
    cbn [calls att core set_eth_dev set_pool_mbox sc_buf_pool mac_addrs_ptr
         rx_pkt_burst tx_pkt_burst dev_ops mbox0].
    rewrite <- app_assoc, drop_app_length. repeat split.
  - split; [intros _; split; reflexivity|intros; discriminate].
Qed.

End AttachMore.

(** * The further properties at sample inputs *)

Lemma lio_send_rx_ctrl_cmd_waits_witness :
  fst (lio_send_rx_ctrl_cmd le_host (answering 0xF 0xF 0) (fresh 4 4) 1) = 0
  /\ count_events event_is_flush
       (new_events (fresh 4 4)
          (snd (lio_send_rx_ctrl_cmd le_host (answering 0xF 0xF 0) (fresh 4 4) 1)))
     = 3%nat.
Proof.
  assert (Hto : to_uint16 (LIO_MAX_CMD_TIMEOUT le_host) <> 0)
    by (vm_compute; congruence).
  assert (Hclear : forall i, (i < 2)%nat -> ctrl_cmd_cond (answering 0xF 0xF 0) i = 0).
  { intros [|[|i]] Hi; [reflexivity|reflexivity|lia]. }
  assert (Hset : ctrl_cmd_cond (answering 0xF 0xF 0) 2 <> 0)
    by (vm_compute; congruence).
  assert (Hin : Z.of_nat 2 <= poll_budget (to_uint16 (LIO_MAX_CMD_TIMEOUT le_host)))
    by (vm_compute; congruence).
  exact (proj1 (lio_send_rx_ctrl_cmd_waits le_host (answering 0xF 0xF 0) (fresh 4 4) 1 2
                  eq_refl Hto) Hclear Hset Hin).
Defined.

Lemma soft_command_polls_bounded_witness :
  if_cfg_polls le_host (answering 0xF 0xF 0) = 2%nat.
Proof.
  assert (Hclear : forall i, (i < 2)%nat ->
            status_word (if_cfg_sc (answering 0xF 0xF 0) i) = LIO_COMPLETION_WORD_INIT).
  { intros [|[|i]] Hi; [reflexivity|reflexivity|lia]. }
  assert (Hset : status_word (if_cfg_sc (answering 0xF 0xF 0) 2)
                 <> LIO_COMPLETION_WORD_INIT)
    by (vm_compute; congruence).
  assert (Hin : Z.of_nat 2 <= poll_budget (to_uint16 (LIO_MAX_CMD_TIMEOUT le_host)))
    by (vm_compute; congruence).
  exact (proj1 (proj2 (proj2 (soft_command_polls_bounded le_host
                                (answering 0xF 0xF 0) 2)))
           Hclear Hset Hin).
Defined.



Lemma lio_dev_start_outcomes_witness :
  fst (lio_dev_start le_host (answering 0xF 0xF 0) vf_host (answering 0xF 0xF 0)
         (port_of configured_4_4)) = 0.
Proof.
  assert (Hsent : fst (lio_send_rx_ctrl_cmd le_host (answering 0xF 0xF 0)
                         (core (port_of configured_4_4)) 1) = 0)
    by (vm_compute; reflexivity).
  exact (proj2 (proj1 (lio_dev_start_outcomes le_host (answering 0xF 0xF 0) vf_host
                         (answering 0xF 0xF 0) (port_of configured_4_4)))
           (conj eq_refl (conj Hsent eq_refl))).
Defined.

Lemma queue_release_after_configure_witness :
  fst (lio_dev_configure le_host (answering 0xF 0xF (link_word 1 10000)) (fresh 4 4)) = 0
  /\ lio_dev_rx_queue_release vf_host (port_of configured_4_4) (Some 1)
     = Some (port_of configured_4_4)
  /\ lio_dev_tx_queue_release (answering 0xF 0xF (link_word 1 10000))
       (port_of configured_4_4) (Some 1)
     = Some (port_of configured_4_4).
Proof.
  assert (H : fst (lio_dev_configure le_host (answering 0xF 0xF (link_word 1 10000))
                     (fresh 4 4)) = 0)
    by (vm_compute; reflexivity).
  split; [exact H|].
  exact (queue_release_after_configure le_host (answering 0xF 0xF (link_word 1 10000))
           vf_host (port_of configured_4_4) (fresh 4 4) 1 H eq_refl).
Defined.

Lemma lio_check_pf_hs_response_rearms_witness :
  new_calls blank_port (lio_check_pf_hs_response vf_host blank_port)
  = [Call_vf_handle_mbox; Call_check_pf_alarm 1]
  /\ coproc_tics_per_us (att (lio_check_pf_hs_response vf_host blank_port))
     = vf_handle_mbox vf_host 0
  /\ core (lio_check_pf_hs_response vf_host blank_port) = core blank_port.
Proof.
  exact (proj1 (proj2 (lio_check_pf_hs_response_rearms vf_host blank_port)) eq_refl).
Defined.

Lemma lio_first_time_init_outcomes_witness :
  fst (lio_first_time_init vf_host blank_port cn23xx_vf_pdev) = 0
  \/ fst (lio_first_time_init vf_host blank_port cn23xx_vf_pdev) = -1.
Proof.
  exact (proj1 (lio_first_time_init_outcomes vf_host blank_port cn23xx_vf_pdev
                  eq_refl eq_refl eq_refl)).
Defined.

Lemma lio_eth_dev_init_outcomes_witness :
  fst (lio_eth_dev_init vf_host blank_port cn23xx_vf_pdev) = 0
  \/ fst (lio_eth_dev_init vf_host blank_port cn23xx_vf_pdev) = - ENODEV
  \/ fst (lio_eth_dev_init vf_host blank_port cn23xx_vf_pdev) = - EINVAL
  \/ fst (lio_eth_dev_init vf_host blank_port cn23xx_vf_pdev) = - ENOMEM.
Proof.
  exact (proj1 (proj2 (lio_eth_dev_init_outcomes vf_host blank_port cn23xx_vf_pdev
                         eq_refl eq_refl eq_refl) eq_refl)).
Defined.

Lemma lio_eth_dev_uninit_outcomes_witness :
  fst (lio_eth_dev_uninit vf_host blank_port) = 0
  /\ new_calls blank_port (snd (lio_eth_dev_uninit vf_host blank_port))
     = [Call_free_sc_buffer_pool; Core Ev_free].
Proof.
  pose proof (proj2 (lio_eth_dev_uninit_outcomes vf_host blank_port) eq_refl) as H.
  cbv zeta in H. exact (conj (proj1 H) (proj1 (proj2 H))).
Defined.

(** Attaching the sample port succeeds and leaves it ready to be
    configured. *)
Example attach_sample :
  fst (lio_eth_dev_init vf_host blank_port cn23xx_vf_pdev) = 0
  /\ max_rx_queues (att (snd (lio_eth_dev_init vf_host blank_port cn23xx_vf_pdev))) = 8
  /\ coproc_tics_per_us
       (att (snd (lio_eth_dev_init vf_host blank_port cn23xx_vf_pdev))) = 1000.
Proof. vm_compute. repeat split. Qed.

(** A device of another kind is refused. *)
Example attach_other_device :
  fst (lio_eth_dev_init vf_host blank_port
         {| device_id := 0x9702; mem_resource0 := Some 4096 |}) = - EINVAL.
Proof. reflexivity. Qed.
